(** * network_tool: DNS and routing-data lookups

    A shallow embedding of [src/network_tool.py]: the dispatcher [main], the
    routing-data lookup [bgp] with its helper [get_ip_or_none], and the DNS
    lookup [fqdn].

    The program talks to the outside (an HTTP API, a DNS resolver, the
    terminal).  What it receives is read from a [World]; what it does is
    recorded as a trace of [event]s next to the outcome of the call, which is
    a normal return or a Python exception that left the function. *)

From Stdlib Require Import String Ascii List ZArith NArith Bool DecimalString DecimalN Lia.
Import ListNotations.
Local Open Scope list_scope.
Local Open Scope string_scope.
Local Set Warnings "-register-all".

(** ** Python exceptions *)

Inductive exn_class :=
| ValueError | KeyError | IndexError | TypeError | AttributeError
| NotRenderableError | MarkupError | RequestException | NoResolverConfiguration.

(** An exception object: its class and the text [str(e)] gives. *)
Inductive exn := Exn (cls : exn_class) (msg : string).

Definition exn_cls (e : exn) : exn_class := let '(Exn c _) := e in c.
Definition exn_str (e : exn) : string := let '(Exn _ m) := e in m.

Definition exn_class_eqb (a b : exn_class) : bool :=
  match a, b with
  | ValueError, ValueError | KeyError, KeyError | IndexError, IndexError
  | TypeError, TypeError | AttributeError, AttributeError
  | NotRenderableError, NotRenderableError | MarkupError, MarkupError
  | RequestException, RequestException
  | NoResolverConfiguration, NoResolverConfiguration => true
  | _, _ => false
  end.

(** [except ValueError], [except requests.exceptions.RequestException] and
    [except Exception].  All the classes derive from [Exception].  The
    [JSONDecodeError] of [requests] derives from both [RequestException] and
    [ValueError]; it is raised inside the inner [try] only, whose
    [except RequestException] comes first, so it is held here as a
    [RequestException]. *)
Definition except_ValueError (e : exn) : bool := exn_class_eqb (exn_cls e) ValueError.
Definition except_RequestException (e : exn) : bool :=
  exn_class_eqb (exn_cls e) RequestException.
Definition except_Exception (e : exn) : bool := true.

Inductive result (A : Type) := Ok (a : A) | Raise (e : exn).
Arguments Ok {A} a.
Arguments Raise {A} e.

Definition bind_result {A B} (r : result A) (k : A -> result B) : result B :=
  match r with
  | Ok a => k a
  | Raise e => Raise e
  end.

Notation "x <~ r ; k" := (bind_result r (fun x => k))
  (at level 61, r at next level, right associativity).

(** ** Python strings

    A [str] is modelled on the code points 0 to 255, one [ascii] each. *)

Definition code (c : ascii) : N := N_of_ascii c.

Fixpoint all_chars (p : ascii -> bool) (s : string) : bool :=
  match s with
  | "" => true
  | String c rest => p c && all_chars p rest
  end.

Definition has_char (c : ascii) (s : string) : bool :=
  negb (all_chars (fun d => negb (Ascii.eqb d c)) s).

Definition nonempty (s : string) : bool :=
  match s with "" => false | String _ _ => true end.

(** The ASCII digits: the decimal digits (category Nd) below 256. *)
Definition is_decimal (c : ascii) : bool :=
  ((48 <=? code c) && (code c <=? 57))%N.

(** Superscript two, three and one: digits for [str.isdigit], not decimal. *)
Definition is_superscript_digit (c : ascii) : bool :=
  ((code c =? 178) || (code c =? 179) || (code c =? 185))%N.

Definition char_isdigit (c : ascii) : bool := is_decimal c || is_superscript_digit c.

(** [str.isdigit]: at least one character, and all of them digits. *)
Definition isdigit (s : string) : bool := nonempty s && all_chars char_isdigit s.

Definition digit_value (c : ascii) : N := (code c - 48)%N.

Fixpoint decimal_value_from (acc : N) (s : string) : N :=
  match s with
  | "" => acc
  | String c rest => decimal_value_from (acc * 10 + digit_value c)%N rest
  end.

Definition decimal_value (s : string) : N := decimal_value_from 0 s.

(** [str] of an [int]. *)
Definition str_N (n : N) : string := NilZero.string_of_uint (N.to_uint n).
Definition str_Z (z : Z) : string := NilZero.string_of_int (Z.to_int z).

Fixpoint join (sep : string) (parts : list string) : string :=
  match parts with
  | [] => ""
  | [p] => p
  | p :: rest => p ++ sep ++ join sep rest
  end.

(** [needle in hay] *)
Fixpoint contains (needle hay : string) : bool :=
  String.prefix needle hay ||
  match hay with
  | "" => false
  | String _ rest => contains needle rest
  end.

(** [repr] of a [str]: quoted with ['] unless the text holds a ['] and no
    double quote; the quote, the backslash and what does not print are
    escaped. *)
Definition dquote : ascii := "034"%char.
Definition squote : ascii := "039"%char.
Definition backslash : ascii := "092"%char.

Definition hex_digit (n : N) : ascii :=
  ascii_of_N (if (n <? 10)%N then 48 + n else 87 + n)%N.

Definition hex_escape (c : ascii) : string :=
  String backslash (String "x" (String (hex_digit (code c / 16)) (String (hex_digit (code c mod 16)) ""))).

Definition printable_above_ascii (c : ascii) : bool :=
  ((161 <=? code c) && negb (code c =? 173))%N.

Definition repr_char (quote c : ascii) : string :=
  if Ascii.eqb c quote || Ascii.eqb c backslash then String backslash (String c "")
  else if (code c =? 9)%N then String backslash "t"
  else if (code c =? 10)%N then String backslash "n"
  else if (code c =? 13)%N then String backslash "r"
  else if ((code c <? 32) || (code c =? 127))%N then hex_escape c
  else if (code c <? 127)%N then String c ""
  else if printable_above_ascii c then String c ""
  else hex_escape c.

Fixpoint repr_chars (quote : ascii) (s : string) : string :=
  match s with
  | "" => ""
  | String c rest => repr_char quote c ++ repr_chars quote rest
  end.

Definition repr_str (s : string) : string :=
  let quote := if has_char squote s && negb (has_char dquote s) then dquote else squote in
  String quote (repr_chars quote s ++ String quote "").

(** The decimal digits [int] reads before anything else. *)
Fixpoint leading_decimals (s : string) : nat :=
  match s with
  | "" => 0
  | String c rest => if is_decimal c then S (leading_decimals rest) else 0
  end.

(** [sys.get_int_max_str_digits()], as the interpreter starts. *)
Definition int_max_str_digits : N := 4300.

(** [int(s)] for a string that passed [str.isdigit], the only place the
    program calls it: signs, blanks and underscores cannot occur there.  More
    digits than the interpreter converts are refused, and so is a digit that
    is not decimal. *)
Definition py_int (s : string) : result N :=
  if (int_max_str_digits <? N.of_nat (leading_decimals s))%N
  then Raise (Exn ValueError
                ("Exceeds the limit (" ++ str_N int_max_str_digits
                 ++ " digits) for integer string conversion: value has "
                 ++ str_N (N.of_nat (leading_decimals s))
                 ++ " digits; use sys.set_int_max_str_digits() to increase the limit"))
  else if nonempty s && all_chars is_decimal s then Ok (decimal_value s)
  else Raise (Exn ValueError ("invalid literal for int() with base 10: " ++ repr_str s)).

(** ** Decoded JSON: the value of [response.json()]

    Numbers are the integers (the numeric fields of the API are), each
    within the digits the decoder converts; an object keeps its pairs in
    insertion order, each key once. *)

Inductive json :=
| JNull
| JBool (b : bool)
| JNum (z : Z)
| JStr (s : string)
| JArr (items : list json)
| JObj (fields : list (string * json)).

Definition type_name (v : json) : string :=
  match v with
  | JNull => "NoneType"
  | JBool _ => "bool"
  | JNum _ => "int"
  | JStr _ => "str"
  | JArr _ => "list"
  | JObj _ => "dict"
  end.

Fixpoint lookup (key : string) (fields : list (string * json)) : option json :=
  match fields with
  | [] => None
  | (k, v) :: rest => if String.eqb k key then Some v else lookup key rest
  end.

(** [d.get(key, default)] *)
Definition dict_get (d : json) (key : string) (default : json) : result json :=
  match d with
  | JObj fields =>
      match lookup key fields with
      | Some v => Ok v
      | None => Ok default
      end
  | _ => Raise (Exn AttributeError
                  ("'" ++ type_name d ++ "' object has no attribute 'get'"))
  end.

(** [d[key]] with a [str] key *)
Definition subscript (d : json) (key : string) : result json :=
  match d with
  | JObj fields =>
      match lookup key fields with
      | Some v => Ok v
      | None => Raise (Exn KeyError (repr_str key))
      end
  | JArr _ => Raise (Exn TypeError "list indices must be integers or slices, not str")
  | JStr _ => Raise (Exn TypeError "string indices must be integers, not 'str'")
  | _ => Raise (Exn TypeError ("'" ++ type_name d ++ "' object is not subscriptable"))
  end.

Fixpoint chars (s : string) : list json :=
  match s with
  | "" => []
  | String c rest => JStr (String c "") :: chars rest
  end.

(** The items a [for] loop over [v] visits. *)
Definition py_iter (v : json) : result (list json) :=
  match v with
  | JArr items => Ok items
  | JObj fields => Ok (map (fun kv => JStr (fst kv)) fields)
  | JStr s => Ok (chars s)
  | _ => Raise (Exn TypeError ("'" ++ type_name v ++ "' object is not iterable"))
  end.

Definition py_len (v : json) : result N :=
  match v with
  | JArr items => Ok (N.of_nat (List.length items))
  | JObj fields => Ok (N.of_nat (List.length fields))
  | JStr s => Ok (N.of_nat (String.length s))
  | _ => Raise (Exn TypeError ("object of type '" ++ type_name v ++ "' has no len()"))
  end.

(** Truth value of [v] in a condition. *)
Definition truthy (v : json) : bool :=
  match v with
  | JNull => false
  | JBool b => b
  | JNum z => negb (z =? 0)%Z
  | JStr s => nonempty s
  | JArr items => match items with [] => false | _ => true end
  | JObj fields => match fields with [] => false | _ => true end
  end.

Fixpoint py_repr (v : json) : string :=
  match v with
  | JNull => "None"
  | JBool true => "True"
  | JBool false => "False"
  | JNum z => str_Z z
  | JStr s => repr_str s
  | JArr items => "[" ++ join ", " (map py_repr items) ++ "]"
  | JObj fields =>
      "{" ++ join ", " (map (fun kv => repr_str (fst kv) ++ ": " ++ py_repr (snd kv)) fields) ++ "}"
  end.

(** [str(v)] *)
Definition py_str (v : json) : string :=
  match v with
  | JStr s => s
  | _ => py_repr v
  end.


(** ** Traces and outcomes *)

(** A [rich] table: what [Table(title=...)], [add_column] and [add_row] have
    put into it (styles left out). *)
Record Table := mkTable {
  title : string;
  columns : list string;
  rows : list (list string) }.

Inductive event :=
| Print (line : string)           (* print(line) *)
| ConsolePrint (text : string)    (* console.print(text) *)
| ConsoleTable (t : Table)        (* console.print(table, new_line_start=True) *)
| HttpGet (url : string)          (* requests.get(url) *)
| DnsQuery (nameservers : list string) (name rdtype : string).
                                  (* resolver.resolve(name, rdtype) *)

(** A call: what it did, and how it ended. *)
Definition Run (A : Type) : Type := (list event * result A)%type.

Definition ret {A} (a : A) : Run A := ([], Ok a).

Definition bind {A B} (m : Run A) (k : A -> Run B) : Run B :=
  match m with
  | (t, Ok a) => let (t', r) := k a in ((t ++ t')%list, r)
  | (t, Raise e) => (t, Raise e)
  end.

Notation "x <- m ;; k" := (bind m (fun x => k))
  (at level 61, m at next level, right associativity).
Notation "m ;; k" := (bind m (fun _ => k))
  (at level 61, right associativity).

Definition emit (e : event) : Run unit := ([e], Ok tt).
Definition lift {A} (r : result A) : Run A := ([], r).

(** [try: body  except <class> as e: handler] *)
Definition try_except {A} (catches : exn -> bool) (body : Run A)
    (handler : exn -> Run A) : Run A :=
  match body with
  | (t, Raise e) =>
      if catches e then let (t', r) := handler e in ((t ++ t')%list, r)
      else (t, Raise e)
  | (t, Ok a) => (t, Ok a)
  end.

Definition catch_result {A} (catches : exn -> bool) (body : result A)
    (handler : exn -> result A) : result A :=
  match body with
  | Raise e => if catches e then handler e else Raise e
  | Ok a => Ok a
  end.

(** ** Tables *)

Definition new_table (title : string) : Table := mkTable title [] [].

Definition add_column (t : Table) (header : string) : Table :=
  mkTable (title t) (columns t ++ [header])%list (rows t).

(** A row of [str] cells. *)
Definition add_row_text (t : Table) (cells : list string) : Table :=
  mkTable (title t) (columns t) (rows t ++ [cells])%list.

(** What [add_row] makes of one argument: a [str] is kept, [None] is an empty
    cell, any other decoded value is refused. *)
Definition render_cell (v : json) : result string :=
  match v with
  | JStr s => Ok s
  | JNull => Ok ""
  | _ => Raise (Exn NotRenderableError
                  ("unable to render " ++ type_name v
                   ++ "; a string or other renderable object is required"))
  end.

Fixpoint render_cells (cells : list json) : result (list string) :=
  match cells with
  | [] => Ok []
  | v :: rest =>
      s <~ render_cell v;
      ss <~ render_cells rest;
      Ok (s :: ss)
  end.

(** [table.add_row] with these arguments *)
Definition add_row (t : Table) (cells : list json) : result Table :=
  texts <~ render_cells cells;
  Ok (add_row_text t texts).

(** The status mark of a found row, U+2713, in its UTF-8 bytes. *)
Definition check_mark : string := "✓".

(** ** The world outside *)

(** What [rich] prints: a text with its markup, or a table, whose title and
    cells are texts with markup. *)
Inductive renderable :=
| RText (text : string)
| RTable (t : Table).

Definition plain_text (s : string) : bool := negb (has_char "[" s).

(** Nothing in it opens a tag. *)
Definition plain (r : renderable) : bool :=
  match r with
  | RText text => plain_text text
  | RTable t =>
      plain_text (title t) && forallb plain_text (columns t)
      && forallb (forallb plain_text) (rows t)
  end.

(** What [requests.get] does: it raises a [RequestException], or returns a
    response with a status code and a body.  [response.json()] gives the
    decoded body, or raises a [JSONDecodeError] when the body is no JSON, or
    lets through the bare [ValueError] of the decoder for an integer of more
    digits than the interpreter converts. *)
Inductive body :=
| Json (v : json)
| NotJson (msg : string)
| IntegerTooLong (msg : string).
Inductive http_result :=
| ConnectionFailed (msg : string)
| Response (status_code : Z) (content : body).

(** What [resolver.resolve] does: the records, as [str(rdata)] shows them, or
    an exception with its text. *)
Inductive dns_result :=
| Answers (records : list string)
| ResolveFailed (msg : string).

Record World := mkWorld {
  (** [ipaddress]: the network a literal denotes, in canonical text
      ([str(network)]), for a literal that has a ['.'] or a [':'] *)
  parse_network : string -> option string;
  (** the routing-data API *)
  http_get : string -> http_result;
  (** the resolvers the system is configured with *)
  system_nameservers : list string;
  (** the answer of the resolver set up with these nameservers *)
  resolve : list string -> string -> string -> dns_result;
  (** [dns.resolver.Resolver()]: the text of the [NoResolverConfiguration]
      it raises when it cannot read the configuration of the system *)
  configure_error : option string;
  (** the setter of [Resolver.nameservers]: the text of the [ValueError] it
      raises for a nameserver it does not take *)
  nameserver_error : string -> option string;
  (** [rich]: the text of the [MarkupError] it raises for markup it cannot
      close *)
  rich_error : renderable -> option string }.

(** [ipaddress.ip_network(address)]: an IPv4 literal is split at ['.'] into
    four parts and an IPv6 literal at [':'] into three or more, so a string
    with neither character is refused whatever the rest of the parse does. *)
Definition ip_network (w : World) (address : string) : result string :=
  let refused := Raise (Exn ValueError
       (repr_str address ++ " does not appear to be an IPv4 or IPv6 network")) in
  if has_char "." address || has_char ":" address then
    match parse_network w address with
    | Some net => Ok net
    | None => refused
    end
  else refused.

(** Rendering: a text without ['['] has no markup to parse (the renderer
    returns it as it is); any other is up to [rich]. *)
Definition markup_error (w : World) (r : renderable) : option string :=
  if plain r then None else rich_error w r.

(** [console.print(text)] *)
Definition console_print (w : World) (text : string) : Run unit :=
  match markup_error w (RText text) with
  | Some msg => lift (Raise (Exn MarkupError msg))
  | None => emit (ConsolePrint text)
  end.

(** [console.print(table, new_line_start=True)] *)
Definition console_print_table (w : World) (t : Table) : Run unit :=
  match markup_error w (RTable t) with
  | Some msg => lift (Raise (Exn MarkupError msg))
  | None => emit (ConsoleTable t)
  end.

(** [resolver.Resolver()], and its nameservers *)
Definition Resolver (w : World) : result (list string) :=
  match configure_error w with
  | Some msg => Raise (Exn NoResolverConfiguration msg)
  | None => Ok (system_nameservers w)
  end.

(** [resolver.default_resolver.nameservers = [nameserver]] *)
Definition set_nameservers (w : World) (nameserver : string) : result unit :=
  match nameserver_error w nameserver with
  | Some msg => Raise (Exn ValueError msg)
  | None => Ok tt
  end.

(** [requests.get(url)]: the response, as (status_code, body). *)
Definition requests_get (w : World) (url : string) : Run (Z * body) :=
  emit (HttpGet url) ;;
  match http_get w url with
  | ConnectionFailed msg => lift (Raise (Exn RequestException msg))
  | Response status content => ret (status, content)
  end.

(** [response.json()] *)
Definition response_json (content : body) : result json :=
  match content with
  | Json v => Ok v
  | NotJson msg => Raise (Exn RequestException msg)
  | IntegerTooLong msg => Raise (Exn ValueError msg)
  end.

(** ** The routing-data lookup *)

Definition BGPVIEW : string := "https://api.bgpview.io".

Definition get_ip_or_none (w : World) (ip_str : string) : result (option string) :=
  catch_result except_ValueError
    (net <~ ip_network w ip_str; Ok (Some net))
    (fun _ => Ok None).

(** [str(asn)] for the local [asn], [None] until a token is converted. *)
Definition str_asn (asn : option N) : string :=
  match asn with
  | Some n => str_N n
  | None => "None"
  end.

(** Lines 46 to 52: the loop over the prefixes of an ASN. *)
Fixpoint asn_rows (table : Table) (prefixes : list json) : result Table :=
  match prefixes with
  | [] => Ok table
  | prefix :: rest =>
      name <~ subscript prefix "name";
      pfx <~ subscript prefix "prefix";
      cidr <~ subscript prefix "cidr";
      table' <~ add_row table [name; pfx; JStr (py_str cidr); JStr check_mark];
      asn_rows table' rest
  end.

(** Lines 37 to 52: from the decoded response to the table of an ASN. *)
Definition asn_table (asn : N) (data : json) : result Table :=
  asn_info <~ dict_get data "data" (JObj []);
  prefixes <~ dict_get asn_info "ipv4_prefixes" (JArr []);
  let table := new_table ("ASN " ++ str_N asn ++ " Information") in
  let table := add_column table "Name" in
  let table := add_column table "Prefix" in
  let table := add_column table "CIDR" in
  let table := add_column table "Status" in
  items <~ py_iter prefixes;
  asn_rows table items.

Definition report_error (w : World) (e : exn) : Run unit :=
  console_print w ("[bold red]Error:[/bold red] " ++ exn_str e).

(** Lines 34 to 56. *)
Definition asn_lookup (w : World) (asn : N) : Run unit :=
  try_except except_RequestException
    (response <- requests_get w (BGPVIEW ++ "/asn/" ++ str_N asn ++ "/prefixes") ;;
     if (fst response =? 200)%Z then
       data <- lift (response_json (snd response)) ;;
       table <- lift (asn_table asn data) ;;
       console_print_table w table
     else ret tt)
    (report_error w).

(** Lines 90 to 98: the rows of one owning ASN. *)
Fixpoint upstream_rows (table : Table) (asn : json) (upstreams : list json)
    : result Table :=
  match upstreams with
  | [] => Ok table
  | upstream_asn :: rest =>
      number <~ subscript asn "asn";
      name <~ subscript asn "name";
      description <~ subscript asn "description";
      country_code <~ subscript asn "country_code";
      upstream_number <~ subscript upstream_asn "asn";
      upstream_name <~ subscript upstream_asn "name";
      table' <~ add_row table [JStr (py_str number); name; description; country_code;
                               JStr (py_str upstream_number); upstream_name];
      upstream_rows table' asn rest
  end.

(** Lines 89 to 98: the loop over the owning ASNs. *)
Fixpoint asn_detail_rows (table : Table) (asns : list json) : result Table :=
  match asns with
  | [] => Ok table
  | asn :: rest =>
      prefix_upstreams <~ subscript asn "prefix_upstreams";
      upstreams <~ py_iter prefix_upstreams;
      table' <~ upstream_rows table asn upstreams;
      asn_detail_rows table' rest
  end.

(** Lines 73 to 80: the one row of the prefix table. *)
Definition prefix_summary_row (prefix_table : Table) (prefix_info : json) : result Table :=
  name <~ subscript prefix_info "name";
  pfx <~ subscript prefix_info "prefix";
  ip <~ subscript prefix_info "ip";
  test <~ subscript prefix_info "description_short";
  description <~ (if truthy test then subscript prefix_info "description_short"
                  else Ok (JStr "UNKNOWN"));
  asns <~ subscript prefix_info "asns";
  count <~ py_len asns;
  add_row prefix_table [name; pfx; ip; description; JStr (str_N count); JStr check_mark].

(** Lines 62 to 98: from the decoded response to the two tables of a prefix. *)
Definition prefix_tables (prefix : string) (data : json) : result (Table * Table) :=
  prefix_info <~ dict_get data "data" (JObj []);
  prefixes <~ dict_get prefix_info "ipv4_prefixes" (JArr []);
  let prefix_table := new_table ("Prefix " ++ prefix ++ " Information") in
  let prefix_table := add_column prefix_table "Name" in
  let prefix_table := add_column prefix_table "Prefix" in
  let prefix_table := add_column prefix_table "IP" in
  let prefix_table := add_column prefix_table "Description" in
  let prefix_table := add_column prefix_table "ASN Count" in
  let prefix_table := add_column prefix_table "Status" in
  prefix_table <~ prefix_summary_row prefix_table prefix_info;
  asns <~ subscript prefix_info "asns";
  asn_count <~ py_len asns;
  let asn_table := new_table ("ASN Information for " ++ prefix) in
  let asn_table := add_column asn_table "ASN" in
  let asn_table := add_column asn_table "Name" in
  let asn_table := add_column asn_table "Description" in
  let asn_table := add_column asn_table "Country Code" in
  let asn_table := add_column asn_table "Upstream ASNs" in
  let asn_table := add_column asn_table "Upstream ASN Names" in
  asns <~ subscript prefix_info "asns";
  owners <~ py_iter asns;
  asn_table <~ asn_detail_rows asn_table owners;
  Ok (prefix_table, asn_table).

(** Lines 59 to 104. *)
Definition prefix_lookup (w : World) (prefix : string) : Run unit :=
  try_except except_RequestException
    (response <- requests_get w (BGPVIEW ++ "/prefix/" ++ prefix) ;;
     if (fst response =? 200)%Z then
       data <- lift (response_json (snd response)) ;;
       tables <- lift (prefix_tables prefix data) ;;
       console_print_table w (fst tables) ;;
       console_print_table w (snd tables)
     else ret tt)
    (report_error w).

Definition invalid_value (token : string) : Run unit :=
  emit (Print ("The value passed to --bgp is invalid: " ++ token ++ ".")) ;;
  emit (Print "Make sure the value passed is a valid ASN number of a valid IP Address/Subnet").

Definition bgp (w : World) (token : string) : Run unit :=
  let asn : option N := None in
  try_except except_ValueError
    (if isdigit token then
       asn <- lift (py_int token) ;;
       console_print w ("[bold]BGP ASN:[/bold] " ++ str_N asn) ;;
       asn_lookup w asn
     else
       found <- lift (get_ip_or_none w token) ;;
       match found with
       | Some _ =>
           prefix <- lift (ip_network w token) ;;
           prefix_lookup w prefix
       | None =>
           emit (Print ("Error: Unable to retrieve BGP information for ASN "
                        ++ str_asn asn ++ "."))
       end)
    (fun _ => invalid_value token).

(** ** The DNS lookup *)

Definition rdtypes : list string :=
  ["A"; "AAAA"; "CNAME"; "MX"; "NS"; "SOA"; "PTR"; "SRV"; "TXT"; "CAA"; "DS";
   "DNSKEY"; "RRSIG"; "NSEC"; "NSEC3"; "NSEC3PARAM"].

(** Truth value of an optional [str] argument: [None] and [''] are false. *)
Definition given (s : option string) : bool :=
  match s with
  | Some text => nonempty text
  | None => false
  end.

Definition text_of (s : option string) : string :=
  match s with
  | Some text => text
  | None => "None"
  end.

(** [servers[0]] *)
Definition first_item (servers : list string) : result string :=
  match servers with
  | s :: _ => Ok s
  | [] => Raise (Exn IndexError "list index out of range")
  end.

(** Line 156: the text of the exception has one of the two markers. *)
Definition signals_absence (error_msg : string) : bool :=
  contains "NXDOMAIN" error_msg || contains "NODATA" error_msg.

(** Lines 149 to 157: one record type. *)
Definition collect_rdtype (w : World) (servers : list string) (_fqdn rdtype : string)
    (table : Table) : Table :=
  match resolve w servers _fqdn rdtype with
  | Answers records =>
      fold_left (fun t rdata => add_row_text t [rdtype; rdata; check_mark]) records table
  | ResolveFailed error_msg =>
      if negb (contains "NXDOMAIN" error_msg) && negb (contains "NODATA" error_msg)
      then add_row_text table [rdtype; ""; "Error: " ++ error_msg]
      else table
  end.

(** Lines 148 to 157: the loop over the record types. *)
Fixpoint collect (w : World) (servers : list string) (_fqdn : string)
    (types : list string) (table : Table) : Run Table :=
  match types with
  | [] => ret table
  | rdtype :: rest =>
      emit (DnsQuery servers _fqdn rdtype) ;;
      collect w servers _fqdn rest (collect_rdtype w servers _fqdn rdtype table)
  end.

Definition fqdn (w : World) (_fqdn : string) (nameserver : option string) : Run unit :=
  try_except except_Exception
    (system_nameservers <-
       (if given nameserver then
          console_print w ("[bold]FQDN:[/bold] " ++ _fqdn
                           ++ ", [bold]Nameserver:[/bold] " ++ text_of nameserver) ;;
          lift (set_nameservers w (text_of nameserver)) ;;
          ret []
        else
          configured <- lift (Resolver w) ;;
          console_print w ("[bold]FQDN:[/bold] " ++ _fqdn
                           ++ ", [bold]Nameserver:[/bold] "
                           ++ match configured with s :: _ => s | [] => "unknown" end) ;;
          ret configured) ;;
     let servers := if given nameserver then [text_of nameserver] else system_nameservers in
     shown <- lift (if given nameserver then Ok (text_of nameserver)
                    else first_item system_nameservers) ;;
     let table := new_table ("DNS Records for " ++ _fqdn ++ " using nameserver: " ++ shown) in
     let table := add_column table "Record Type" in
     let table := add_column table "Data" in
     let table := add_column table "Status" in
     table <- collect w servers _fqdn rdtypes table ;;
     console_print_table w table)
    (report_error w).

(** ** The dispatcher *)

(** The parsed command line.  [--fqdn], [--nameserver], [--subnet] and
    [--target-host] take [nargs=1]: a list of exactly one string, held here
    as its element; [--bgp] is a plain string.  An option not given is
    [None]. *)
Record Namespace := mkNamespace {
  arg_fqdn : option string;
  arg_nameserver : option string;
  arg_subnet : option string;
  arg_target_host : option string;
  arg_bgp : option string }.

Definition is_None {A} (o : option A) : bool :=
  match o with
  | None => true
  | Some _ => false
  end.

Definition main (w : World) (args : Namespace) : Run unit :=
  if is_None (arg_fqdn args) && is_None (arg_nameserver args) && is_None (arg_subnet args)
     && is_None (arg_target_host args) && is_None (arg_bgp args)
  then emit (Print "No arguments provided. Use --help for more information.")
  else
    match arg_fqdn args, arg_nameserver args with
    | Some name, Some ns => fqdn w name (Some ns)
    | Some name, None => fqdn w name None
    | None, _ =>
        match arg_bgp args with
        | Some token => if nonempty token then bgp w token else ret tt
        | None => ret tt
        end
    end.

(** ** Reading a trace *)

Definition http_requests (t : list event) : list string :=
  flat_map (fun e => match e with HttpGet url => [url] | _ => [] end) t.

Definition dns_queries (t : list event) : list string :=
  flat_map (fun e => match e with DnsQuery _ _ rdtype => [rdtype] | _ => [] end) t.

Definition is_network_call (e : event) : bool :=
  match e with
  | HttpGet _ | DnsQuery _ _ _ => true
  | _ => false
  end.

Definition network_calls (t : list event) : list event := filter is_network_call t.

Definition tables_shown (t : list event) : list Table :=
  flat_map (fun e => match e with ConsoleTable tb => [tb] | _ => [] end) t.

(** ** Reference definitions, in the words of the specification *)

(** RoutingIdentifier, and the classification of section 4.2: (a) every
    character a decimal digit: an ASN; (b) else parsed as an IP network;
    failing that, invalid. *)
Inductive RoutingIdentifier :=
| Asn (number : N)
| Prefix (cidr : string)
| Invalid.

Definition classify (w : World) (token : string) : RoutingIdentifier :=
  if all_chars is_decimal token then Asn (decimal_value token)
  else match ip_network w token with
       | Ok cidr => Prefix cidr
       | Raise _ => Invalid
       end.

(** A field of an object of the API ([null] when there is none). *)
Definition field (key : string) (v : json) : json :=
  match v with
  | JObj fields =>
      match lookup key fields with
      | Some x => x
      | None => JNull
      end
  | _ => JNull
  end.

Definition has_field (key : string) (v : json) : bool :=
  match v with
  | JObj fields => negb (is_None (lookup key fields))
  | _ => false
  end.

(** A text field: present, and a string or [null]. *)
Definition has_text (key : string) (v : json) : bool :=
  match v with
  | JObj fields =>
      match lookup key fields with
      | Some (JStr _) | Some JNull => true
      | _ => false
      end
  | _ => false
  end.

Definition cell_text (v : json) : string :=
  match v with
  | JStr s => s
  | _ => ""
  end.

(** [data.ipv4_prefixes], absent read as the empty list. *)
Definition ipv4_prefixes_of (data : json) : option (list json) :=
  match data with
  | JObj top =>
      match lookup "data" top with
      | None => Some []
      | Some (JObj info) =>
          match lookup "ipv4_prefixes" info with
          | None => Some []
          | Some (JArr entries) => Some entries
          | Some _ => None
          end
      | Some _ => None
      end
  | _ => None
  end.

(** An entry [{ name, prefix, cidr }] of [ipv4_prefixes], and its
    AsnPrefixRow. *)
Definition is_prefix_entry (e : json) : bool :=
  has_text "name" e && has_text "prefix" e && has_field "cidr" e.

Definition AsnPrefixRow_of (e : json) : list string :=
  [cell_text (field "name" e); cell_text (field "prefix" e);
   py_str (field "cidr" e); check_mark].

(** An upstream [{ asn, name }] and an owning ASN
    [{ asn, name, description, country_code, prefix_upstreams }]. *)
Definition is_array (v : json) : bool :=
  match v with
  | JArr _ => true
  | _ => false
  end.

Definition items_of (v : json) : list json :=
  match v with
  | JArr items => items
  | _ => []
  end.

Definition upstreams_of (owner : json) : list json :=
  items_of (field "prefix_upstreams" owner).

Definition is_upstream (u : json) : bool := has_field "asn" u && has_text "name" u.

Definition is_owner (owner : json) : bool :=
  has_field "prefix_upstreams" owner && is_array (field "prefix_upstreams" owner)
  && match upstreams_of owner with
     | [] => true
     | ups => has_field "asn" owner && has_text "name" owner
              && has_text "description" owner && has_text "country_code" owner
              && forallb is_upstream ups
     end.

Definition AsnDetailRow_of (owner upstream : json) : list string :=
  [py_str (field "asn" owner); cell_text (field "name" owner);
   cell_text (field "description" owner); cell_text (field "country_code" owner);
   py_str (field "asn" upstream); cell_text (field "name" upstream)].

(** The object [data] of a prefix response. *)
Definition owners_of (info : json) : list json := items_of (field "asns" info).

Definition is_prefix_info (info : json) : bool :=
  has_text "name" info && has_text "prefix" info && has_text "ip" info
  && has_text "description_short" info
  && has_field "asns" info && is_array (field "asns" info).

Definition description_of (info : json) : string :=
  match field "description_short" info with
  | JStr (String c rest) => String c rest
  | _ => "UNKNOWN"
  end.

Definition PrefixSummaryRow_of (info : json) : list string :=
  [cell_text (field "name" info); cell_text (field "prefix" info);
   cell_text (field "ip" info); description_of info;
   str_N (N.of_nat (List.length (owners_of info))); check_mark].

(** ** A world for the worked examples *)

(** [s.split(sep)] *)
Fixpoint split (sep : ascii) (s : string) : list string :=
  match s with
  | "" => [""]
  | String c rest =>
      if Ascii.eqb c sep then "" :: split sep rest
      else match split sep rest with
           | part :: parts => String c part :: parts
           | [] => [String c ""]
           end
  end.

Definition parse_octet (octet_str : string) : option N :=
  if nonempty octet_str && all_chars is_decimal octet_str
     && (String.length octet_str <=? 3)%nat
     && (String.eqb octet_str "0" || negb (String.prefix "0" octet_str))
     && (decimal_value octet_str <=? 255)%N
  then Some (decimal_value octet_str) else None.

Definition parse_prefixlen (prefixlen_str : string) : option N :=
  if nonempty prefixlen_str && all_chars is_decimal prefixlen_str
     && (decimal_value prefixlen_str <=? 32)%N
  then Some (decimal_value prefixlen_str) else None.

Definition ipv4_address (addr : string) : option (list N) :=
  match map parse_octet (split "." addr) with
  | [Some a; Some b; Some c; Some d] => Some [a; b; c; d]
  | _ => None
  end.

Definition packed (octets : list N) : N :=
  fold_left (fun acc o => acc * 256 + o)%N octets 0%N.

(** IPv4 literals in address or address/prefix-length form, host bits clear:
    the literals of the examples. *)
Definition ipv4_network (address : string) : option string :=
  match split "/" address with
  | [addr] =>
      match ipv4_address addr with
      | Some octets => Some (join "." (map str_N octets) ++ "/32")
      | None => None
      end
  | [addr; len] =>
      match ipv4_address addr, parse_prefixlen len with
      | Some octets, Some n =>
          if (N.land (packed octets) (2 ^ (32 - n) - 1) =? 0)%N
          then Some (join "." (map str_N octets) ++ "/" ++ str_N n)
          else None
      | _, _ => None
      end
  | _ => None
  end.

Definition obj_upstream (number : Z) (name : string) : json :=
  JObj [("asn", JNum number); ("name", JStr name)].

Definition obj_owner (number : Z) (name description country : string)
    (upstreams : list json) : json :=
  JObj [("asn", JNum number); ("name", JStr name); ("description", JStr description);
        ("country_code", JStr country); ("prefix_upstreams", JArr upstreams)].

Definition google_prefix : json :=
  JObj [("status", JStr "ok");
        ("data", JObj [("prefix", JStr "8.8.8.0/24"); ("ip", JStr "8.8.8.0");
                       ("cidr", JNum 24);
                       ("asns", JArr [obj_owner 15169 "GOOGLE" "Google LLC" "US"
                                        [obj_upstream 6453 "AS6453"; obj_upstream 3356 "LEVEL3"];
                                      obj_owner 64500 "EXAMPLE-AS" "Example" "ZZ" []]);
                       ("name", JStr "GOGL"); ("description_short", JStr "")])].

Definition cloudflare_prefixes : json :=
  JObj [("status", JStr "ok");
        ("data", JObj [("ipv4_prefixes",
                        JArr [JObj [("prefix", JStr "1.1.1.0/24"); ("ip", JStr "1.1.1.0");
                                    ("cidr", JNum 24); ("name", JStr "CF-1")]]);
                       ("ipv6_prefixes", JArr [])])].

Definition sample_api (url : string) : http_result :=
  if String.eqb url "https://api.bgpview.io/asn/13335/prefixes"
  then Response 200 (Json cloudflare_prefixes)
  else if String.eqb url "https://api.bgpview.io/asn/15169/prefixes"
  then Response 429 (NotJson "Expecting value: line 1 column 1 (char 0)")
  else if String.eqb url "https://api.bgpview.io/prefix/8.8.8.0/24"
  then Response 200 (Json google_prefix)
  else if String.eqb url "https://api.bgpview.io/prefix/192.0.2.0/24"
  then Response 200 (Json (JObj [("status", JStr "ok"); ("data", JObj [])]))
  else if String.eqb url "https://api.bgpview.io/prefix/198.51.100.0/24"
  then Response 200 (Json (JObj [("data", JObj [("name", JStr "TEST-NET-2");
                                                ("prefix", JStr "198.51.100.0/24");
                                                ("ip", JStr "198.51.100.0");
                                                ("asns", JArr [])])]))
  else if String.eqb url "https://api.bgpview.io/asn/64496/prefixes"
  then Response 200 (Json (JObj [("data", JObj [("ipv4_prefixes",
                                                 JArr [JObj [("prefix", JStr "192.0.2.0/24");
                                                             ("cidr", JNum 24)]])])]))
  else ConnectionFailed "Connection refused".

Definition sample_dns (servers : list string) (name rdtype : string) : dns_result :=
  if String.eqb rdtype "A" then Answers ["93.184.216.34"]
  else if String.eqb rdtype "MX" then ResolveFailed "The resolution lifetime expired"
  else if String.eqb rdtype "NS" then ResolveFailed "NXDOMAIN"
  else ResolveFailed "NODATA".

(** A resolver that takes IPv4 addresses as nameservers. *)
Definition sample_nameserver_error (nameserver : string) : option string :=
  match ipv4_address nameserver with
  | Some _ => None
  | None => Some ("nameserver " ++ nameserver
                  ++ " is not a dns.nameserver.Nameserver instance or text form, "
                  ++ "IP address, nor a valid https URL")
  end.

(** Where [needle] starts in [hay]. *)
Fixpoint index_of (needle hay : string) : option nat :=
  if String.prefix needle hay then Some 0%nat
  else match hay with
       | "" => None
       | String _ rest => option_map S (index_of needle rest)
       end.

(** A renderer that stumbles on the closing tag [[/x]], which the texts of
    the examples never open. *)
Definition stray_tag_error (text : string) : option string :=
  match index_of "[/x]" text with
  | Some i => Some ("closing tag '[/x]' at position " ++ str_N (N.of_nat i)
                    ++ " doesn't match any open tag")
  | None => None
  end.

Fixpoint first_error (texts : list string) : option string :=
  match texts with
  | [] => None
  | text :: rest =>
      match stray_tag_error text with
      | Some msg => Some msg
      | None => first_error rest
      end
  end.

Definition sample_rich (r : renderable) : option string :=
  match r with
  | RText text => stray_tag_error text
  | RTable t => first_error (title t :: columns t ++ concat (rows t))%list
  end.

Definition sample_world : World :=
  mkWorld ipv4_network sample_api ["192.0.2.53"] sample_dns
          None sample_nameserver_error sample_rich.

(** The same, on a system without a configured resolver. *)
Definition bare_world : World :=
  mkWorld ipv4_network sample_api [] sample_dns None sample_nameserver_error sample_rich.

(** A name with an A record and nothing else. *)
Definition only_a_dns (servers : list string) (name rdtype : string) : dns_result :=
  if String.eqb rdtype "A" then Answers ["93.184.216.34"]
  else ResolveFailed ("NODATA " ++ name ++ " " ++ rdtype).

Definition only_a_world : World :=
  mkWorld ipv4_network sample_api ["192.0.2.53"] only_a_dns
          None sample_nameserver_error sample_rich.

Definition no_args : Namespace := mkNamespace None None None None None.

(** Superscript two alone: a digit for [str.isdigit] that [int] refuses. *)
Definition superscript_two : string := String (ascii_of_N 178) "".

(** What a call may raise, and what it may do. *)
Definition raises_within {A} (allowed : exn -> bool) (r : result A) : Prop :=
  match r with
  | Raise e => allowed e = true
  | Ok _ => True
  end.

Definition run_within {A} (events : event -> bool) (allowed : exn -> bool)
    (m : Run A) : Prop :=
  forallb events (fst m) = true /\ raises_within allowed (snd m).

(** The exceptions a response of an unexpected shape raises. *)
Definition data_error (e : exn) : bool :=
  match exn_cls e with
  | KeyError | TypeError | AttributeError | NotRenderableError => true
  | _ => false
  end.

Definition routing_event (e : event) : bool :=
  match e with
  | DnsQuery _ _ _ => false
  | _ => true
  end.

(** The rows one record type adds to the DNS table. *)
Definition dns_rows (outcome : dns_result) (rdtype : string) : list (list string) :=
  match outcome with
  | Answers records => map (fun rdata => [rdtype; rdata; check_mark]) records
  | ResolveFailed error_msg =>
      if signals_absence error_msg then []
      else [[rdtype; ""; "Error: " ++ error_msg]]
  end.

(** The nameservers the resolver of [fqdn] is set up with, and the first
    lines of its output. *)
Definition dns_servers (w : World) (nameserver : option string) : list string :=
  if given nameserver then [text_of nameserver] else system_nameservers w.

Definition dns_header (_fqdn shown : string) : event :=
  ConsolePrint ("[bold]FQDN:[/bold] " ++ _fqdn ++ ", [bold]Nameserver:[/bold] " ++ shown).

Definition dns_table (_fqdn shown : string) (rows : list (list string)) : Table :=
  mkTable ("DNS Records for " ++ _fqdn ++ " using nameserver: " ++ shown)
          ["Record Type"; "Data"; "Status"] rows.

(** ** Vocabulary of the further properties *)

Definition is_object (v : json) : bool :=
  match v with
  | JObj _ => true
  | _ => false
  end.

(** The two addresses of the API, and the line both lookups show for a
    [RequestException]. *)
Definition asn_url (asn : N) : string := BGPVIEW ++ "/asn/" ++ str_N asn ++ "/prefixes".
Definition prefix_url (cidr : string) : string := BGPVIEW ++ "/prefix/" ++ cidr.
Definition error_line (msg : string) : event :=
  ConsolePrint ("[bold red]Error:[/bold red] " ++ msg).
Definition asn_line (asn : N) : event :=
  ConsolePrint ("[bold]BGP ASN:[/bold] " ++ str_N asn).

(** Every row has a cell for every column. *)
Definition well_shaped (t : Table) : Prop :=
  Forall (fun row => List.length row = List.length (columns t)) (rows t).

Definition rows_of_width (n : nat) (t : Table) : Prop :=
  Forall (fun row => List.length row = n) (rows t).

(** The ways a lookup under [url] ends: the status was not 200, and nothing
    is shown; the request failed or the body was no JSON, and one error line
    is shown; the tables are shown; the response had an unexpected shape,
    and the exception leaves the lookup before anything is shown; the
    decoder raised a [ValueError], which leaves the lookup; [rich] refused
    the error line or a table, after the tables before it were shown. *)
Definition lookup_outcome (url : string) (m : Run unit) : Prop :=
  m = ([HttpGet url], Ok tt)
  \/ (exists msg, m = ([HttpGet url; error_line msg], Ok tt))
  \/ (exists tables, tables <> [] /\ Forall well_shaped tables
                     /\ m = ((HttpGet url :: map ConsoleTable tables)%list, Ok tt))
  \/ (exists e, data_error e = true /\ m = ([HttpGet url], Raise e))
  \/ (exists msg, m = ([HttpGet url], Raise (Exn ValueError msg)))
  \/ (exists tables msg,
         Forall well_shaped tables
         /\ m = ((HttpGet url :: map ConsoleTable tables)%list, Raise (Exn MarkupError msg))).

(** The prefixes of an ASN with an IPv6 prefix next to the IPv4 one. *)
Definition cloudflare_both : json :=
  JObj [("data", JObj [("ipv6_prefixes",
                        JArr [JObj [("prefix", JStr "2606:4700::/32"); ("cidr", JNum 32);
                                    ("name", JStr "CF-6")]]);
                       ("ipv4_prefixes",
                        JArr [JObj [("prefix", JStr "1.1.1.0/24"); ("ip", JStr "1.1.1.0");
                                    ("cidr", JNum 24); ("name", JStr "CF-1")]])])].

(** A world whose API answers every request with [{"data": null}]. *)
Definition null_data_world : World :=
  mkWorld ipv4_network (fun _ => Response 200 (Json (JObj [("data", JNull)])))
          ["192.0.2.53"] sample_dns None sample_nameserver_error sample_rich.

(** A resolver that gives up on every query, naming what it asked for. *)
Definition timeout_dns (servers : list string) (name rdtype : string) : dns_result :=
  ResolveFailed ("The resolution lifetime expired: " ++ name ++ " IN " ++ rdtype).

Definition timeout_world : World :=
  mkWorld ipv4_network sample_api ["192.0.2.53"] timeout_dns
          None sample_nameserver_error sample_rich.

(** The texts of the two exceptions of [dnspython] for an absence: the name
    does not exist ([NXDOMAIN]); the name has no record of the type
    ([NoAnswer]). *)
Definition nxdomain_text (qname : string) : string :=
  "The DNS query name does not exist: " ++ qname.

Definition noanswer_text (qname rdtype : string) : string :=
  "The DNS response does not contain an answer to the question: "
  ++ qname ++ " IN " ++ rdtype.

(** A name with an A record and nothing else, as [dnspython] reports it. *)
Definition a_record_only (servers : list string) (name rdtype : string) : dns_result :=
  if String.eqb rdtype "A" then Answers ["93.184.216.34"]
  else ResolveFailed (noanswer_text (name ++ ".") rdtype).

Definition a_record_world : World :=
  mkWorld ipv4_network sample_api ["192.0.2.53"] a_record_only
          None sample_nameserver_error sample_rich.

(** A name that does not exist, as [dnspython] reports it. *)
Definition no_such_name (servers : list string) (name rdtype : string) : dns_result :=
  ResolveFailed (nxdomain_text (name ++ ".")).

Definition no_such_name_world : World :=
  mkWorld ipv4_network sample_api ["192.0.2.53"] no_such_name
          None sample_nameserver_error sample_rich.

(** A system whose resolver configuration cannot be read. *)
Definition unconfigured_world : World :=
  mkWorld ipv4_network sample_api [] sample_dns
          (Some "Resolver configuration could not be read or specified no nameservers.")
          sample_nameserver_error sample_rich.

(** An API that answers every request with an integer too long to decode. *)
Definition long_integer_world : World :=
  mkWorld ipv4_network
          (fun _ => Response 200 (IntegerTooLong
             "Exceeds the limit (4300 digits) for integer string conversion: value has 4301 digits; use sys.set_int_max_str_digits() to increase the limit"))
          ["192.0.2.53"] sample_dns None sample_nameserver_error sample_rich.

Fixpoint repeat_char (c : ascii) (n : nat) : string :=
  match n with
  | O => ""
  | S m => String c (repeat_char c m)
  end.

(** A token of 4301 digits. *)
Definition long_token : string := repeat_char "1" 4301.

Definition is_markup_error (e : exn) : bool := exn_class_eqb (exn_cls e) MarkupError.

(** What may leave [bgp]; what may leave a lookup, inside the
    [except ValueError] of [bgp]; what may be raised inside a lookup. *)
Definition escaping (e : exn) : bool := data_error e || is_markup_error e.
Definition unhandled (e : exn) : bool := escaping e || except_ValueError e.
Definition inside_lookup (e : exn) : bool := unhandled e || except_RequestException e.

(** [rich] prints it. *)
Definition renders (w : World) (r : renderable) : Prop := markup_error w r = None.

Definition asn_line_text (asn : N) : string := "[bold]BGP ASN:[/bold] " ++ str_N asn.
Definition error_text (msg : string) : string := "[bold red]Error:[/bold red] " ++ msg.
Definition header_text (_fqdn shown : string) : string :=
  "[bold]FQDN:[/bold] " ++ _fqdn ++ ", [bold]Nameserver:[/bold] " ++ shown.

(** The nameserver [fqdn] shows, once its resolver is set up: the override
    when the resolver takes it, else the first one of the system. *)
Definition resolver_ready (w : World) (nameserver : option string) : option string :=
  if given nameserver then
    match nameserver_error w (text_of nameserver) with
    | None => Some (text_of nameserver)
    | Some _ => None
    end
  else
    match configure_error w with
    | None => hd_error (system_nameservers w)
    | Some _ => None
    end.

(** The [except ValueError] of [bgp] around a lookup. *)
Definition handled (token : string) (m : Run unit) : Run unit :=
  try_except except_ValueError m (fun _ => invalid_value token).

(** The rows of the table of [fqdn], once every record type is collected. *)
Definition rows_collected (w : World) (servers : list string) (_fqdn : string)
    : list (list string) :=
  flat_map (fun rdtype => dns_rows (resolve w servers _fqdn rdtype) rdtype) rdtypes.

(** The header and the queries of [fqdn]. *)
Definition dns_trace (w : World) (_fqdn : string) (nameserver : option string)
    (shown : string) : list event :=
  (dns_header _fqdn shown :: map (DnsQuery (dns_servers w nameserver) _fqdn) rdtypes)%list.

(** A handler that reports the text of an exception, after the events
    [pre]: the line is shown, or [rich] refuses it. *)
Definition reported (w : World) (pre : list event) (msg : string) : Run unit :=
  ((pre ++ fst (console_print w (error_text msg)))%list,
   snd (console_print w (error_text msg))).


(** An owning ASN with an upstream at least. *)
Definition has_upstreams (owner : json) : bool :=
  match upstreams_of owner with
  | [] => false
  | _ :: _ => true
  end.

(** The row [fqdn] adds for a record type whose query failed with this
    text. *)
Definition error_row (rdtype error_msg : string) : list string :=
  [rdtype; ""; "Error: " ++ error_msg].

(** * Properties *)

(** ** Strings *)

Lemma all_chars_impl (p q : ascii -> bool) (s : string) :
  (forall c, p c = true -> q c = true) ->
  all_chars p s = true -> all_chars q s = true.
Proof.
  intros Hpq. induction s as [|c rest IH]; simpl; [reflexivity|].
  intros H. apply andb_true_iff in H as [Hc Hrest].
  rewrite (Hpq _ Hc), (IH Hrest). reflexivity.
Qed.

Lemma decimal_isdigit (s : string) :
  s <> "" -> all_chars is_decimal s = true -> isdigit s = true.
Proof.
  intros Hne H. unfold isdigit.
  destruct s as [|c rest]; [congruence|].
  change (nonempty (String c rest)) with true. cbn [andb].
  apply all_chars_impl with (p := is_decimal); [|exact H].
  intros d Hd. unfold char_isdigit. rewrite Hd. reflexivity.
Qed.

Lemma isdigit_lacks (c : ascii) (s : string) :
  char_isdigit c = false -> isdigit s = true -> has_char c s = false.
Proof.
  intros Hc H. unfold isdigit in H. apply andb_true_iff in H as [_ H].
  unfold has_char. apply negb_false_iff.
  apply all_chars_impl with (p := char_isdigit); [|exact H].
  intros d Hd. apply negb_true_iff. destruct (Ascii.eqb d c) eqn:E; [|reflexivity].
  apply Ascii.eqb_eq in E. subst d. congruence.
Qed.

Lemma leading_decimals_all (s : string) :
  all_chars is_decimal s = true -> leading_decimals s = String.length s.
Proof.
  induction s as [|c rest IH]; simpl; [reflexivity|].
  intros H. apply andb_true_iff in H as [Hc Hrest]. rewrite Hc, (IH Hrest). reflexivity.
Qed.

Lemma py_int_decimal (s : string) :
  s <> "" -> all_chars is_decimal s = true ->
  (N.of_nat (String.length s) <= int_max_str_digits)%N ->
  py_int s = Ok (decimal_value s).
Proof.
  intros Hne H Hlen. unfold py_int. rewrite (leading_decimals_all _ H).
  apply N.ltb_ge in Hlen. rewrite Hlen, H.
  destruct s; [congruence|reflexivity].
Qed.

Lemma py_int_too_long (s : string) :
  all_chars is_decimal s = true ->
  (int_max_str_digits < N.of_nat (String.length s))%N ->
  exists msg, py_int s = Raise (Exn ValueError msg).
Proof.
  intros H Hlen. unfold py_int. rewrite (leading_decimals_all _ H).
  apply N.ltb_lt in Hlen. rewrite Hlen. eauto.
Qed.

Lemma py_int_refuses (s : string) :
  all_chars is_decimal s = false ->
  exists msg, py_int s = Raise (Exn ValueError msg).
Proof.
  intros H. unfold py_int. rewrite H, andb_false_r.
  destruct (int_max_str_digits <? N.of_nat (leading_decimals s))%N; eauto.
Qed.

Lemma py_int_raises (s : string) (e : exn) :
  py_int s = Raise e -> except_ValueError e = true.
Proof.
  unfold py_int.
  destruct (int_max_str_digits <? N.of_nat (leading_decimals s))%N;
    [|destruct (nonempty s && all_chars is_decimal s)];
    intros H; inversion H; reflexivity.
Qed.

Lemma py_int_ok (s : string) (n : N) :
  py_int s = Ok n ->
  s <> "" /\ all_chars is_decimal s = true
  /\ (N.of_nat (String.length s) <= int_max_str_digits)%N /\ n = decimal_value s.
Proof.
  unfold py_int.
  destruct (int_max_str_digits <? N.of_nat (leading_decimals s))%N eqn:Hlen; [discriminate|].
  destruct (nonempty s && all_chars is_decimal s) eqn:H; [|discriminate].
  apply andb_true_iff in H as [Hne Hdec]. intros E. inversion E.
  rewrite (leading_decimals_all _ Hdec) in Hlen. apply N.ltb_ge in Hlen.
  repeat split; try assumption. intros ->. discriminate Hne.
Qed.

Lemma ip_network_raises (w : World) (address : string) (e : exn) :
  ip_network w address = Raise e -> except_ValueError e = true.
Proof.
  unfold ip_network.
  destruct (has_char "." address || has_char ":" address);
    [destruct (parse_network w address)|]; intros H; inversion H; reflexivity.
Qed.

Lemma ip_network_needs_separator (w : World) (address : string) :
  isdigit address = true -> exists e, ip_network w address = Raise e.
Proof.
  intros H. unfold ip_network.
  rewrite (isdigit_lacks "." address), (isdigit_lacks ":" address) by (reflexivity || exact H).
  simpl. eauto.
Qed.

Lemma get_ip_or_none_refused (w : World) (ip_str : string) (e : exn) :
  ip_network w ip_str = Raise e -> get_ip_or_none w ip_str = Ok None.
Proof.
  intros H. unfold get_ip_or_none. rewrite H. simpl.
  rewrite (ip_network_raises _ _ _ H). reflexivity.
Qed.

Lemma get_ip_or_none_found (w : World) (ip_str cidr : string) :
  ip_network w ip_str = Ok cidr -> get_ip_or_none w ip_str = Ok (Some cidr).
Proof.
  intros H. unfold get_ip_or_none. rewrite H. reflexivity.
Qed.

(** ** What the calls may raise and do *)

Create HintDb pyerr.

Lemma raises_within_ok {A} (allowed : exn -> bool) (a : A) :
  raises_within allowed (Ok a).
Proof. exact I. Qed.

Lemma raises_within_bind {A B} (allowed : exn -> bool) (r : result A)
    (k : A -> result B) :
  raises_within allowed r ->
  (forall a, raises_within allowed (k a)) ->
  raises_within allowed (bind_result r k).
Proof.
  intros Hr Hk. destruct r as [a|e]; simpl; [apply Hk|exact Hr].
Qed.

Lemma raises_within_weaken {A} (p q : exn -> bool) (r : result A) :
  (forall e, p e = true -> q e = true) ->
  raises_within p r -> raises_within q r.
Proof.
  intros Hpq. destruct r as [a|e]; simpl; auto.
Qed.

Lemma dict_get_raises (d : json) (key : string) (default : json) :
  raises_within data_error (dict_get d key default).
Proof.
  destruct d; simpl; try reflexivity. destruct (lookup key fields); exact I.
Qed.

Lemma subscript_raises (d : json) (key : string) :
  raises_within data_error (subscript d key).
Proof.
  destruct d; simpl; try reflexivity. destruct (lookup key fields); simpl; reflexivity || exact I.
Qed.

Lemma py_iter_raises (v : json) : raises_within data_error (py_iter v).
Proof. destruct v; simpl; reflexivity || exact I. Qed.

Lemma py_len_raises (v : json) : raises_within data_error (py_len v).
Proof. destruct v; simpl; reflexivity || exact I. Qed.

Lemma render_cell_raises (v : json) : raises_within data_error (render_cell v).
Proof. destruct v; simpl; reflexivity || exact I. Qed.

#[local] Hint Resolve raises_within_ok raises_within_bind dict_get_raises subscript_raises
  py_iter_raises py_len_raises render_cell_raises : pyerr.

Lemma render_cells_raises (cells : list json) :
  raises_within data_error (render_cells cells).
Proof.
  induction cells as [|v rest IH]; simpl; auto 10 with pyerr.
Qed.

#[local] Hint Resolve render_cells_raises : pyerr.

Lemma add_row_raises (t : Table) (cells : list json) :
  raises_within data_error (add_row t cells).
Proof. unfold add_row. auto with pyerr. Qed.

#[local] Hint Resolve add_row_raises : pyerr.

Lemma asn_rows_raises (prefixes : list json) (table : Table) :
  raises_within data_error (asn_rows table prefixes).
Proof.
  revert table. induction prefixes as [|p rest IH]; intros table; simpl; auto 10 with pyerr.
Qed.

#[local] Hint Resolve asn_rows_raises : pyerr.

Lemma asn_table_raises (asn : N) (data : json) :
  raises_within data_error (asn_table asn data).
Proof. unfold asn_table. auto 10 with pyerr. Qed.

Lemma upstream_rows_raises (asn : json) (upstreams : list json) (table : Table) :
  raises_within data_error (upstream_rows table asn upstreams).
Proof.
  revert table. induction upstreams as [|u rest IH]; intros table; simpl; auto 12 with pyerr.
Qed.

#[local] Hint Resolve upstream_rows_raises : pyerr.

Lemma asn_detail_rows_raises (asns : list json) (table : Table) :
  raises_within data_error (asn_detail_rows table asns).
Proof.
  revert table. induction asns as [|a rest IH]; intros table; simpl; auto 10 with pyerr.
Qed.

#[local] Hint Resolve asn_detail_rows_raises : pyerr.

Lemma prefix_summary_row_raises (table : Table) (info : json) :
  raises_within data_error (prefix_summary_row table info).
Proof.
  unfold prefix_summary_row.
  repeat (apply raises_within_bind; [|intros ?]);
    try match goal with |- context [truthy ?x] => destruct (truthy x) end;
    auto with pyerr.
Qed.

#[local] Hint Resolve prefix_summary_row_raises : pyerr.

Lemma prefix_tables_raises (prefix : string) (data : json) :
  raises_within data_error (prefix_tables prefix data).
Proof. unfold prefix_tables. auto 12 with pyerr. Qed.

Lemma response_json_raises (content : body) :
  raises_within (fun e => except_RequestException e || except_ValueError e)
                (response_json content).
Proof. destruct content; simpl; reflexivity || exact I. Qed.

Lemma run_within_ret {A} events allowed (a : A) : run_within events allowed (ret a).
Proof. split; [reflexivity|exact I]. Qed.

Lemma run_within_emit events allowed (e : event) :
  events e = true -> run_within events allowed (emit e).
Proof. intros H. split; simpl; [rewrite H; reflexivity|exact I]. Qed.

Lemma run_within_lift {A} events allowed (r : result A) :
  raises_within allowed r -> run_within events allowed (lift r).
Proof. intros H. split; [reflexivity|exact H]. Qed.

Lemma run_within_bind {A B} events allowed (m : Run A) (k : A -> Run B) :
  run_within events allowed m ->
  (forall a, run_within events allowed (k a)) ->
  run_within events allowed (bind m k).
Proof.
  intros [Hm Hr] Hk. destruct m as [t [a|e]]; simpl in *.
  - specialize (Hk a). destruct (k a) as [t' r]. destruct Hk as [Hk1 Hk2].
    split; simpl in *; [rewrite forallb_app, Hm, Hk1; reflexivity|exact Hk2].
  - split; assumption.
Qed.

Lemma run_within_weaken {A} events (p q : exn -> bool) (m : Run A) :
  (forall e, p e = true -> q e = true) ->
  run_within events p m -> run_within events q m.
Proof.
  intros Hpq [H1 H2]. split; [exact H1|].
  apply raises_within_weaken with (p := p); assumption.
Qed.

(** A handler that does not raise turns what it catches into a return. *)
Lemma run_within_try {A} events (inner allowed : exn -> bool) (catches : exn -> bool)
    (body : Run A) (handler : exn -> Run A) :
  run_within events inner body ->
  (forall e, run_within events allowed (handler e)) ->
  (forall e, inner e = true -> catches e = false -> allowed e = true) ->
  run_within events allowed (try_except catches body handler).
Proof.
  intros [Hb Hr] Hh Hrest. destruct body as [t [a|e]]; simpl in *.
  - split; [exact Hb|exact I].
  - destruct (catches e) eqn:Hc.
    + specialize (Hh e). destruct (handler e) as [t' r]. destruct Hh as [Hh1 Hh2].
      split; simpl in *; [rewrite forallb_app, Hb, Hh1; reflexivity|exact Hh2].
    + split; simpl; [exact Hb|]. apply Hrest; assumption.
Qed.

(** ** Printing *)

Lemma console_print_renders (w : World) (text : string) :
  renders w (RText text) -> console_print w text = emit (ConsolePrint text).
Proof. unfold renders, console_print. intros ->. reflexivity. Qed.

Lemma console_print_table_renders (w : World) (t : Table) :
  renders w (RTable t) -> console_print_table w t = emit (ConsoleTable t).
Proof. unfold renders, console_print_table. intros ->. reflexivity. Qed.

Lemma plain_renders (w : World) (r : renderable) : plain r = true -> renders w r.
Proof. unfold renders, markup_error. intros ->. reflexivity. Qed.

(** A print shows its text or raises the error of the renderer. *)
Lemma console_print_cases (w : World) (text : string) :
  console_print w text = ([ConsolePrint text], Ok tt)
  \/ exists msg, console_print w text = ([], Raise (Exn MarkupError msg)).
Proof.
  unfold console_print. destruct (markup_error w (RText text)) as [msg|];
    [right; exists msg; reflexivity|left; reflexivity].
Qed.

Lemma console_print_table_cases (w : World) (t : Table) :
  console_print_table w t = ([ConsoleTable t], Ok tt)
  \/ exists msg, console_print_table w t = ([], Raise (Exn MarkupError msg)).
Proof.
  unfold console_print_table.
  destruct (markup_error w (RTable t)) as [msg|];
    [right; exists msg; reflexivity|left; reflexivity].
Qed.

Lemma console_print_within events (w : World) (text : string) :
  events (ConsolePrint text) = true ->
  run_within events is_markup_error (console_print w text).
Proof.
  intros H. destruct (console_print_cases w text) as [-> | [msg ->]].
  - split; simpl; [rewrite H; reflexivity|exact I].
  - split; reflexivity.
Qed.

Lemma console_print_table_within events (w : World) (t : Table) :
  events (ConsoleTable t) = true ->
  run_within events is_markup_error (console_print_table w t).
Proof.
  intros H. destruct (console_print_table_cases w t) as [-> | [msg ->]].
  - split; simpl; [rewrite H; reflexivity|exact I].
  - split; reflexivity.
Qed.

Lemma report_error_within events (w : World) (e : exn) :
  events (ConsolePrint ("[bold red]Error:[/bold red] " ++ exn_str e)) = true ->
  run_within events is_markup_error (report_error w e).
Proof. intros H. unfold report_error. apply console_print_within. exact H. Qed.

Lemma markup_unhandled (e : exn) : is_markup_error e = true -> unhandled e = true.
Proof. intros H. unfold unhandled, escaping. rewrite H, orb_true_r. reflexivity. Qed.

Lemma markup_inside (e : exn) : is_markup_error e = true -> inside_lookup e = true.
Proof. intros H. unfold inside_lookup. rewrite (markup_unhandled _ H). reflexivity. Qed.

Lemma data_error_inside (e : exn) : data_error e = true -> inside_lookup e = true.
Proof. intros H. unfold inside_lookup, unhandled, escaping. rewrite H. reflexivity. Qed.

Lemma decode_error_inside (e : exn) :
  except_RequestException e || except_ValueError e = true -> inside_lookup e = true.
Proof.
  intros H. unfold inside_lookup, unhandled.
  destruct (except_RequestException e), (except_ValueError e); try discriminate;
    rewrite ?orb_true_r; reflexivity.
Qed.

Lemma inside_uncaught (e : exn) :
  inside_lookup e = true -> except_RequestException e = false -> unhandled e = true.
Proof. unfold inside_lookup. intros H Hc. rewrite Hc, orb_false_r in H. exact H. Qed.

Lemma unhandled_uncaught (e : exn) :
  unhandled e = true -> except_ValueError e = false -> escaping e = true.
Proof. unfold unhandled. intros H Hc. rewrite Hc, orb_false_r in H. exact H. Qed.

Lemma requests_get_within (w : World) (url : string) :
  run_within routing_event inside_lookup (requests_get w url).
Proof.
  unfold requests_get. apply run_within_bind; [apply run_within_emit; reflexivity|].
  intros _. destruct (http_get w url); [apply run_within_lift; reflexivity|apply run_within_ret].
Qed.

Lemma asn_lookup_within (w : World) (asn : N) :
  run_within routing_event unhandled (asn_lookup w asn).
Proof.
  unfold asn_lookup.
  apply run_within_try with (inner := inside_lookup).
  - apply run_within_bind; [apply requests_get_within|]. intros response.
    destruct (fst response =? 200)%Z; [|apply run_within_ret].
    apply run_within_bind.
    { apply run_within_lift.
      eapply raises_within_weaken; [apply decode_error_inside|apply response_json_raises]. }
    intros data. apply run_within_bind.
    { apply run_within_lift.
      eapply raises_within_weaken; [apply data_error_inside|apply asn_table_raises]. }
    intros table. eapply run_within_weaken; [apply markup_inside|].
    apply console_print_table_within. reflexivity.
  - intros e. eapply run_within_weaken; [apply markup_unhandled|].
    apply report_error_within. reflexivity.
  - apply inside_uncaught.
Qed.

Lemma prefix_lookup_within (w : World) (prefix : string) :
  run_within routing_event unhandled (prefix_lookup w prefix).
Proof.
  unfold prefix_lookup.
  apply run_within_try with (inner := inside_lookup).
  - apply run_within_bind; [apply requests_get_within|]. intros response.
    destruct (fst response =? 200)%Z; [|apply run_within_ret].
    apply run_within_bind.
    { apply run_within_lift.
      eapply raises_within_weaken; [apply decode_error_inside|apply response_json_raises]. }
    intros data. apply run_within_bind.
    { apply run_within_lift.
      eapply raises_within_weaken; [apply data_error_inside|apply prefix_tables_raises]. }
    intros tables. apply run_within_bind;
      [|intros _]; (eapply run_within_weaken; [apply markup_inside|]);
      apply console_print_table_within; reflexivity.
  - intros e. eapply run_within_weaken; [apply markup_unhandled|].
    apply report_error_within. reflexivity.
  - apply inside_uncaught.
Qed.

Lemma data_error_not_RequestException (e : exn) :
  data_error e = true -> except_RequestException e = false.
Proof. destruct e as [[] msg]; cbv; congruence. Qed.

(** ** The branches of [bgp] *)

Lemma bind_lift_ok {A B} (a : A) (k : A -> Run B) : bind (lift (Ok a)) k = k a.
Proof. unfold bind, lift. destruct (k a) as [t r]. reflexivity. Qed.

Lemma bind_lift_raise {A B} (e : exn) (k : A -> Run B) :
  bind (lift (Raise e)) k = ([], Raise e).
Proof. reflexivity. Qed.

Lemma bind_emit {A} (e : event) (m : Run A) :
  bind (emit e) (fun _ => m) = ((e :: fst m)%list, snd m).
Proof. unfold bind, emit. destruct m as [t r]. reflexivity. Qed.

Lemma bind_emit' {A} (e : event) (m : Run A) :
  bind ([e], Ok tt) (fun _ => m) = ((e :: fst m)%list, snd m).
Proof. apply bind_emit. Qed.

Lemma invalid_value_within (token : string) (allowed : exn -> bool) :
  run_within routing_event allowed (invalid_value token).
Proof.
  unfold invalid_value.
  apply run_within_bind; [apply run_within_emit; reflexivity|].
  intros _. apply run_within_emit. reflexivity.
Qed.

Lemma bgp_within (w : World) (token : string) :
  run_within routing_event escaping (bgp w token).
Proof.
  unfold bgp. apply run_within_try with (inner := unhandled).
  - destruct (isdigit token).
    + destruct (py_int token) as [asn|e] eqn:E.
      * rewrite bind_lift_ok. apply run_within_bind.
        { eapply run_within_weaken; [apply markup_unhandled|].
          apply console_print_within. reflexivity. }
        intros _. apply asn_lookup_within.
      * rewrite bind_lift_raise. split; [reflexivity|]. simpl.
        unfold unhandled. rewrite (py_int_raises _ _ E). apply orb_true_r.
    + destruct (get_ip_or_none w token) as [[cidr|]|e] eqn:E.
      * rewrite bind_lift_ok. destruct (ip_network w token) as [prefix|e] eqn:E2.
        -- rewrite bind_lift_ok. apply prefix_lookup_within.
        -- rewrite bind_lift_raise. split; [reflexivity|]. simpl.
           unfold unhandled. rewrite (ip_network_raises _ _ _ E2). apply orb_true_r.
      * rewrite bind_lift_ok. apply run_within_emit. reflexivity.
      * exfalso. unfold get_ip_or_none in E.
        destruct (ip_network w token) as [net|e'] eqn:E2; simpl in E; [discriminate|].
        rewrite (ip_network_raises _ _ _ E2) in E. discriminate.
  - intros e. apply invalid_value_within.
  - apply unhandled_uncaught.
Qed.

Lemma bgp_asn (w : World) (token : string) :
  token <> "" -> all_chars is_decimal token = true ->
  (N.of_nat (String.length token) <= int_max_str_digits)%N ->
  bgp w token
  = handled token (console_print w (asn_line_text (decimal_value token)) ;;
                   asn_lookup w (decimal_value token)).
Proof.
  intros Hne Hdec Hlen. unfold bgp.
  rewrite (decimal_isdigit _ Hne Hdec), (py_int_decimal _ Hne Hdec Hlen), bind_lift_ok.
  reflexivity.
Qed.

Lemma bgp_prefix (w : World) (token cidr : string) :
  isdigit token = false -> ip_network w token = Ok cidr ->
  bgp w token = handled token (prefix_lookup w cidr).
Proof.
  intros Hd Hnet. unfold bgp.
  rewrite Hd, (get_ip_or_none_found _ _ _ Hnet), bind_lift_ok, Hnet, bind_lift_ok.
  reflexivity.
Qed.

Lemma bgp_not_an_integer (w : World) (token : string) (e : exn) :
  isdigit token = true -> py_int token = Raise e ->
  bgp w token = invalid_value token.
Proof.
  intros Hd Hint. unfold bgp. rewrite Hd, Hint, bind_lift_raise.
  cbn [try_except]. rewrite (py_int_raises _ _ Hint). reflexivity.
Qed.

Lemma bgp_unrecognised (w : World) (token : string) (e : exn) :
  isdigit token = false -> ip_network w token = Raise e ->
  bgp w token = ([Print "Error: Unable to retrieve BGP information for ASN None."], Ok tt).
Proof.
  intros Hd Hnet. unfold bgp.
  rewrite Hd, (get_ip_or_none_refused _ _ _ Hnet). reflexivity.
Qed.

(** What the [except ValueError] of [bgp] makes of a lookup. *)
Lemma handled_passes (token : string) (m : Run unit) :
  (forall msg, snd m <> Raise (Exn ValueError msg)) -> handled token m = m.
Proof.
  intros H. unfold handled. destruct m as [t [[]|[cls msg]]]; cbn [try_except]; [reflexivity|].
  destruct cls; try reflexivity. exfalso. apply (H msg). reflexivity.
Qed.

Lemma handled_caught (token : string) (t : list event) (msg : string) :
  handled token (t, Raise (Exn ValueError msg))
  = ((t ++ [Print ("The value passed to --bgp is invalid: " ++ token ++ ".");
            Print "Make sure the value passed is a valid ASN number of a valid IP Address/Subnet"])%list,
     Ok tt).
Proof. reflexivity. Qed.

(** ** The two lookups on a response *)

Lemma asn_lookup_not_200 (w : World) (asn : N) (status : Z) (content : body) :
  http_get w (asn_url asn) = Response status content -> status <> 200%Z ->
  asn_lookup w asn = ([HttpGet (asn_url asn)], Ok tt).
Proof.
  intros Hget Hstatus. apply Z.eqb_neq in Hstatus.
  unfold asn_lookup, requests_get. fold (asn_url asn). rewrite Hget.
  cbn [bind emit ret lift app fst snd]. rewrite Hstatus. reflexivity.
Qed.

Lemma prefix_lookup_not_200 (w : World) (prefix : string) (status : Z) (content : body) :
  http_get w (prefix_url prefix) = Response status content -> status <> 200%Z ->
  prefix_lookup w prefix = ([HttpGet (prefix_url prefix)], Ok tt).
Proof.
  intros Hget Hstatus. apply Z.eqb_neq in Hstatus.
  unfold prefix_lookup, requests_get. fold (prefix_url prefix). rewrite Hget.
  cbn [bind emit ret lift app fst snd]. rewrite Hstatus. reflexivity.
Qed.

Lemma asn_lookup_json (w : World) (asn : N) (data : json) :
  http_get w (asn_url asn) = Response 200 (Json data) ->
  asn_lookup w asn
  = match asn_table asn data with
    | Ok table => ((HttpGet (asn_url asn) :: fst (console_print_table w table))%list,
                   snd (console_print_table w table))
    | Raise e => ([HttpGet (asn_url asn)], Raise e)
    end.
Proof.
  intros Hget. unfold asn_lookup, requests_get. fold (asn_url asn). rewrite Hget.
  cbn [bind emit ret lift app fst snd Z.eqb Pos.eqb response_json].
  pose proof (asn_table_raises asn data) as Hr.
  destruct (asn_table asn data) as [table|e].
  - destruct (console_print_table_cases w table) as [-> | [msg ->]]; reflexivity.
  - simpl in Hr. cbn [try_except]. rewrite (data_error_not_RequestException _ Hr). reflexivity.
Qed.

Lemma prefix_lookup_json (w : World) (prefix : string) (data : json) :
  http_get w (prefix_url prefix) = Response 200 (Json data) ->
  prefix_lookup w prefix
  = match prefix_tables prefix data with
    | Ok tables =>
        bind (emit (HttpGet (prefix_url prefix)))
             (fun _ => bind (console_print_table w (fst tables))
                            (fun _ => console_print_table w (snd tables)))
    | Raise e => ([HttpGet (prefix_url prefix)], Raise e)
    end.
Proof.
  intros Hget. unfold prefix_lookup, requests_get. fold (prefix_url prefix). rewrite Hget.
  cbn [bind emit ret lift app fst snd Z.eqb Pos.eqb response_json].
  pose proof (prefix_tables_raises prefix data) as Hr.
  destruct (prefix_tables prefix data) as [tables|e].
  - destruct (console_print_table_cases w (fst tables)) as [-> | [msg ->]];
      [|reflexivity].
    destruct (console_print_table_cases w (snd tables)) as [-> | [msg ->]]; reflexivity.
  - simpl in Hr. cbn [try_except]. rewrite (data_error_not_RequestException _ Hr). reflexivity.
Qed.

(** A request that failed, or a body that is no JSON: the handler of the
    lookup reports the text. *)
Lemma asn_lookup_reported (w : World) (asn : N) (msg : string) :
  http_get w (asn_url asn) = ConnectionFailed msg
  \/ http_get w (asn_url asn) = Response 200 (NotJson msg) ->
  asn_lookup w asn
  = ((HttpGet (asn_url asn) :: fst (console_print w (error_text msg)))%list,
     snd (console_print w (error_text msg))).
Proof.
  intros [Hget|Hget]; unfold asn_lookup, requests_get; fold (asn_url asn); rewrite Hget;
    cbn [bind emit ret lift app fst snd Z.eqb Pos.eqb response_json try_except
         except_RequestException exn_cls exn_class_eqb];
    unfold report_error; cbn [exn_str]; fold (error_text msg);
    destruct (console_print_cases w (error_text msg)) as [-> | [m ->]]; reflexivity.
Qed.

Lemma prefix_lookup_reported (w : World) (prefix msg : string) :
  http_get w (prefix_url prefix) = ConnectionFailed msg
  \/ http_get w (prefix_url prefix) = Response 200 (NotJson msg) ->
  prefix_lookup w prefix
  = ((HttpGet (prefix_url prefix) :: fst (console_print w (error_text msg)))%list,
     snd (console_print w (error_text msg))).
Proof.
  intros [Hget|Hget]; unfold prefix_lookup, requests_get; fold (prefix_url prefix);
    rewrite Hget;
    cbn [bind emit ret lift app fst snd Z.eqb Pos.eqb response_json try_except
         except_RequestException exn_cls exn_class_eqb];
    unfold report_error; cbn [exn_str]; fold (error_text msg);
    destruct (console_print_cases w (error_text msg)) as [-> | [m ->]]; reflexivity.
Qed.

Lemma asn_lookup_long_integer (w : World) (asn : N) (msg : string) :
  http_get w (asn_url asn) = Response 200 (IntegerTooLong msg) ->
  asn_lookup w asn = ([HttpGet (asn_url asn)], Raise (Exn ValueError msg)).
Proof.
  intros Hget. unfold asn_lookup, requests_get. fold (asn_url asn). rewrite Hget.
  reflexivity.
Qed.

Lemma prefix_lookup_long_integer (w : World) (prefix msg : string) :
  http_get w (prefix_url prefix) = Response 200 (IntegerTooLong msg) ->
  prefix_lookup w prefix = ([HttpGet (prefix_url prefix)], Raise (Exn ValueError msg)).
Proof.
  intros Hget. unfold prefix_lookup, requests_get. fold (prefix_url prefix). rewrite Hget.
  reflexivity.
Qed.

(** ** Inverting the steps of a computation *)

Lemma bind_result_ok {A B} (r : result A) (k : A -> result B) (b : B) :
  bind_result r k = Ok b -> exists a, r = Ok a /\ k a = Ok b.
Proof. destruct r as [a|e]; simpl; [eauto|discriminate]. Qed.

Ltac bind_ok H :=
  let a := fresh "v" in
  let E := fresh "E" in
  apply bind_result_ok in H; destruct H as [a [E H]].

Lemma render_cells_length (cells : list json) (texts : list string) :
  render_cells cells = Ok texts -> List.length texts = List.length cells.
Proof.
  revert texts. induction cells as [|v rest IH]; intros texts H; simpl in H.
  - inversion H. reflexivity.
  - bind_ok H. bind_ok H. inversion H. simpl. f_equal. apply IH. assumption.
Qed.

Lemma add_row_ok (t t' : Table) (cells : list json) :
  add_row t cells = Ok t' ->
  exists texts, t' = add_row_text t texts /\ List.length texts = List.length cells.
Proof.
  unfold add_row. intros H. bind_ok H. inversion H.
  eexists. split; [reflexivity|]. apply render_cells_length. assumption.
Qed.

Lemma add_row_width (n : nat) (t t' : Table) (cells : list json) :
  add_row t cells = Ok t' -> List.length cells = n ->
  rows_of_width n t ->
  columns t' = columns t /\ title t' = title t /\ rows_of_width n t'.
Proof.
  intros H Hn Hrows. destruct (add_row_ok _ _ _ H) as [texts [-> Hlen]].
  repeat split. unfold rows_of_width, add_row_text. cbn [rows].
  apply Forall_app. split; [exact Hrows|]. constructor; [congruence|constructor].
Qed.

(** ** The shape of the tables *)

Lemma asn_rows_width (prefixes : list json) (table table' : Table) :
  asn_rows table prefixes = Ok table' ->
  rows_of_width 4 table ->
  columns table' = columns table /\ rows_of_width 4 table'.
Proof.
  revert table. induction prefixes as [|p rest IH]; intros table H Hrows; simpl in H.
  - inversion H; subst. split; [reflexivity|assumption].
  - do 4 bind_ok H.
    match goal with Hadd : add_row _ _ = Ok _ |- _ =>
      destruct (add_row_width 4 _ _ _ Hadd eq_refl Hrows) as [Hc [_ Hw]] end.
    destruct (IH _ H Hw) as [Hc' Hw']. split; [congruence|assumption].
Qed.

Lemma asn_table_shape (asn : N) (data : json) (table : Table) :
  asn_table asn data = Ok table -> well_shaped table.
Proof.
  unfold asn_table. intros H. do 3 bind_ok H.
  apply asn_rows_width in H; [|constructor]. destruct H as [Hc Hw].
  unfold well_shaped. rewrite Hc. exact Hw.
Qed.

Lemma upstream_rows_width (asn : json) (upstreams : list json) (table table' : Table) :
  upstream_rows table asn upstreams = Ok table' ->
  rows_of_width 6 table ->
  columns table' = columns table /\ rows_of_width 6 table'.
Proof.
  revert table. induction upstreams as [|u rest IH]; intros table H Hrows; simpl in H.
  - inversion H; subst. split; [reflexivity|assumption].
  - do 7 bind_ok H.
    match goal with Hadd : add_row _ _ = Ok _ |- _ =>
      destruct (add_row_width 6 _ _ _ Hadd eq_refl Hrows) as [Hc [_ Hw]] end.
    destruct (IH _ H Hw) as [Hc' Hw']. split; [congruence|assumption].
Qed.

Lemma asn_detail_rows_width (asns : list json) (table table' : Table) :
  asn_detail_rows table asns = Ok table' ->
  rows_of_width 6 table ->
  columns table' = columns table /\ rows_of_width 6 table'.
Proof.
  revert table. induction asns as [|a rest IH]; intros table H Hrows; simpl in H.
  - inversion H; subst. split; [reflexivity|assumption].
  - do 3 bind_ok H.
    match goal with Hup : upstream_rows _ _ _ = Ok _ |- _ =>
      destruct (upstream_rows_width _ _ _ _ Hup Hrows) as [Hc Hw] end.
    destruct (IH _ H Hw) as [Hc' Hw']. split; [congruence|assumption].
Qed.

Lemma prefix_summary_row_width (table table' : Table) (info : json) :
  prefix_summary_row table info = Ok table' ->
  rows_of_width 6 table ->
  columns table' = columns table /\ rows_of_width 6 table'.
Proof.
  unfold prefix_summary_row. intros H Hrows. do 7 bind_ok H.
  destruct (add_row_width 6 _ _ _ H eq_refl Hrows) as [Hc [_ Hw]].
  split; assumption.
Qed.

Lemma prefix_tables_shape (prefix : string) (data : json) (tables : Table * Table) :
  prefix_tables prefix data = Ok tables ->
  well_shaped (fst tables) /\ well_shaped (snd tables).
Proof.
  unfold prefix_tables. intros H. do 3 bind_ok H.
  match goal with Hs : prefix_summary_row _ _ = Ok _ |- _ =>
    apply prefix_summary_row_width in Hs; [|constructor]; destruct Hs as [Hc1 Hw1] end.
  do 5 bind_ok H.
  match goal with Hd : asn_detail_rows _ _ = Ok _ |- _ =>
    apply asn_detail_rows_width in Hd; [|constructor]; destruct Hd as [Hc2 Hw2] end.
  inversion H; subst. unfold well_shaped. cbn [fst snd].
  rewrite Hc1, Hc2. split; assumption.
Qed.

Lemma dns_rows_width (outcome : dns_result) (rdtype : string) :
  Forall (fun row => List.length row = 3%nat) (dns_rows outcome rdtype).
Proof.
  destruct outcome as [records|msg]; simpl.
  - induction records; simpl; constructor; auto.
  - destruct (signals_absence msg); repeat constructor.
Qed.

(** ** How a lookup ends *)

Lemma reported_outcome (w : World) (url msg : string) :
  lookup_outcome url ((HttpGet url :: fst (console_print w (error_text msg)))%list,
                      snd (console_print w (error_text msg))).
Proof.
  unfold lookup_outcome.
  destruct (console_print_cases w (error_text msg)) as [-> | [m ->]]; cbn [fst snd].
  - right; left. exists msg. reflexivity.
  - do 5 right. exists [], m. split; [constructor|reflexivity].
Qed.

Lemma asn_lookup_outcome (w : World) (asn : N) :
  lookup_outcome (asn_url asn) (asn_lookup w asn).
Proof.
  destruct (http_get w (asn_url asn)) as [msg|status [data|msg|msg]] eqn:Hget.
  - rewrite (asn_lookup_reported w asn msg) by (left; exact Hget). apply reported_outcome.
  - destruct (Z.eq_dec status 200) as [->|Hstatus];
      [|rewrite (asn_lookup_not_200 _ _ _ _ Hget Hstatus); left; reflexivity].
    rewrite (asn_lookup_json _ _ _ Hget).
    pose proof (asn_table_raises asn data) as Hr.
    destruct (asn_table asn data) as [table|e] eqn:Htable.
    + pose proof (asn_table_shape _ _ _ Htable) as Hshape.
      destruct (console_print_table_cases w table) as [-> | [m ->]]; cbn [fst snd].
      * right; right; left. exists [table]. repeat split; [discriminate|].
        constructor; [exact Hshape|constructor].
      * do 5 right. exists [], m. split; [constructor|reflexivity].
    + right; right; right; left. exists e. split; [exact Hr|reflexivity].
  - destruct (Z.eq_dec status 200) as [->|Hstatus];
      [|rewrite (asn_lookup_not_200 _ _ _ _ Hget Hstatus); left; reflexivity].
    rewrite (asn_lookup_reported w asn msg) by (right; exact Hget). apply reported_outcome.
  - destruct (Z.eq_dec status 200) as [->|Hstatus];
      [|rewrite (asn_lookup_not_200 _ _ _ _ Hget Hstatus); left; reflexivity].
    rewrite (asn_lookup_long_integer _ _ _ Hget). do 4 right; left. exists msg. reflexivity.
Qed.

Lemma prefix_lookup_outcome (w : World) (prefix : string) :
  lookup_outcome (prefix_url prefix) (prefix_lookup w prefix).
Proof.
  destruct (http_get w (prefix_url prefix)) as [msg|status [data|msg|msg]] eqn:Hget.
  - rewrite (prefix_lookup_reported w prefix msg) by (left; exact Hget).
    apply reported_outcome.
  - destruct (Z.eq_dec status 200) as [->|Hstatus];
      [|rewrite (prefix_lookup_not_200 _ _ _ _ Hget Hstatus); left; reflexivity].
    rewrite (prefix_lookup_json _ _ _ Hget).
    pose proof (prefix_tables_raises prefix data) as Hr.
    destruct (prefix_tables prefix data) as [tables|e] eqn:Htables.
    + destruct (prefix_tables_shape _ _ _ Htables) as [H1 H2].
      destruct (console_print_table_cases w (fst tables)) as [-> | [m ->]].
      * destruct (console_print_table_cases w (snd tables)) as [-> | [m ->]]; cbn [fst snd].
        -- right; right; left. exists [fst tables; snd tables].
           repeat split; [discriminate|]. repeat constructor; assumption.
        -- do 5 right. exists [fst tables], m. split; [|reflexivity].
           repeat constructor; assumption.
      * do 5 right. exists [], m. split; [constructor|reflexivity].
    + right; right; right; left. exists e. split; [exact Hr|reflexivity].
  - destruct (Z.eq_dec status 200) as [->|Hstatus];
      [|rewrite (prefix_lookup_not_200 _ _ _ _ Hget Hstatus); left; reflexivity].
    rewrite (prefix_lookup_reported w prefix msg) by (right; exact Hget).
    apply reported_outcome.
  - destruct (Z.eq_dec status 200) as [->|Hstatus];
      [|rewrite (prefix_lookup_not_200 _ _ _ _ Hget Hstatus); left; reflexivity].
    rewrite (prefix_lookup_long_integer _ _ _ Hget). do 4 right; left. exists msg.
    reflexivity.
Qed.

Lemma tables_shown_app (t1 t2 : list event) :
  tables_shown (t1 ++ t2) = (tables_shown t1 ++ tables_shown t2)%list.
Proof. apply flat_map_app. Qed.

Lemma http_requests_app (t1 t2 : list event) :
  http_requests (t1 ++ t2) = (http_requests t1 ++ http_requests t2)%list.
Proof. apply flat_map_app. Qed.

Lemma tables_shown_tables (tables : list Table) :
  tables_shown (map ConsoleTable tables) = tables.
Proof. induction tables; simpl; congruence. Qed.

Lemma http_requests_tables (tables : list Table) :
  http_requests (map ConsoleTable tables) = [].
Proof. induction tables; simpl; congruence. Qed.

Lemma dns_queries_queries (servers : list string) (name : string) (types : list string) :
  dns_queries (map (DnsQuery servers name) types) = types.
Proof. induction types; simpl; congruence. Qed.

Lemma tables_shown_queries (servers : list string) (name : string) (types : list string) :
  tables_shown (map (DnsQuery servers name) types) = [].
Proof. induction types; simpl; congruence. Qed.

(** What a lookup requests and shows, however it ends. *)
Lemma lookup_outcome_trace (url : string) (m : Run unit) :
  lookup_outcome url m ->
  http_requests (fst m) = [url]
  /\ Forall well_shaped (tables_shown (fst m))
  /\ (forall e, snd m = Raise e ->
       unhandled e = true /\ (data_error e = true -> tables_shown (fst m) = [])).
Proof.
  intros [->|[[msg ->]|[[tables [_ [Hshape ->]]]|[[e [He ->]]|[[msg ->]|
          [tables [msg [Hshape ->]]]]]]]]; cbn [fst snd].
  - split; [reflexivity|]. split; [constructor|discriminate].
  - split; [reflexivity|]. split; [constructor|discriminate].
  - change (HttpGet url :: map ConsoleTable tables)%list
      with ([HttpGet url] ++ map ConsoleTable tables)%list.
    rewrite http_requests_app, tables_shown_app, http_requests_tables, tables_shown_tables.
    split; [reflexivity|]. split; [exact Hshape|discriminate].
  - split; [reflexivity|]. split; [constructor|].
    intros e' E. inversion E; subst. split; [|reflexivity].
    unfold unhandled, escaping. rewrite He. reflexivity.
  - split; [reflexivity|]. split; [constructor|].
    intros e' E. inversion E; subst. split; reflexivity.
  - change (HttpGet url :: map ConsoleTable tables)%list
      with ([HttpGet url] ++ map ConsoleTable tables)%list.
    rewrite http_requests_app, tables_shown_app, http_requests_tables, tables_shown_tables.
    split; [reflexivity|]. split; [exact Hshape|].
    intros e' E. inversion E; subst. split; [reflexivity|discriminate].
Qed.

(** The [except ValueError] of [bgp] adds two printed lines at most. *)
Lemma handled_trace (token : string) (m : Run unit) :
  http_requests (fst (handled token m)) = http_requests (fst m)
  /\ tables_shown (fst (handled token m)) = tables_shown (fst m)
  /\ (forall e, snd (handled token m) = Raise e ->
       snd m = Raise e /\ except_ValueError e = false).
Proof.
  destruct m as [t [[]|[cls msg]]].
  - split; [reflexivity|]. split; [reflexivity|discriminate].
  - destruct cls;
      try (split; [reflexivity|]; split; [reflexivity|];
           intros e E; inversion E; subst; split; reflexivity).
    rewrite handled_caught. cbn [fst snd].
    rewrite http_requests_app, tables_shown_app, !app_nil_r.
    split; [reflexivity|]. split; [reflexivity|discriminate].
Qed.

(** ** How [bgp] ends *)

Lemma bgp_outcome (w : World) (token : string) :
  (exists pre url m,
      lookup_outcome url m
      /\ bgp w token = handled token ((pre ++ fst m)%list, snd m)
      /\ (pre = [] \/ exists asn, pre = [asn_line asn]))
  \/ (exists msg, bgp w token = ([], Raise (Exn MarkupError msg)))
  \/ bgp w token = invalid_value token
  \/ bgp w token
     = ([Print "Error: Unable to retrieve BGP information for ASN None."], Ok tt).
Proof.
  destruct (isdigit token) eqn:Hd.
  - destruct (py_int token) as [asn|e] eqn:Hint.
    + destruct (py_int_ok _ _ Hint) as [Hne [Hdec [Hlen ->]]].
      rewrite (bgp_asn _ _ Hne Hdec Hlen).
      destruct (console_print_cases w (asn_line_text (decimal_value token)))
        as [-> | [msg ->]].
      * left. exists [asn_line (decimal_value token)], (asn_url (decimal_value token)),
          (asn_lookup w (decimal_value token)).
        split; [apply asn_lookup_outcome|]. split; [|right; eauto].
        f_equal. unfold bind. destruct (asn_lookup w (decimal_value token)). reflexivity.
      * right; left. exists msg. reflexivity.
    + right; right; left. apply (bgp_not_an_integer _ _ _ Hd Hint).
  - destruct (ip_network w token) as [cidr|e] eqn:Hnet.
    + left. exists [], (prefix_url cidr), (prefix_lookup w cidr).
      split; [apply prefix_lookup_outcome|]. split; [|left; reflexivity].
      rewrite (bgp_prefix _ _ _ Hd Hnet). f_equal.
      destruct (prefix_lookup w cidr). reflexivity.
    + right; right; right. apply (bgp_unrecognised _ _ _ Hd Hnet).
Qed.

(** What [bgp] requests and shows, however it goes. *)
Lemma bgp_trace (w : World) (token : string) :
  (http_requests (fst (bgp w token)) = []
   \/ exists url, http_requests (fst (bgp w token)) = [url])
  /\ Forall well_shaped (tables_shown (fst (bgp w token)))
  /\ (forall e, snd (bgp w token) = Raise e ->
       escaping e = true
       /\ (data_error e = true ->
           tables_shown (fst (bgp w token)) = []
           /\ exists url, http_requests (fst (bgp w token)) = [url])).
Proof.
  destruct (bgp_outcome w token) as [[pre [url [m [Hm [-> Hpre]]]]]|[[msg ->]|[->| ->]]].
  - destruct (lookup_outcome_trace _ _ Hm) as [Hreq [Hshape Hexn]].
    destruct (handled_trace token ((pre ++ fst m)%list, snd m)) as [-> [-> Hraise]].
    cbn [fst snd] in *. rewrite http_requests_app, tables_shown_app, Hreq.
    assert (Hpre' : http_requests pre = [] /\ tables_shown pre = [])
      by (destruct Hpre as [-> | [asn ->]]; split; reflexivity).
    destruct Hpre' as [-> ->]. cbn [app].
    split; [right; eauto|]. split; [exact Hshape|].
    intros e He. destruct (Hraise _ He) as [Hm' Hnot].
    destruct (Hexn _ Hm') as [Hun Hdata].
    split; [apply unhandled_uncaught; assumption|].
    intros Hd. split; [apply Hdata; exact Hd|eauto].
  - cbn [fst snd]. split; [left; reflexivity|]. split; [constructor|].
    intros e E. inversion E; subst. split; [reflexivity|discriminate].
  - split; [left; reflexivity|]. split; [constructor|discriminate].
  - split; [left; reflexivity|]. split; [constructor|discriminate].
Qed.

(** The ASN pipeline never looks like the two lines of the [ValueError]
    handler alone: it makes its request, or its first line is refused. *)
Lemma asn_pipeline_not_invalid (w : World) (token : string) (asn : N) :
  handled token (console_print w (asn_line_text asn) ;; asn_lookup w asn)
  <> invalid_value token.
Proof.
  intros H.
  destruct (console_print_cases w (asn_line_text asn)) as [E | [msg E]]; rewrite E in H.
  - rewrite bind_emit' in H.
    destruct (handled_trace token ((ConsolePrint (asn_line_text asn) :: fst (asn_lookup w asn))%list,
                                   snd (asn_lookup w asn))) as [Hreq _].
    rewrite H in Hreq. cbn [fst] in Hreq.
    destruct (lookup_outcome_trace _ _ (asn_lookup_outcome w asn)) as [Hurl _].
    change (http_requests (ConsolePrint (asn_line_text asn) :: fst (asn_lookup w asn)))
      with (http_requests (fst (asn_lookup w asn))) in Hreq.
    rewrite Hurl in Hreq. discriminate Hreq.
  - discriminate H.
Qed.

(** ** The classification of the examples *)

Example classify_15169 (w : World) : classify w "15169" = Asn 15169.
Proof. reflexivity. Qed.

Example classify_8_8_8_0 : classify sample_world "8.8.8.0/24" = Prefix "8.8.8.0/24".
Proof. reflexivity. Qed.

Example classify_bare_address : classify sample_world "8.8.8.8" = Prefix "8.8.8.8/32".
Proof. reflexivity. Qed.

Example classify_not_a_token (w : World) : classify w "not-a-token!" = Invalid.
Proof. reflexivity. Qed.

Example classify_superscript (w : World) : classify w superscript_two = Invalid.
Proof. reflexivity. Qed.

Example bgp_superscript (w : World) :
  bgp w superscript_two = invalid_value superscript_two.
Proof. reflexivity. Qed.

Lemma long_token_digits :
  long_token <> "" /\ all_chars is_decimal long_token = true
  /\ (int_max_str_digits < N.of_nat (String.length long_token))%N.
Proof.
  split; [|split].
  - change long_token with (String "1" (repeat_char "1" 4300)). discriminate.
  - vm_compute. reflexivity.
  - vm_compute. reflexivity.
Qed.

(** A token of 4301 digits is all decimal, and [int] refuses it. *)
Example bgp_digits_past_the_limit (w : World) :
  all_chars is_decimal long_token = true
  /\ bgp w long_token = invalid_value long_token.
Proof.
  destruct long_token_digits as [Hne [Hdec Hlen]].
  split; [exact Hdec|].
  destruct (py_int_too_long long_token Hdec Hlen) as [msg Hint].
  apply (bgp_not_an_integer w long_token _ (decimal_isdigit _ Hne Hdec) Hint).
Qed.

(** ** The routing token *)

(** C1 (as the code has it): a token that is not all digits and that
    [ipaddress] refuses reaches the [else] branch of [bgp]: one line is
    printed, about an ASN [None], not the two lines of the [ValueError]
    handler, and no request is made. *)
Theorem bgp_unparseable_token (w : World) (token : string) (e : exn) :
  isdigit token = false ->
  ip_network w token = Raise e ->
  bgp w token = ([Print "Error: Unable to retrieve BGP information for ASN None."], Ok tt)
  /\ bgp w token <> invalid_value token
  /\ network_calls (fst (bgp w token)) = [].
Proof.
  intros Hd Hnet. rewrite (bgp_unrecognised _ _ _ Hd Hnet).
  repeat split. unfold invalid_value. simpl. discriminate.
Qed.

Lemma bgp_unparseable_token_witness :
  bgp sample_world "not-a-token!"
  = ([Print "Error: Unable to retrieve BGP information for ASN None."], Ok tt)
  /\ bgp sample_world "not-a-token!" <> invalid_value "not-a-token!"
  /\ network_calls (fst (bgp sample_world "not-a-token!")) = [].
Proof.
  apply (bgp_unparseable_token sample_world "not-a-token!"
           (Exn ValueError "'not-a-token!' does not appear to be an IPv4 or IPv6 network"));
    reflexivity.
Defined.

(** C8 (as stated) fails: a token of 4301 decimal digits is all decimal
    digits, and [bgp] does not look up the ASN of its value: [int] refuses a
    text of more than 4300 digits, and the [ValueError] handler prints its
    two lines. *)
Lemma bgp_long_token :
  ~ (forall (w : World) (token : string),
       token <> "" -> all_chars is_decimal token = true ->
       bgp w token
       = handled token (console_print w (asn_line_text (decimal_value token)) ;;
                        asn_lookup w (decimal_value token))).
Proof.
  intros H. destruct long_token_digits as [Hne [Hdec Hlen]].
  specialize (H sample_world long_token Hne Hdec).
  destruct (py_int_too_long long_token Hdec Hlen) as [msg Hint].
  rewrite (bgp_not_an_integer sample_world long_token _ (decimal_isdigit _ Hne Hdec) Hint) in H.
  symmetry in H. exact (asn_pipeline_not_invalid _ _ _ H).
Qed.

(** C8 (amended): the routing token is classified by its text alone, in
    order: all decimal digits, and at most 4300 of them, the ASN of that
    value, looked up under [/asn/<value>/prefixes]; all decimal digits, and
    more of them, the two lines of the [ValueError] handler; else a network
    literal, the prefix [ipaddress] reads, looked up under [/prefix/<cidr>];
    else invalid: an error is printed and nothing is requested. *)
Theorem bgp_follows_classification (w : World) (token : string) :
  token <> "" ->
  match classify w token with
  | Asn number =>
      if (N.of_nat (String.length token) <=? int_max_str_digits)%N then
        bgp w token
        = handled token (console_print w (asn_line_text number) ;; asn_lookup w number)
        /\ (renders w (RText (asn_line_text number)) ->
            http_requests (fst (bgp w token)) = [asn_url number])
      else bgp w token = invalid_value token
  | Prefix cidr =>
      bgp w token = handled token (prefix_lookup w cidr)
      /\ http_requests (fst (bgp w token)) = [prefix_url cidr]
  | Invalid =>
      network_calls (fst (bgp w token)) = []
      /\ tables_shown (fst (bgp w token)) = []
      /\ fst (bgp w token) <> []
      /\ snd (bgp w token) = Ok tt
  end.
Proof.
  intros Hne. unfold classify.
  destruct (all_chars is_decimal token) eqn:Hdec.
  - destruct (N.of_nat (String.length token) <=? int_max_str_digits)%N eqn:Hlen.
    + apply N.leb_le in Hlen. rewrite (bgp_asn _ _ Hne Hdec Hlen).
      split; [reflexivity|]. intros Hr.
      rewrite (console_print_renders _ _ Hr), bind_emit.
      destruct (handled_trace token
                  ((ConsolePrint (asn_line_text (decimal_value token))
                      :: fst (asn_lookup w (decimal_value token)))%list,
                   snd (asn_lookup w (decimal_value token)))) as [-> _].
      apply (lookup_outcome_trace _ _ (asn_lookup_outcome w (decimal_value token))).
    + apply N.leb_gt in Hlen.
      destruct (py_int_too_long token Hdec Hlen) as [msg Hint].
      apply (bgp_not_an_integer w token _ (decimal_isdigit _ Hne Hdec) Hint).
  - destruct (isdigit token) eqn:Hd.
    + destruct (ip_network_needs_separator w token Hd) as [e ->].
      destruct (py_int_refuses token Hdec) as [msg Hint].
      rewrite (bgp_not_an_integer _ _ _ Hd Hint). unfold invalid_value. simpl.
      repeat split. discriminate.
    + destruct (ip_network w token) as [cidr|e] eqn:Hnet.
      * rewrite (bgp_prefix _ _ _ Hd Hnet). split; [reflexivity|].
        destruct (handled_trace token (prefix_lookup w cidr)) as [-> _].
        apply (lookup_outcome_trace _ _ (prefix_lookup_outcome w cidr)).
      * rewrite (bgp_unrecognised _ _ _ Hd Hnet). simpl. repeat split. discriminate.
Qed.

Lemma bgp_follows_classification_witness :
  (bgp sample_world "8.8.8.0/24" = handled "8.8.8.0/24" (prefix_lookup sample_world "8.8.8.0/24")
   /\ http_requests (fst (bgp sample_world "8.8.8.0/24")) = [prefix_url "8.8.8.0/24"])
  /\ (bgp sample_world "13335"
      = handled "13335" (console_print sample_world (asn_line_text 13335) ;;
                         asn_lookup sample_world 13335)
      /\ http_requests (fst (bgp sample_world "13335")) = [asn_url 13335]).
Proof.
  split.
  - assert (Hne : "8.8.8.0/24" <> "") by discriminate.
    exact (bgp_follows_classification sample_world "8.8.8.0/24" Hne).
  - assert (Hne : "13335" <> "") by discriminate.
    assert (H : bgp sample_world "13335"
                = handled "13335" (console_print sample_world (asn_line_text 13335) ;;
                                   asn_lookup sample_world 13335)
                /\ (renders sample_world (RText (asn_line_text 13335)) ->
                    http_requests (fst (bgp sample_world "13335")) = [asn_url 13335]))
      by exact (bgp_follows_classification sample_world "13335" Hne).
    destruct H as [Hrun Hrequest]. split; [exact Hrun|].
    apply Hrequest. reflexivity.
Defined.

(** ** The loop of [fqdn] *)

Lemma add_rows_text (rdtype : string) (records : list string) (table : Table) :
  fold_left (fun t rdata => add_row_text t [rdtype; rdata; check_mark]) records table
  = mkTable (title table) (columns table)
            (rows table ++ map (fun rdata => [rdtype; rdata; check_mark]) records)%list.
Proof.
  revert table. induction records as [|r rest IH]; intros table; simpl.
  - rewrite app_nil_r. destruct table; reflexivity.
  - rewrite IH. simpl. rewrite <- app_assoc. reflexivity.
Qed.

Lemma collect_rdtype_rows (w : World) (servers : list string) (name rdtype : string)
    (table : Table) :
  collect_rdtype w servers name rdtype table
  = mkTable (title table) (columns table)
            (rows table ++ dns_rows (resolve w servers name rdtype) rdtype)%list.
Proof.
  unfold collect_rdtype, dns_rows, signals_absence.
  destruct (resolve w servers name rdtype) as [records|msg].
  - apply add_rows_text.
  - destruct (contains "NXDOMAIN" msg), (contains "NODATA" msg); simpl;
      try rewrite app_nil_r; destruct table; reflexivity.
Qed.

(** The loop never stops early: every type is queried, whatever the ones
    before it gave. *)
Lemma collect_all (w : World) (servers : list string) (name : string)
    (types : list string) (table : Table) :
  collect w servers name types table
  = (map (DnsQuery servers name) types,
     Ok (mkTable (title table) (columns table)
           (rows table
            ++ flat_map (fun rdtype => dns_rows (resolve w servers name rdtype) rdtype) types)%list)).
Proof.
  revert table. induction types as [|rdtype rest IH]; intros table; simpl.
  - rewrite app_nil_r. destruct table; reflexivity.
  - rewrite IH, collect_rdtype_rows. simpl. rewrite <- app_assoc. reflexivity.
Qed.

(** A failed query: no row when its text has a marker, else the error row. *)
Lemma collect_rdtype_failed (w : World) (servers : list string) (name rdtype msg : string)
    (table : Table) :
  resolve w servers name rdtype = ResolveFailed msg ->
  collect_rdtype w servers name rdtype table
  = if signals_absence msg then table else add_row_text table (error_row rdtype msg).
Proof.
  intros Hfail. unfold collect_rdtype, signals_absence. rewrite Hfail.
  destruct (contains "NXDOMAIN" msg), (contains "NODATA" msg); reflexivity.
Qed.

Lemma dns_queries_app (t1 t2 : list event) :
  dns_queries (t1 ++ t2) = (dns_queries t1 ++ dns_queries t2)%list.
Proof. apply flat_map_app. Qed.

Lemma dns_trace_requests (w : World) (name : string) (nameserver : option string)
    (shown : string) :
  http_requests (dns_trace w name nameserver shown) = []
  /\ dns_queries (dns_trace w name nameserver shown) = rdtypes
  /\ tables_shown (dns_trace w name nameserver shown) = [].
Proof.
  unfold dns_trace.
  change (dns_header name shown :: ?l)%list with ([dns_header name shown] ++ l)%list.
  rewrite http_requests_app, dns_queries_app, tables_shown_app,
    dns_queries_queries, tables_shown_queries.
  split; [|split; reflexivity].
  cbn [http_requests flat_map dns_header app].
  generalize rdtypes. intros l. induction l; simpl; congruence.
Qed.

Lemma dns_table_shaped (w : World) (servers : list string) (name shown : string) :
  well_shaped (dns_table name shown (rows_collected w servers name)).
Proof.
  unfold well_shaped, dns_table, rows_collected. cbn [rows columns List.length].
  generalize rdtypes. intros types.
  induction types as [|rdtype rest IH]; simpl; [constructor|].
  apply Forall_app. split; [apply dns_rows_width|exact IH].
Qed.

(** ** How [fqdn] ends *)

Lemma try_except_reported (w : World) (pre : list event) (e : exn) :
  try_except except_Exception (pre, Raise e) (report_error w) = reported w pre (exn_str e).
Proof.
  unfold reported, report_error, error_text. cbn [try_except except_Exception].
  destruct (console_print w ("[bold red]Error:[/bold red] " ++ exn_str e)). reflexivity.
Qed.

Lemma reported_cases (w : World) (pre : list event) (msg : string) :
  reported w pre msg = ((pre ++ [error_line msg])%list, Ok tt)
  \/ exists refusal, reported w pre msg = (pre, Raise (Exn MarkupError refusal)).
Proof.
  unfold reported.
  destruct (console_print_cases w (error_text msg)) as [-> | [refusal ->]]; cbn [fst snd].
  - left. reflexivity.
  - right. exists refusal. rewrite app_nil_r. reflexivity.
Qed.

Lemma reported_renders (w : World) (pre : list event) (msg : string) :
  renders w (RText (error_text msg)) ->
  reported w pre msg = ((pre ++ [error_line msg])%list, Ok tt).
Proof.
  intros Hr. unfold reported. rewrite (console_print_renders _ _ Hr). reflexivity.
Qed.

(** With its resolver set up and its header shown, [fqdn] queries every
    record type and prints the table. *)
Lemma fqdn_ready (w : World) (name : string) (nameserver : option string) (shown : string) :
  resolver_ready w nameserver = Some shown ->
  renders w (RText (header_text name shown)) ->
  fqdn w name nameserver
  = try_except except_Exception
      (bind (dns_trace w name nameserver shown, Ok tt)
            (fun _ => console_print_table w
                        (dns_table name shown
                           (rows_collected w (dns_servers w nameserver) name))))
      (report_error w).
Proof.
  intros Hready Hr. pose proof (console_print_renders _ _ Hr) as Hprint.
  unfold header_text in Hprint.
  unfold fqdn, resolver_ready, dns_trace, dns_servers, rows_collected in *.
  destruct (given nameserver).
  - unfold set_nameservers.
    destruct (nameserver_error w (text_of nameserver)); [discriminate|].
    inversion Hready; subst shown. rewrite Hprint.
    cbn [bind emit ret lift app fst snd]. rewrite collect_all.
    cbn [title columns rows new_table add_column app bind]. unfold dns_table, dns_header.
    match goal with
    | |- context [console_print_table w ?T] => destruct (console_print_table w T) as [t r]
    end.
    reflexivity.
  - unfold Resolver. destruct (configure_error w); [discriminate|].
    destruct (system_nameservers w) as [|s rest] eqn:Hsys; [discriminate|].
    inversion Hready; subst shown. rewrite bind_lift_ok, Hprint.
    cbn [bind emit ret lift app fst snd first_item]. rewrite collect_all.
    cbn [title columns rows new_table add_column app bind]. unfold dns_table, dns_header.
    match goal with
    | |- context [console_print_table w ?T] => destruct (console_print_table w T) as [t r]
    end.
    reflexivity.
Qed.

(** The table is shown. *)
Lemma fqdn_with_resolver (w : World) (name : string) (nameserver : option string)
    (shown : string) :
  resolver_ready w nameserver = Some shown ->
  renders w (RText (header_text name shown)) ->
  renders w (RTable (dns_table name shown
                       (rows_collected w (dns_servers w nameserver) name))) ->
  fqdn w name nameserver
  = ((dns_trace w name nameserver shown
      ++ [ConsoleTable (dns_table name shown
                          (rows_collected w (dns_servers w nameserver) name))])%list,
     Ok tt).
Proof.
  intros Hready Hr Ht. rewrite (fqdn_ready _ _ _ _ Hready Hr).
  rewrite (console_print_table_renders _ _ Ht). reflexivity.
Qed.

(** The table is refused: the handler of [fqdn] reports the refusal. *)
Lemma fqdn_table_refused (w : World) (name : string) (nameserver : option string)
    (shown msg : string) :
  resolver_ready w nameserver = Some shown ->
  renders w (RText (header_text name shown)) ->
  markup_error w (RTable (dns_table name shown
                            (rows_collected w (dns_servers w nameserver) name)))
  = Some msg ->
  fqdn w name nameserver = reported w (dns_trace w name nameserver shown) msg.
Proof.
  intros Hready Hr Ht. rewrite (fqdn_ready _ _ _ _ Hready Hr).
  unfold console_print_table. rewrite Ht. cbn [bind lift].
  apply try_except_reported.
Qed.

(** The header is refused: nothing else is tried. *)
Lemma fqdn_header_refused (w : World) (name : string) (nameserver : option string)
    (msg : string) :
  configure_error w = None \/ given nameserver = true ->
  markup_error w (RText (header_text name
                           (if given nameserver then text_of nameserver
                            else match system_nameservers w with
                                 | s :: _ => s
                                 | [] => "unknown"
                                 end))) = Some msg ->
  fqdn w name nameserver = reported w [] msg.
Proof.
  intros Hconf Hm. unfold fqdn, header_text in *.
  destruct (given nameserver).
  - unfold console_print. rewrite Hm. cbn [bind lift]. apply try_except_reported.
  - destruct Hconf as [Hconf|]; [|discriminate]. unfold Resolver. rewrite Hconf.
    rewrite bind_lift_ok. unfold console_print. rewrite Hm. cbn [bind lift].
    apply try_except_reported.
Qed.

(** The resolver cannot be configured from the system. *)
Lemma fqdn_unconfigured (w : World) (name : string) (nameserver : option string)
    (msg : string) :
  given nameserver = false -> configure_error w = Some msg ->
  fqdn w name nameserver = reported w [] msg.
Proof.
  intros Hgiven Hconf. unfold fqdn. rewrite Hgiven. unfold Resolver. rewrite Hconf.
  cbn [bind lift]. apply try_except_reported.
Qed.

(** The resolver does not take the override. *)
Lemma fqdn_override_refused (w : World) (name : string) (nameserver : option string)
    (msg : string) :
  given nameserver = true ->
  renders w (RText (header_text name (text_of nameserver))) ->
  nameserver_error w (text_of nameserver) = Some msg ->
  fqdn w name nameserver = reported w [dns_header name (text_of nameserver)] msg.
Proof.
  intros Hgiven Hr Hns. pose proof (console_print_renders _ _ Hr) as Hprint.
  unfold header_text in Hprint. unfold fqdn. rewrite Hgiven, Hprint.
  unfold set_nameservers. rewrite Hns. cbn [bind emit lift app fst snd].
  apply try_except_reported.
Qed.

(** No resolver is configured: the title of the table cannot be made. *)
Lemma fqdn_no_first_item (w : World) (name : string) (nameserver : option string) :
  given nameserver = false -> configure_error w = None -> system_nameservers w = [] ->
  renders w (RText (header_text name "unknown")) ->
  fqdn w name nameserver
  = reported w [dns_header name "unknown"] "list index out of range".
Proof.
  intros Hgiven Hconf Hsys Hr. pose proof (console_print_renders _ _ Hr) as Hprint.
  unfold header_text in Hprint. unfold fqdn. rewrite Hgiven.
  unfold Resolver. rewrite Hconf, Hsys, bind_lift_ok, Hprint.
  cbn [bind emit ret lift app fst snd first_item].
  apply try_except_reported.
Qed.

(** The ways [fqdn] goes: it stops before any query, with the header shown
    or not, and reports why; or it makes its queries, and shows the table or
    reports why not. *)
Lemma fqdn_cases (w : World) (name : string) (nameserver : option string) :
  (exists pre msg,
      (pre = [] \/ exists shown, pre = [dns_header name shown])
      /\ fqdn w name nameserver = reported w pre msg)
  \/ (exists shown,
        resolver_ready w nameserver = Some shown
        /\ renders w (RText (header_text name shown))
        /\ (fqdn w name nameserver
            = ((dns_trace w name nameserver shown
                ++ [ConsoleTable
                      (dns_table name shown
                         (rows_collected w (dns_servers w nameserver) name))])%list, Ok tt)
            \/ exists msg,
                fqdn w name nameserver = reported w (dns_trace w name nameserver shown) msg)).
Proof.
  assert (Hready : forall shown,
            resolver_ready w nameserver = Some shown ->
            renders w (RText (header_text name shown)) ->
            fqdn w name nameserver
            = ((dns_trace w name nameserver shown
                ++ [ConsoleTable
                      (dns_table name shown
                         (rows_collected w (dns_servers w nameserver) name))])%list, Ok tt)
            \/ exists msg,
                fqdn w name nameserver = reported w (dns_trace w name nameserver shown) msg).
  { intros shown Hready Hr.
    destruct (markup_error w (RTable (dns_table name shown
                (rows_collected w (dns_servers w nameserver) name)))) as [msg|] eqn:Ht.
    - right. exists msg. apply fqdn_table_refused; assumption.
    - left. apply fqdn_with_resolver; assumption. }
  destruct (given nameserver) eqn:Hgiven.
  - destruct (markup_error w (RText (header_text name (text_of nameserver))))
      as [msg|] eqn:Hhead.
    + left. exists [], msg. split; [left; reflexivity|].
      apply fqdn_header_refused; [right; exact Hgiven|]. rewrite Hgiven. exact Hhead.
    + destruct (nameserver_error w (text_of nameserver)) as [msg|] eqn:Hns.
      * left. exists [dns_header name (text_of nameserver)], msg.
        split; [right; eauto|]. apply fqdn_override_refused; assumption.
      * right. exists (text_of nameserver).
        assert (Hr : resolver_ready w nameserver = Some (text_of nameserver))
          by (unfold resolver_ready; rewrite Hgiven, Hns; reflexivity).
        split; [exact Hr|]. split; [exact Hhead|]. apply Hready; assumption.
  - destruct (configure_error w) as [msg|] eqn:Hconf.
    + left. exists [], msg. split; [left; reflexivity|].
      apply fqdn_unconfigured; assumption.
    + destruct (markup_error w (RText (header_text name
                  (match system_nameservers w with s :: _ => s | [] => "unknown" end))))
        as [msg|] eqn:Hhead.
      * left. exists [], msg. split; [left; reflexivity|].
        apply fqdn_header_refused; [left; exact Hconf|]. rewrite Hgiven. exact Hhead.
      * destruct (system_nameservers w) as [|s rest] eqn:Hsys.
        -- left. exists [dns_header name "unknown"], "list index out of range".
           split; [right; eauto|]. apply fqdn_no_first_item; assumption.
        -- right. exists s.
           assert (Hr : resolver_ready w nameserver = Some s)
             by (unfold resolver_ready; rewrite Hgiven, Hconf, Hsys; reflexivity).
           split; [exact Hr|]. split; [exact Hhead|]. apply Hready; assumption.
Qed.

Lemma reported_trace (w : World) (pre : list event) (msg : string) :
  http_requests (fst (reported w pre msg)) = http_requests pre
  /\ dns_queries (fst (reported w pre msg)) = dns_queries pre
  /\ tables_shown (fst (reported w pre msg)) = tables_shown pre
  /\ (forall e, snd (reported w pre msg) = Raise e -> is_markup_error e = true).
Proof.
  destruct (reported_cases w pre msg) as [-> | [refusal ->]]; cbn [fst snd].
  - rewrite http_requests_app, dns_queries_app, tables_shown_app. cbn.
    rewrite !app_nil_r. repeat split. discriminate.
  - repeat split. intros e E. inversion E. reflexivity.
Qed.

(** What [fqdn] requests, queries and shows, however it goes. *)
Lemma fqdn_trace (w : World) (name : string) (nameserver : option string) :
  http_requests (fst (fqdn w name nameserver)) = []
  /\ (dns_queries (fst (fqdn w name nameserver)) = []
      \/ dns_queries (fst (fqdn w name nameserver)) = rdtypes)
  /\ Forall well_shaped (tables_shown (fst (fqdn w name nameserver)))
  /\ (forall e, snd (fqdn w name nameserver) = Raise e -> is_markup_error e = true).
Proof.
  destruct (fqdn_cases w name nameserver)
    as [[pre [msg [Hpre ->]]] | [shown [_ [_ [-> | [msg ->]]]]]].
  - destruct (reported_trace w pre msg) as [-> [-> [-> Hexn]]].
    assert (H : http_requests pre = [] /\ dns_queries pre = [] /\ tables_shown pre = [])
      by (destruct Hpre as [-> | [shown ->]]; repeat split).
    destruct H as [-> [-> ->]]. split; [reflexivity|]. split; [left; reflexivity|].
    split; [constructor|exact Hexn].
  - cbn [fst snd]. rewrite http_requests_app, dns_queries_app, tables_shown_app.
    destruct (dns_trace_requests w name nameserver shown) as [-> [-> ->]].
    split; [reflexivity|]. split; [right; apply app_nil_r|].
    split; [|discriminate]. cbn [app tables_shown flat_map].
    constructor; [apply dns_table_shaped|constructor].
  - destruct (reported_trace w (dns_trace w name nameserver shown) msg)
      as [-> [-> [-> Hexn]]].
    destruct (dns_trace_requests w name nameserver shown) as [-> [-> ->]].
    split; [reflexivity|]. split; [right; reflexivity|].
    split; [constructor|exact Hexn].
Qed.

(** ** The test for a missing name or record *)

Lemma contains_unfold (needle hay : string) :
  contains needle hay
  = (String.prefix needle hay
     || match hay with
        | "" => false
        | String _ rest => contains needle rest
        end).
Proof. destruct hay; reflexivity. Qed.

Lemma prefix_app (needle post : string) : String.prefix needle (needle ++ post) = true.
Proof.
  induction needle as [|c rest IH]; simpl; [destruct post; reflexivity|].
  destruct (ascii_dec c c); [exact IH|congruence].
Qed.

Lemma prefix_split (needle hay : string) :
  String.prefix needle hay = true -> exists post, hay = needle ++ post.
Proof.
  revert hay. induction needle as [|c rest IH]; intros hay H.
  - exists hay. reflexivity.
  - destruct hay as [|d more]; simpl in H; [discriminate|].
    destruct (ascii_dec c d) as [->|]; [|discriminate].
    destruct (IH _ H) as [post ->]. exists post. reflexivity.
Qed.

(** [needle in hay] holds exactly when [hay] has [needle] somewhere. *)
Lemma contains_somewhere (needle hay : string) :
  contains needle hay = true <-> exists pre post, hay = pre ++ needle ++ post.
Proof.
  split.
  - induction hay as [|c rest IH]; rewrite contains_unfold; intros H;
      apply orb_true_iff in H as [H|H]; try discriminate.
    + destruct (prefix_split _ _ H) as [post E]. exists "", post. exact E.
    + destruct (prefix_split _ _ H) as [post E]. exists "", post. exact E.
    + destruct (IH H) as [pre [post ->]]. exists (String c pre), post. reflexivity.
  - intros [pre [post ->]]. induction pre as [|c rest IH]; rewrite contains_unfold.
    + simpl. rewrite prefix_app. reflexivity.
    + simpl. rewrite IH. apply orb_true_r.
Qed.

Lemma add_row_text_changes (table : Table) (cells : list string) :
  add_row_text table cells <> table.
Proof.
  intros H. apply (f_equal (fun t => List.length (rows t))) in H.
  unfold add_row_text in H. cbn [rows] in H. rewrite length_app in H. simpl in H. lia.
Qed.

Lemma has_char_tail (c d : ascii) (s : string) :
  has_char c (String d s) = false -> d <> c /\ has_char c s = false.
Proof.
  unfold has_char. cbn [all_chars]. intros H. apply negb_false_iff in H.
  apply andb_true_iff in H as [Hd Hs]. split.
  - intros ->. rewrite Ascii.eqb_refl in Hd. discriminate Hd.
  - rewrite Hs. reflexivity.
Qed.

(** A needle without a space does not reach over a space. *)
Lemma prefix_before_space (needle a b : string) :
  has_char " " needle = false ->
  String.prefix needle (a ++ String " " b) = String.prefix needle a.
Proof.
  revert needle. induction a as [|d a' IH]; intros needle H.
  - destruct needle as [|c rest]; [reflexivity|].
    destruct (has_char_tail _ _ _ H) as [Hc _]. simpl.
    destruct (ascii_dec c " "); [contradiction|reflexivity].
  - destruct needle as [|c rest]; [reflexivity|].
    destruct (has_char_tail _ _ _ H) as [_ Hrest]. simpl.
    destruct (ascii_dec c d); [apply IH; exact Hrest|reflexivity].
Qed.

Lemma contains_space (needle a b : string) :
  needle <> "" -> has_char " " needle = false ->
  contains needle (a ++ String " " b) = contains needle a || contains needle b.
Proof.
  intros Hne H. induction a as [|d a' IH].
  - rewrite (contains_unfold needle ("" ++ String " " b)),
      (prefix_before_space needle "" b H).
    destruct needle; [congruence|reflexivity].
  - rewrite (contains_unfold needle (String d a' ++ String " " b)),
      (prefix_before_space needle (String d a') b H), (contains_unfold needle (String d a')).
    cbn [append]. rewrite IH, orb_assoc. reflexivity.
Qed.

(** No record type has a marker in its name. *)
Lemma rdtypes_unmarked (rdtype : string) :
  In rdtype rdtypes -> signals_absence rdtype = false.
Proof.
  intros H. unfold rdtypes in H. cbn [In] in H.
  repeat (destruct H as [<- | H]; [reflexivity|]). contradiction.
Qed.

(** The texts of the two exceptions of [dnspython] for an absence hold
    neither marker, unless the name that was asked for does. *)
Lemma absence_texts_unmarked (qname rdtype : string) :
  signals_absence qname = false -> In rdtype rdtypes ->
  signals_absence (nxdomain_text qname) = false
  /\ signals_absence (noanswer_text qname rdtype) = false.
Proof.
  intros Hq Hin. pose proof (rdtypes_unmarked _ Hin) as Hr.
  unfold signals_absence in *.
  apply orb_false_iff in Hq as [Hq1 Hq2]. apply orb_false_iff in Hr as [Hr1 Hr2].
  split.
  - change (nxdomain_text qname)
      with ("The DNS query name does not exist:" ++ String " " qname).
    rewrite !contains_space by (discriminate || reflexivity).
    rewrite Hq1, Hq2. reflexivity.
  - change (noanswer_text qname rdtype)
      with ("The DNS response does not contain an answer to the question:"
            ++ String " " (qname ++ String " " ("IN" ++ String " " rdtype))).
    rewrite !contains_space by (discriminate || reflexivity).
    rewrite Hq1, Hq2, Hr1, Hr2. reflexivity.
Qed.

(** ** The rows of the DNS table *)

(** C3 (as the code has it): a record type that is absent gets an error
    row.  The test of line 156 looks for NXDOMAIN and NODATA in the text of
    the exception, and the texts [dnspython] gives its two exceptions for an
    absence, the name that does not exist and the answer without a record of
    the type, have neither (unless the name asked for has): the row with
    empty data and the status [Error: <text>] is added, as for any other
    failure. *)
Theorem fqdn_absence_adds_error_row (w : World) (servers : list string)
    (name rdtype qname : string) (table : Table) :
  In rdtype rdtypes ->
  signals_absence qname = false ->
  (resolve w servers name rdtype = ResolveFailed (nxdomain_text qname) ->
   rows (collect_rdtype w servers name rdtype table)
   = (rows table ++ [error_row rdtype (nxdomain_text qname)])%list)
  /\ (resolve w servers name rdtype = ResolveFailed (noanswer_text qname rdtype) ->
      rows (collect_rdtype w servers name rdtype table)
      = (rows table ++ [error_row rdtype (noanswer_text qname rdtype)])%list).
Proof.
  intros Hin Hq. destruct (absence_texts_unmarked qname rdtype Hq Hin) as [H1 H2].
  split; intros Hfail; rewrite (collect_rdtype_failed _ _ _ _ _ _ Hfail).
  - rewrite H1. reflexivity.
  - rewrite H2. reflexivity.
Qed.

Lemma fqdn_absence_adds_error_row_witness :
  rows (collect_rdtype a_record_world ["192.0.2.53"] "example.com" "AAAA" (new_table "DNS"))
  = [["AAAA"; "";
      "Error: The DNS response does not contain an answer to the question: example.com. IN AAAA"]].
Proof.
  apply (proj2 (fqdn_absence_adds_error_row a_record_world ["192.0.2.53"] "example.com" "AAAA"
                  "example.com." (new_table "DNS")
                  ltac:(right; left; reflexivity) eq_refl)).
  reflexivity.
Defined.

(** A name with an A record and nothing else, as [dnspython] reports it:
    the table has 16 rows, one for the record and 15 error rows. *)
Example fqdn_a_record_only :
  fqdn a_record_world "example.com" None
  = ((dns_trace a_record_world "example.com" None "192.0.2.53"
      ++ [ConsoleTable
            (dns_table "example.com" "192.0.2.53"
               (["A"; "93.184.216.34"; check_mark]
                  :: map (fun rdtype => error_row rdtype (noanswer_text "example.com." rdtype))
                         (tl rdtypes)))])%list, Ok tt).
Proof. vm_compute. reflexivity. Qed.

(** A name that does not exist: 16 error rows. *)
Example fqdn_no_such_name :
  tables_shown (fst (fqdn no_such_name_world "nowhere.invalid" None))
  = [dns_table "nowhere.invalid" "192.0.2.53"
       (map (fun rdtype => error_row rdtype (nxdomain_text "nowhere.invalid.")) rdtypes)].
Proof. vm_compute. reflexivity. Qed.

(** A resolver whose texts did carry the marker: the one row of the record. *)
Example fqdn_only_a_record :
  tables_shown (fst (fqdn only_a_world "example.com" None))
  = [dns_table "example.com" "192.0.2.53" [["A"; "93.184.216.34"; check_mark]]].
Proof. vm_compute. reflexivity. Qed.

(** C5 (as the code has it): without a nameserver override and with no
    configured resolver, no record type is queried and no table is shown,
    whatever else happens.  When the resolver can be made and [rich] prints
    the two lines, the header shows the placeholder, and the title of the
    table then takes the first of an empty list: the [IndexError] is caught,
    its text is shown, and the lookup ends there. *)
Theorem fqdn_without_resolvers (w : World) (name : string) (nameserver : option string) :
  given nameserver = false ->
  system_nameservers w = [] ->
  dns_queries (fst (fqdn w name nameserver)) = []
  /\ tables_shown (fst (fqdn w name nameserver)) = []
  /\ (configure_error w = None ->
      renders w (RText (header_text name "unknown")) ->
      renders w (RText (error_text "list index out of range")) ->
      fqdn w name nameserver
      = ([dns_header name "unknown";
          ConsolePrint "[bold red]Error:[/bold red] list index out of range"], Ok tt)).
Proof.
  intros Hgiven Hnone.
  assert (Hnot : resolver_ready w nameserver = None).
  { unfold resolver_ready. rewrite Hgiven, Hnone. destruct (configure_error w); reflexivity. }
  split; [|split].
  - destruct (fqdn_cases w name nameserver)
      as [[pre [msg [Hpre ->]]] | [shown [Hready _]]]; [|congruence].
    destruct (reported_trace w pre msg) as [_ [-> _]].
    destruct Hpre as [-> | [shown ->]]; reflexivity.
  - destruct (fqdn_cases w name nameserver)
      as [[pre [msg [Hpre ->]]] | [shown [Hready _]]]; [|congruence].
    destruct (reported_trace w pre msg) as [_ [_ [-> _]]].
    destruct Hpre as [-> | [shown ->]]; reflexivity.
  - intros Hconf Hhead Herr.
    rewrite (fqdn_no_first_item _ _ _ Hgiven Hconf Hnone Hhead).
    rewrite (reported_renders _ _ _ Herr). reflexivity.
Qed.

Lemma fqdn_without_resolvers_witness :
  dns_queries (fst (fqdn bare_world "example.com" None)) = []
  /\ tables_shown (fst (fqdn bare_world "example.com" None)) = []
  /\ fqdn bare_world "example.com" None
     = ([dns_header "example.com" "unknown";
         ConsolePrint "[bold red]Error:[/bold red] list index out of range"], Ok tt).
Proof.
  destruct (fqdn_without_resolvers bare_world "example.com" None eq_refl eq_refl)
    as [Hqueries [Htables Hrun]].
  split; [exact Hqueries|]. split; [exact Htables|].
  apply Hrun; reflexivity.
Defined.

(** ** Dispatch *)

Lemma no_dns_queries (t : list event) :
  forallb routing_event t = true -> dns_queries t = [].
Proof.
  induction t as [|e rest IH]; simpl; [reflexivity|].
  intros H. apply andb_true_iff in H as [He Hrest].
  destruct e; simpl in *; try discriminate; auto.
Qed.

Lemma main_branches (w : World) (args : Namespace) :
  (exists name, arg_fqdn args = Some name /\ main w args = fqdn w name (arg_nameserver args))
  \/ (exists token, arg_fqdn args = None /\ arg_bgp args = Some token /\ token <> ""
                    /\ main w args = bgp w token)
  \/ (arg_fqdn args = None
      /\ (main w args = ([], Ok tt)
          \/ main w args
             = ([Print "No arguments provided. Use --help for more information."], Ok tt))).
Proof.
  unfold main. destruct (arg_fqdn args) as [name|].
  - left. exists name. split; [reflexivity|]. destruct (arg_nameserver args); reflexivity.
  - destruct (arg_bgp args) as [[|c rest]|].
    + right; right. split; [reflexivity|]. left. rewrite !andb_false_r. reflexivity.
    + right; left. exists (String c rest). repeat split; [discriminate|].
      rewrite !andb_false_r. reflexivity.
    + right; right. split; [reflexivity|].
      destruct (is_None (arg_nameserver args) && is_None (arg_subnet args)
                && is_None (arg_target_host args) && is_None (@None string)) eqn:E;
        cbn [is_None andb] in E |- *; rewrite E; [right|left]; reflexivity.
Qed.

(** C9 (as stated) fails: a routing token was supplied, the empty one, and
    the routing pipeline does not run; nothing at all is printed. *)
Lemma main_empty_token :
  ~ (forall (w : World) (args : Namespace) (token : string),
       arg_fqdn args = None -> arg_bgp args = Some token ->
       main w args = bgp w token).
Proof.
  intros H.
  specialize (H sample_world (mkNamespace None None None None (Some "")) "" eq_refl eq_refl).
  discriminate H.
Qed.

(** C9 (amended): with an FQDN the DNS pipeline runs, with the nameserver
    when one was given, and no routing request is made; else with a routing
    token that is not empty the routing pipeline runs, and no DNS query is
    made; with no option at all the one notice is printed and the network is
    not used. *)
Theorem main_dispatch (w : World) (args : Namespace) :
  (forall name, arg_fqdn args = Some name ->
     main w args = fqdn w name (arg_nameserver args)
     /\ http_requests (fst (main w args)) = [])
  /\ (forall token, arg_fqdn args = None -> arg_bgp args = Some token -> token <> "" ->
        main w args = bgp w token
        /\ dns_queries (fst (main w args)) = [])
  /\ (arg_fqdn args = None -> arg_nameserver args = None -> arg_subnet args = None ->
      arg_target_host args = None -> arg_bgp args = None ->
        main w args = ([Print "No arguments provided. Use --help for more information."], Ok tt)
        /\ network_calls (fst (main w args)) = []).
Proof.
  split; [|split].
  - intros name Hf.
    assert (H : main w args = fqdn w name (arg_nameserver args)).
    { unfold main. rewrite Hf. destruct (arg_nameserver args); reflexivity. }
    rewrite H. split; [reflexivity|].
    apply (fqdn_trace w name (arg_nameserver args)).
  - intros token Hf Hb Hne.
    assert (H : main w args = bgp w token).
    { unfold main. rewrite Hf, Hb. destruct token; [congruence|].
      simpl. rewrite !andb_false_r. reflexivity. }
    rewrite H. split; [reflexivity|].
    apply no_dns_queries. apply (bgp_within w token).
  - intros Hf Hn Hs Ht Hb. unfold main. rewrite Hf, Hn, Hs, Ht, Hb. split; reflexivity.
Qed.

Lemma main_dispatch_witness :
  main sample_world (mkNamespace (Some "example.com") (Some "9.9.9.9") None None (Some "15169"))
  = fqdn sample_world "example.com" (Some "9.9.9.9")
  /\ main sample_world (mkNamespace None None None None (Some "15169"))
     = bgp sample_world "15169"
  /\ main sample_world no_args
     = ([Print "No arguments provided. Use --help for more information."], Ok tt).
Proof.
  split; [|split].
  - apply (proj1 (main_dispatch sample_world
             (mkNamespace (Some "example.com") (Some "9.9.9.9") None None (Some "15169")))
             "example.com" eq_refl).
  - assert (Hne : "15169" <> "") by discriminate.
    apply (proj1 (proj2 (main_dispatch sample_world
             (mkNamespace None None None None (Some "15169")))) "15169" eq_refl eq_refl Hne).
  - apply (proj2 (proj2 (main_dispatch sample_world no_args))
             eq_refl eq_refl eq_refl eq_refl eq_refl).
Defined.

(** C10: with neither [--fqdn] nor [--bgp], and at least one of the other
    options, [main] prints nothing and does not use the network. *)
Theorem main_inert_flags (w : World) (args : Namespace) :
  arg_fqdn args = None ->
  arg_bgp args = None ->
  arg_nameserver args <> None \/ arg_subnet args <> None \/ arg_target_host args <> None ->
  main w args = ([], Ok tt).
Proof.
  intros Hf Hb Hsome. unfold main. rewrite Hf, Hb.
  destruct (arg_nameserver args), (arg_subnet args), (arg_target_host args);
    try reflexivity.
  destruct Hsome as [H|[H|H]]; congruence.
Qed.

Lemma main_inert_flags_witness :
  main sample_world (mkNamespace None (Some "9.9.9.9") None None None) = ([], Ok tt)
  /\ main sample_world (mkNamespace None None (Some "10.0.0.0/8") None None) = ([], Ok tt)
  /\ main sample_world (mkNamespace None None None (Some "10.0.0.1:80") None) = ([], Ok tt).
Proof.
  split; [|split].
  - apply (main_inert_flags sample_world (mkNamespace None (Some "9.9.9.9") None None None));
      [reflexivity|reflexivity|left; discriminate].
  - apply (main_inert_flags sample_world (mkNamespace None None (Some "10.0.0.0/8") None None));
      [reflexivity|reflexivity|right; left; discriminate].
  - apply (main_inert_flags sample_world (mkNamespace None None None (Some "10.0.0.1:80") None));
      [reflexivity|reflexivity|right; right; discriminate].
Defined.

(** ** The rows of the tables *)

Lemma text_cell (key : string) (fields : list (string * json)) :
  has_text key (JObj fields) = true ->
  exists v, lookup key fields = Some v /\ render_cell v = Ok (cell_text v).
Proof.
  unfold has_text. destruct (lookup key fields) as [[]|]; try discriminate; eauto.
Qed.

Lemma present_field (key : string) (fields : list (string * json)) :
  has_field key (JObj fields) = true -> exists v, lookup key fields = Some v.
Proof.
  unfold has_field. destruct (lookup key fields); [eauto|discriminate].
Qed.

Lemma subscript_field (key : string) (fields : list (string * json)) (v : json) :
  lookup key fields = Some v -> subscript (JObj fields) key = Ok v.
Proof. intros H. simpl. rewrite H. reflexivity. Qed.

Lemma has_text_object (key : string) (v : json) :
  has_text key v = true -> exists fields, v = JObj fields.
Proof. destruct v; try discriminate; eauto. Qed.

Lemma add_row_cells (t : Table) (cells : list json) :
  Forall (fun v => render_cell v = Ok (cell_text v)) cells ->
  add_row t cells = Ok (add_row_text t (map cell_text cells)).
Proof.
  intros H. unfold add_row.
  assert (E : render_cells cells = Ok (map cell_text cells)).
  { induction H as [|v rest Hv _ IH]; simpl; [reflexivity|]. rewrite Hv, IH. reflexivity. }
  rewrite E. reflexivity.
Qed.

Ltac cells_render :=
  repeat (apply Forall_cons; [assumption || reflexivity|]); apply Forall_nil.

Lemma asn_rows_entries (entries : list json) (table : Table) :
  forallb is_prefix_entry entries = true ->
  asn_rows table entries
  = Ok (mkTable (title table) (columns table)
          (rows table ++ map AsnPrefixRow_of entries)%list).
Proof.
  revert table. induction entries as [|e rest IH]; intros table H.
  - simpl. rewrite app_nil_r. destruct table; reflexivity.
  - simpl in H. apply andb_true_iff in H as [He Hrest].
    unfold is_prefix_entry in He.
    apply andb_true_iff in He as [He Hcidr]. apply andb_true_iff in He as [Hname Hpfx].
    destruct (has_text_object _ _ Hname) as [fields ->].
    destruct (text_cell _ _ Hname) as [name [Lname Rname]].
    destruct (text_cell _ _ Hpfx) as [pfx [Lpfx Rpfx]].
    destruct (present_field _ _ Hcidr) as [cidr Lcidr].
    cbn [asn_rows subscript bind_result]. rewrite Lname, Lpfx, Lcidr.
    cbn [bind_result]. rewrite add_row_cells by cells_render.
    cbn [bind_result]. rewrite (IH _ Hrest).
    cbn [map]. unfold AsnPrefixRow_of at 2. unfold field. rewrite Lname, Lpfx, Lcidr.
    cbn [add_row_text title columns rows map cell_text]. rewrite <- app_assoc. reflexivity.
Qed.

Lemma asn_table_entries (asn : N) (data : json) (entries : list json) :
  ipv4_prefixes_of data = Some entries ->
  asn_table asn data
  = asn_rows (mkTable ("ASN " ++ str_N asn ++ " Information")
                ["Name"; "Prefix"; "CIDR"; "Status"] []) entries.
Proof.
  unfold ipv4_prefixes_of, asn_table. destruct data as [| | | | |top]; try discriminate.
  cbn [dict_get]. destruct (lookup "data" top) as [[| | | | |info]|]; try discriminate.
  - cbn [bind_result dict_get].
    destruct (lookup "ipv4_prefixes" info) as [[| | | |items|]|]; try discriminate;
      intros H; inversion H; reflexivity.
  - intros H; inversion H; reflexivity.
Qed.

(** ** Texts without markup *)

Lemma all_chars_app (p : ascii -> bool) (a b : string) :
  all_chars p (a ++ b) = all_chars p a && all_chars p b.
Proof.
  induction a as [|c rest IH]; simpl; [reflexivity|]. rewrite IH, andb_assoc. reflexivity.
Qed.

Lemma plain_text_app (a b : string) :
  plain_text (a ++ b) = plain_text a && plain_text b.
Proof.
  unfold plain_text, has_char. rewrite !negb_involutive. apply all_chars_app.
Qed.

Lemma decimal_plain (s : string) : all_chars is_decimal s = true -> plain_text s = true.
Proof.
  intros H. unfold plain_text, has_char. rewrite negb_involutive.
  apply all_chars_impl with (p := is_decimal); [|exact H].
  intros c Hc. apply negb_true_iff. destruct (Ascii.eqb c "[") eqn:E; [|reflexivity].
  apply Ascii.eqb_eq in E. subst c. discriminate Hc.
Qed.

(** ** Decimal text and back *)

Lemma decimal_value_from_pos (d : Decimal.uint) (p : positive) :
  decimal_value_from (Npos p) (NilEmpty.string_of_uint d) = Npos (Pos.of_uint_acc d p).
Proof.
  revert p. induction d; intros p; cbn [NilEmpty.string_of_uint decimal_value_from Pos.of_uint_acc];
    [reflexivity| | | | | | | | | |];
    match goal with
    | |- decimal_value_from ?acc _ = Npos (Pos.of_uint_acc _ ?q) =>
        replace acc with (Npos q) by (unfold digit_value, code; simpl N_of_ascii; lia)
    end; apply IHd.
Qed.

Lemma decimal_value_from_zero (d : Decimal.uint) :
  decimal_value_from 0 (NilEmpty.string_of_uint d) = Pos.of_uint d.
Proof.
  induction d; cbn [NilEmpty.string_of_uint decimal_value_from Pos.of_uint];
    [reflexivity|exact IHd| | | | | | | | |];
    match goal with
    | |- decimal_value_from ?acc _ = Npos (Pos.of_uint_acc _ ?q) =>
        change acc with (Npos q)
    end; apply decimal_value_from_pos.
Qed.

Lemma digits_of_uint (d : Decimal.uint) :
  all_chars is_decimal (NilEmpty.string_of_uint d) = true.
Proof. induction d; simpl; auto. Qed.

Lemma str_N_decimal (n : N) :
  str_N n <> "" /\ all_chars is_decimal (str_N n) = true /\ decimal_value (str_N n) = n.
Proof.
  unfold str_N, NilZero.string_of_uint, decimal_value.
  pose proof (DecimalN.Unsigned.of_to n) as Hback. unfold N.of_uint in Hback.
  pose proof (decimal_value_from_zero (N.to_uint n)) as Hvalue.
  pose proof (digits_of_uint (N.to_uint n)) as Hdigits.
  destruct (N.to_uint n);
    (split; [discriminate|split; [exact Hdigits || reflexivity|]]);
    [subst n; reflexivity|rewrite Hvalue; exact Hback ..].
Qed.

(** The table of an ASN without prefixes has no markup in it. *)
Lemma empty_asn_table_plain (asn : N) :
  plain (RTable (mkTable ("ASN " ++ str_N asn ++ " Information")
                   ["Name"; "Prefix"; "CIDR"; "Status"] [])) = true.
Proof.
  destruct (str_N_decimal asn) as [_ [Hdec _]].
  cbn [plain title columns rows forallb].
  rewrite !plain_text_app, (decimal_plain _ Hdec). reflexivity.
Qed.

(** ** The rows of the ASN table *)

(** C6: on a response with status 200 the table of the ASN holds one row
    per entry of [data.ipv4_prefixes], in the order of the list, with the
    name, the prefix and the cidr of the entry and the fixed mark; with no
    such field, or an empty list, the table has no row, and is shown; on any
    other status nothing is shown and nothing is raised.  A table with rows
    is shown when [rich] takes the texts of its cells. *)
Theorem asn_lookup_rows (w : World) (asn : N) (status : Z) (content : body) :
  http_get w (BGPVIEW ++ "/asn/" ++ str_N asn ++ "/prefixes") = Response status content ->
  (status <> 200%Z ->
     asn_lookup w asn = ([HttpGet (BGPVIEW ++ "/asn/" ++ str_N asn ++ "/prefixes")], Ok tt))
  /\ (status = 200%Z ->
      forall data entries,
        content = Json data ->
        ipv4_prefixes_of data = Some entries ->
        forallb is_prefix_entry entries = true ->
        let table := mkTable ("ASN " ++ str_N asn ++ " Information")
                             ["Name"; "Prefix"; "CIDR"; "Status"]
                             (map AsnPrefixRow_of entries) in
        asn_table asn data = Ok table
        /\ List.length (rows table) = List.length entries
        /\ (renders w (RTable table) \/ entries = [] ->
            asn_lookup w asn
            = ([HttpGet (BGPVIEW ++ "/asn/" ++ str_N asn ++ "/prefixes");
                ConsoleTable table], Ok tt))).
Proof.
  intros Hget. split.
  - intros Hstatus. apply (asn_lookup_not_200 _ _ _ _ Hget Hstatus).
  - intros -> data entries -> Hentries Hwf table.
    assert (Htable : asn_table asn data = Ok table).
    { rewrite (asn_table_entries _ _ _ Hentries), (asn_rows_entries _ _ Hwf). reflexivity. }
    split; [exact Htable|]. split; [apply length_map|].
    intros Hshown.
    assert (Hr : renders w (RTable table)).
    { destruct Hshown as [Hr | ->]; [exact Hr|].
      apply plain_renders. apply empty_asn_table_plain. }
    rewrite (asn_lookup_json _ _ _ Hget), Htable, (console_print_table_renders _ _ Hr).
    reflexivity.
Qed.

Lemma asn_lookup_rows_witness :
  (asn_table 13335 cloudflare_prefixes
   = Ok (mkTable "ASN 13335 Information" ["Name"; "Prefix"; "CIDR"; "Status"]
           [["CF-1"; "1.1.1.0/24"; "24"; check_mark]])
   /\ asn_lookup sample_world 13335
      = ([HttpGet "https://api.bgpview.io/asn/13335/prefixes";
          ConsoleTable (mkTable "ASN 13335 Information" ["Name"; "Prefix"; "CIDR"; "Status"]
                          [["CF-1"; "1.1.1.0/24"; "24"; check_mark]])], Ok tt))
  /\ asn_lookup sample_world 15169
     = ([HttpGet "https://api.bgpview.io/asn/15169/prefixes"], Ok tt).
Proof.
  split.
  - destruct (proj2 (asn_lookup_rows sample_world 13335 200 (Json cloudflare_prefixes) eq_refl)
                eq_refl cloudflare_prefixes
                [JObj [("prefix", JStr "1.1.1.0/24"); ("ip", JStr "1.1.1.0");
                       ("cidr", JNum 24); ("name", JStr "CF-1")]]
                eq_refl eq_refl eq_refl) as [Htable [_ Hshown]].
    split; [exact Htable|]. apply Hshown. left. reflexivity.
  - assert (Hstatus : 429%Z <> 200%Z) by discriminate.
    apply (proj1 (asn_lookup_rows sample_world 15169 429
                    (NotJson "Expecting value: line 1 column 1 (char 0)") eq_refl) Hstatus).
Defined.

(** ** The rows of the prefix tables *)

Lemma upstream_rows_upstreams (owner : json) (upstreams : list json) (table : Table) :
  has_field "asn" owner = true -> has_text "name" owner = true ->
  has_text "description" owner = true -> has_text "country_code" owner = true ->
  forallb is_upstream upstreams = true ->
  upstream_rows table owner upstreams
  = Ok (mkTable (title table) (columns table)
          (rows table ++ map (AsnDetailRow_of owner) upstreams)%list).
Proof.
  intros Hasn Hname Hdesc Hcc.
  destruct (has_text_object _ _ Hname) as [fields ->].
  destruct (present_field _ _ Hasn) as [number Lnumber].
  destruct (text_cell _ _ Hname) as [name [Lname Rname]].
  destruct (text_cell _ _ Hdesc) as [desc [Ldesc Rdesc]].
  destruct (text_cell _ _ Hcc) as [cc [Lcc Rcc]].
  revert table. induction upstreams as [|u rest IH]; intros table H.
  - simpl. rewrite app_nil_r. destruct table; reflexivity.
  - simpl in H. apply andb_true_iff in H as [Hu Hrest].
    unfold is_upstream in Hu. apply andb_true_iff in Hu as [Huasn Huname].
    destruct (has_text_object _ _ Huname) as [ufields ->].
    destruct (present_field _ _ Huasn) as [unumber Lunumber].
    destruct (text_cell _ _ Huname) as [uname [Luname Runame]].
    cbn [upstream_rows subscript bind_result].
    rewrite Lnumber, Lname, Ldesc, Lcc, Lunumber, Luname.
    cbn [bind_result]. rewrite add_row_cells by cells_render.
    cbn [bind_result]. rewrite (IH _ Hrest).
    cbn [map]. unfold AsnDetailRow_of at 2. unfold field.
    rewrite Lnumber, Lname, Ldesc, Lcc, Lunumber, Luname.
    cbn [add_row_text title columns rows map cell_text]. rewrite <- app_assoc. reflexivity.
Qed.

Lemma asn_detail_rows_owners (owners : list json) (table : Table) :
  forallb is_owner owners = true ->
  asn_detail_rows table owners
  = Ok (mkTable (title table) (columns table)
          (rows table
           ++ flat_map (fun owner => map (AsnDetailRow_of owner) (upstreams_of owner)) owners)%list).
Proof.
  revert table. induction owners as [|owner rest IH]; intros table H.
  - simpl. rewrite app_nil_r. destruct table; reflexivity.
  - simpl in H. apply andb_true_iff in H as [Ho Hrest].
    unfold is_owner in Ho. apply andb_true_iff in Ho as [Ho Hups].
    apply andb_true_iff in Ho as [Hfield Harray].
    destruct owner as [| | | | |fields]; try discriminate.
    destruct (present_field _ _ Hfield) as [ups Lups].
    unfold upstreams_of, field in *. rewrite Lups in *.
    destruct ups as [| | | |upstreams|]; try discriminate.
    cbn [asn_detail_rows subscript bind_result]. rewrite Lups.
    cbn [bind_result py_iter items_of] in *.
    assert (E : upstream_rows table (JObj fields) upstreams
                = Ok (mkTable (title table) (columns table)
                        (rows table ++ map (AsnDetailRow_of (JObj fields)) upstreams)%list)).
    { destruct upstreams as [|u more].
      - simpl. rewrite app_nil_r. destruct table; reflexivity.
      - repeat (apply andb_true_iff in Hups as [Hups ?]).
        apply upstream_rows_upstreams; assumption. }
    rewrite E. cbn [bind_result]. rewrite (IH _ Hrest).
    cbn [flat_map title columns rows]. rewrite Lups. cbn [items_of].
    rewrite <- app_assoc. reflexivity.
Qed.

Lemma description_cell (fields : list (string * json)) :
  has_text "description_short" (JObj fields) = true ->
  exists test description,
    lookup "description_short" fields = Some test
    /\ (if truthy test then Ok test else Ok (JStr "UNKNOWN")) = Ok description
    /\ render_cell description = Ok (cell_text description)
    /\ cell_text description = description_of (JObj fields).
Proof.
  unfold has_text, description_of, field.
  destruct (lookup "description_short" fields) as [[| | |s| |]|] eqn:E; try discriminate; intros _.
  - exists JNull, (JStr "UNKNOWN"). repeat split.
  - destruct s as [|c rest].
    + exists (JStr ""), (JStr "UNKNOWN"). repeat split.
    + exists (JStr (String c rest)), (JStr (String c rest)). repeat split.
Qed.

Lemma prefix_summary_row_info (table : Table) (info : json) :
  is_prefix_info info = true ->
  prefix_summary_row table info = Ok (add_row_text table (PrefixSummaryRow_of info)).
Proof.
  unfold is_prefix_info. intros H.
  repeat (apply andb_true_iff in H as [H ?]).
  destruct (has_text_object _ _ H) as [fields ->].
  destruct (text_cell _ _ H) as [name [Lname Rname]].
  match goal with Hp : has_text "prefix" _ = true |- _ =>
    destruct (text_cell _ _ Hp) as [pfx [Lpfx Rpfx]] end.
  match goal with Hp : has_text "ip" _ = true |- _ =>
    destruct (text_cell _ _ Hp) as [ip [Lip Rip]] end.
  match goal with Hp : has_text "description_short" _ = true |- _ =>
    destruct (description_cell _ Hp) as [test [description [Ltest [Edesc [Rdesc Cdesc]]]]] end.
  match goal with Hp : has_field "asns" _ = true |- _ =>
    destruct (present_field _ _ Hp) as [asns Lasns] end.
  unfold prefix_summary_row.
  rewrite (subscript_field _ _ _ Lname), (subscript_field _ _ _ Lpfx),
    (subscript_field _ _ _ Lip), !(subscript_field _ _ _ Ltest), (subscript_field _ _ _ Lasns).
  cbn [bind_result]. rewrite Edesc. cbn [bind_result].
  match goal with Hp : is_array _ = true |- _ =>
    unfold field in Hp; rewrite Lasns in Hp;
    destruct asns as [| | | |owners|]; try discriminate Hp end.
  cbn [py_len bind_result]. rewrite add_row_cells by cells_render.
  unfold PrefixSummaryRow_of, owners_of, field. rewrite Lname, Lpfx, Lip, Lasns, <- Cdesc.
  reflexivity.
Qed.

Lemma prefix_tables_info (prefix : string) (data : json) :
  is_prefix_info (field "data" data) = true ->
  forallb is_owner (owners_of (field "data" data)) = true ->
  prefix_tables prefix data
  = Ok (mkTable ("Prefix " ++ prefix ++ " Information")
          ["Name"; "Prefix"; "IP"; "Description"; "ASN Count"; "Status"]
          [PrefixSummaryRow_of (field "data" data)],
        mkTable ("ASN Information for " ++ prefix)
          ["ASN"; "Name"; "Description"; "Country Code"; "Upstream ASNs"; "Upstream ASN Names"]
          (flat_map (fun owner => map (AsnDetailRow_of owner) (upstreams_of owner))
                    (owners_of (field "data" data)))).
Proof.
  intros Hinfo Howners. unfold prefix_tables.
  assert (Hdata : dict_get data "data" (JObj []) = Ok (field "data" data)).
  { destruct data as [| | | | |top]; try discriminate Hinfo.
    unfold field in *. simpl. destruct (lookup "data" top); [reflexivity|discriminate Hinfo]. }
  rewrite Hdata. cbn [bind_result]. set (info := field "data" data) in *.
  rewrite (prefix_summary_row_info _ _ Hinfo).
  unfold is_prefix_info in Hinfo. repeat (apply andb_true_iff in Hinfo as [Hinfo ?]).
  destruct (has_text_object _ _ Hinfo) as [fields E]. rewrite E in *.
  match goal with Hp : has_field "asns" _ = true |- _ =>
    destruct (present_field _ _ Hp) as [asns Lasns] end.
  match goal with Hp : is_array _ = true |- _ =>
    unfold field in Hp; rewrite Lasns in Hp;
    destruct asns as [| | | |owners|]; try discriminate Hp end.
  unfold owners_of, field in Howners |- *. rewrite Lasns in Howners |- *.
  cbn [items_of] in Howners |- *.
  cbn [dict_get]. destruct (lookup "ipv4_prefixes" fields);
    cbn [bind_result subscript]; rewrite Lasns; cbn [bind_result py_len py_iter];
    rewrite (asn_detail_rows_owners _ _ Howners); reflexivity.
Qed.

Lemma length_flat_map {A B} (f : A -> list B) (l : list A) :
  List.length (flat_map f l) = list_sum (map (fun a => List.length (f a)) l).
Proof.
  induction l as [|a rest IH]; simpl; [reflexivity|].
  rewrite length_app, IH. reflexivity.
Qed.

(** The description cell of the prefix row, when [description_short] is
    there: its text, or the sentinel for an empty text or [null]. *)
Lemma prefix_summary_description (table : Table) (info : json) :
  is_prefix_info info = true ->
  exists row,
    prefix_summary_row table info = Ok (add_row_text table row)
    /\ nth 3 row ""
       = match field "description_short" info with
         | JStr (String c rest) => String c rest
         | _ => "UNKNOWN"
         end.
Proof.
  intros H. exists (PrefixSummaryRow_of info).
  split; [apply prefix_summary_row_info; exact H|reflexivity].
Qed.

Lemma flat_map_has_upstreams (owners : list json) :
  flat_map (fun owner => map (AsnDetailRow_of owner) (upstreams_of owner))
           (filter has_upstreams owners)
  = flat_map (fun owner => map (AsnDetailRow_of owner) (upstreams_of owner)) owners.
Proof.
  induction owners as [|owner rest IH]; [reflexivity|].
  cbn [filter flat_map]. unfold has_upstreams at 1.
  destruct (upstreams_of owner) eqn:E; cbn [flat_map map app]; rewrite ?E, IH; reflexivity.
Qed.

(** C7: on a well-formed response with status 200 the detail table holds
    one row per owning ASN and upstream of it, the owners in the order of
    [data.asns] and the upstreams of each in the order of its
    [prefix_upstreams]; an owner without upstreams has no row there (the
    table is that of the owners with upstreams alone), and is counted in the
    ASN count of the summary row all the same.  The two tables are shown
    when [rich] takes the texts of their cells. *)
Theorem prefix_lookup_rows (w : World) (prefix : string) (data : json) :
  http_get w (BGPVIEW ++ "/prefix/" ++ prefix) = Response 200 (Json data) ->
  is_prefix_info (field "data" data) = true ->
  forallb is_owner (owners_of (field "data" data)) = true ->
  let owners := owners_of (field "data" data) in
  let summary := PrefixSummaryRow_of (field "data" data) in
  let detail := flat_map (fun owner => map (AsnDetailRow_of owner) (upstreams_of owner)) owners in
  let prefix_table := mkTable ("Prefix " ++ prefix ++ " Information")
                        ["Name"; "Prefix"; "IP"; "Description"; "ASN Count"; "Status"]
                        [summary] in
  let asn_table := mkTable ("ASN Information for " ++ prefix)
                     ["ASN"; "Name"; "Description"; "Country Code"; "Upstream ASNs";
                      "Upstream ASN Names"]
                     detail in
  prefix_tables prefix data = Ok (prefix_table, asn_table)
  /\ (renders w (RTable prefix_table) -> renders w (RTable asn_table) ->
      prefix_lookup w prefix
      = ([HttpGet (BGPVIEW ++ "/prefix/" ++ prefix);
          ConsoleTable prefix_table; ConsoleTable asn_table], Ok tt))
  /\ List.length detail = list_sum (map (fun owner => List.length (upstreams_of owner)) owners)
  /\ detail = flat_map (fun owner => map (AsnDetailRow_of owner) (upstreams_of owner))
                       (filter has_upstreams owners)
  /\ nth 4 summary "" = str_N (N.of_nat (List.length owners)).
Proof.
  intros Hget Hinfo Howners owners summary detail prefix_table asn_table.
  assert (Htables : prefix_tables prefix data = Ok (prefix_table, asn_table))
    by apply (prefix_tables_info _ _ Hinfo Howners).
  split; [exact Htables|]. split; [|split; [|split]].
  - intros Hr1 Hr2. rewrite (prefix_lookup_json _ _ _ Hget), Htables. cbn [fst snd].
    rewrite (console_print_table_renders _ _ Hr1), (console_print_table_renders _ _ Hr2).
    reflexivity.
  - unfold detail. rewrite length_flat_map. f_equal. apply map_ext.
    intros owner. apply length_map.
  - symmetry. apply flat_map_has_upstreams.
  - reflexivity.
Qed.

Lemma prefix_lookup_rows_witness :
  prefix_lookup sample_world "8.8.8.0/24"
  = ([HttpGet "https://api.bgpview.io/prefix/8.8.8.0/24";
      ConsoleTable (mkTable "Prefix 8.8.8.0/24 Information"
                      ["Name"; "Prefix"; "IP"; "Description"; "ASN Count"; "Status"]
                      [["GOGL"; "8.8.8.0/24"; "8.8.8.0"; "UNKNOWN"; "2"; check_mark]]);
      ConsoleTable (mkTable "ASN Information for 8.8.8.0/24"
                      ["ASN"; "Name"; "Description"; "Country Code"; "Upstream ASNs";
                       "Upstream ASN Names"]
                      [["15169"; "GOOGLE"; "Google LLC"; "US"; "6453"; "AS6453"];
                       ["15169"; "GOOGLE"; "Google LLC"; "US"; "3356"; "LEVEL3"]])], Ok tt).
Proof.
  apply (proj1 (proj2 (prefix_lookup_rows sample_world "8.8.8.0/24" google_prefix
                         eq_refl eq_refl eq_refl))); reflexivity.
Defined.

(** ** Responses of an unexpected shape *)

(** C2 (as the code has it): a response with status 200 whose [data] is
    absent or empty makes [bgp] raise: the default of [data.get] is the
    empty dict, [prefix_info['name']] is a [KeyError], and neither handler
    of [bgp] catches it. *)
Theorem bgp_empty_data_raises (w : World) (token prefix : string)
    (top : list (string * json)) :
  isdigit token = false ->
  ip_network w token = Ok prefix ->
  http_get w (BGPVIEW ++ "/prefix/" ++ prefix) = Response 200 (Json (JObj top)) ->
  lookup "data" top = None \/ lookup "data" top = Some (JObj []) ->
  bgp w token = ([HttpGet (BGPVIEW ++ "/prefix/" ++ prefix)], Raise (Exn KeyError "'name'")).
Proof.
  intros Hd Hnet Hget Hdata.
  rewrite (bgp_prefix _ _ _ Hd Hnet), (prefix_lookup_json _ _ _ Hget).
  unfold prefix_tables. cbn [dict_get].
  destruct Hdata as [-> | ->]; reflexivity.
Qed.

Lemma bgp_empty_data_raises_witness :
  bgp sample_world "192.0.2.0/24"
  = ([HttpGet "https://api.bgpview.io/prefix/192.0.2.0/24"], Raise (Exn KeyError "'name'")).
Proof.
  apply (bgp_empty_data_raises sample_world "192.0.2.0/24" "192.0.2.0/24"
           [("status", JStr "ok"); ("data", JObj [])]);
    [reflexivity|reflexivity|reflexivity|right; reflexivity].
Defined.

(** C4 (as the code has it): when [description_short] is absent the prefix
    row is not built: [prefix_info['description_short']] is a [KeyError]
    that leaves [bgp], and no table is shown. *)
Theorem bgp_absent_description_raises (w : World) (token prefix : string)
    (top fields : list (string * json)) (name pfx ip : json) :
  isdigit token = false ->
  ip_network w token = Ok prefix ->
  http_get w (BGPVIEW ++ "/prefix/" ++ prefix) = Response 200 (Json (JObj top)) ->
  lookup "data" top = Some (JObj fields) ->
  lookup "name" fields = Some name ->
  lookup "prefix" fields = Some pfx ->
  lookup "ip" fields = Some ip ->
  lookup "description_short" fields = None ->
  bgp w token
  = ([HttpGet (BGPVIEW ++ "/prefix/" ++ prefix)], Raise (Exn KeyError "'description_short'"))
  /\ tables_shown (fst (bgp w token)) = [].
Proof.
  intros Hd Hnet Hget Hdata Hname Hpfx Hip Hdesc.
  assert (H : bgp w token
              = ([HttpGet (BGPVIEW ++ "/prefix/" ++ prefix)],
                 Raise (Exn KeyError "'description_short'"))).
  { rewrite (bgp_prefix _ _ _ Hd Hnet), (prefix_lookup_json _ _ _ Hget).
    unfold prefix_tables. cbn [dict_get]. rewrite Hdata.
    cbn [bind_result dict_get]. unfold prefix_summary_row. cbn [subscript].
    rewrite Hname, Hpfx, Hip, Hdesc.
    destruct (lookup "ipv4_prefixes" fields); reflexivity. }
  rewrite H. split; reflexivity.
Qed.

Lemma bgp_absent_description_raises_witness :
  bgp sample_world "198.51.100.0/24"
  = ([HttpGet "https://api.bgpview.io/prefix/198.51.100.0/24"],
     Raise (Exn KeyError "'description_short'"))
  /\ tables_shown (fst (bgp sample_world "198.51.100.0/24")) = [].
Proof.
  apply (bgp_absent_description_raises sample_world "198.51.100.0/24" "198.51.100.0/24"
           [("data", JObj [("name", JStr "TEST-NET-2"); ("prefix", JStr "198.51.100.0/24");
                           ("ip", JStr "198.51.100.0"); ("asns", JArr [])])]
           [("name", JStr "TEST-NET-2"); ("prefix", JStr "198.51.100.0/24");
            ("ip", JStr "198.51.100.0"); ("asns", JArr [])]
           (JStr "TEST-NET-2") (JStr "198.51.100.0/24") (JStr "198.51.100.0"));
    reflexivity.
Defined.

(** ** Further runs *)

(** An entry of [ipv4_prefixes] without a name: the [KeyError] leaves [bgp]
    on the ASN path as well. *)
Example bgp_entry_without_name :
  bgp sample_world "64496"
  = ([ConsolePrint "[bold]BGP ASN:[/bold] 64496";
      HttpGet "https://api.bgpview.io/asn/64496/prefixes"], Raise (Exn KeyError "'name'")).
Proof. reflexivity. Qed.

(** Markup in the name that [rich] cannot close: the header is refused, and
    so is the line that reports the refusal, which has the tag in it. *)
Example fqdn_stray_tag :
  fqdn sample_world "[/x]" None
  = ([], Raise (Exn MarkupError
                  "closing tag '[/x]' at position 41 doesn't match any open tag")).
Proof. vm_compute. reflexivity. Qed.

(** A nameserver that is no address: the header, and the error of the
    setter; nothing is queried. *)
Example fqdn_nameserver_by_name :
  fqdn sample_world "example.com" (Some "ns1.example.com")
  = ([dns_header "example.com" "ns1.example.com";
      error_line "nameserver ns1.example.com is not a dns.nameserver.Nameserver instance or text form, IP address, nor a valid https URL"],
     Ok tt).
Proof. vm_compute. reflexivity. Qed.

(** The configuration of the resolver cannot be read. *)
Example fqdn_no_configuration :
  fqdn unconfigured_world "example.com" None
  = ([error_line "Resolver configuration could not be read or specified no nameservers."],
     Ok tt).
Proof. vm_compute. reflexivity. Qed.

(** * Further properties *)

(** ** The routing-data lookup, further *)





(** X2: [bgp] makes at most one HTTP request and no DNS query; for a token
    of at most 4300 decimal digits, once the line that announces the ASN is
    printed, the request is for [/asn/<value>/prefixes], with the integer
    value of the token, and for a network literal it is for
    [/prefix/<network>], with the network in canonical form. *)
Theorem bgp_requests (w : World) (token : string) :
  (List.length (http_requests (fst (bgp w token))) <= 1)%nat
  /\ dns_queries (fst (bgp w token)) = []
  /\ (token <> "" -> all_chars is_decimal token = true ->
      (N.of_nat (String.length token) <= int_max_str_digits)%N ->
      renders w (RText (asn_line_text (decimal_value token))) ->
      http_requests (fst (bgp w token)) = [asn_url (decimal_value token)])
  /\ (forall cidr, isdigit token = false -> ip_network w token = Ok cidr ->
      http_requests (fst (bgp w token)) = [prefix_url cidr]).
Proof.
  split; [|split; [|split]].
  - destruct (bgp_trace w token) as [[-> | [url ->]] _]; simpl; auto.
  - apply no_dns_queries. apply (bgp_within w token).
  - intros Hne Hdec Hlen Hr.
    rewrite (bgp_asn _ _ Hne Hdec Hlen), (console_print_renders _ _ Hr), bind_emit.
    destruct (handled_trace token
                ((ConsolePrint (asn_line_text (decimal_value token))
                    :: fst (asn_lookup w (decimal_value token)))%list,
                 snd (asn_lookup w (decimal_value token)))) as [-> _].
    apply (lookup_outcome_trace _ _ (asn_lookup_outcome w (decimal_value token))).
  - intros cidr Hd Hnet. rewrite (bgp_prefix _ _ _ Hd Hnet).
    destruct (handled_trace token (prefix_lookup w cidr)) as [-> _].
    apply (lookup_outcome_trace _ _ (prefix_lookup_outcome w cidr)).
Qed.

Lemma bgp_requests_witness :
  http_requests (fst (bgp sample_world "0013335")) = ["https://api.bgpview.io/asn/13335/prefixes"]
  /\ http_requests (fst (bgp sample_world "8.8.8.8"))
     = ["https://api.bgpview.io/prefix/8.8.8.8/32"].
Proof.
  assert (Hne : "0013335" <> "") by discriminate.
  assert (Hlen : (N.of_nat (String.length "0013335") <= int_max_str_digits)%N)
    by (vm_compute; discriminate).
  split.
  - exact (proj1 (proj2 (proj2 (bgp_requests sample_world "0013335"))) Hne eq_refl Hlen eq_refl).
  - exact (proj2 (proj2 (proj2 (bgp_requests sample_world "8.8.8.8")))
             "8.8.8.8/32" eq_refl eq_refl).
Defined.

(** X3: when the request itself fails, either path shows the one error
    line with the text of the exception and returns, when [rich] prints the
    line; no table is shown.  On the ASN path the line announcing the ASN
    has been shown before. *)
Theorem bgp_api_unreachable (w : World) (token msg : string) :
  renders w (RText (error_text msg)) ->
  (token <> "" -> all_chars is_decimal token = true ->
   (N.of_nat (String.length token) <= int_max_str_digits)%N ->
   renders w (RText (asn_line_text (decimal_value token))) ->
   http_get w (asn_url (decimal_value token)) = ConnectionFailed msg ->
   bgp w token
   = ([asn_line (decimal_value token); HttpGet (asn_url (decimal_value token));
       error_line msg], Ok tt))
  /\ (forall cidr, isdigit token = false -> ip_network w token = Ok cidr ->
      http_get w (prefix_url cidr) = ConnectionFailed msg ->
      bgp w token = ([HttpGet (prefix_url cidr); error_line msg], Ok tt)).
Proof.
  intros Herr. split.
  - intros Hne Hdec Hlen Hr Hget.
    rewrite (bgp_asn _ _ Hne Hdec Hlen), (console_print_renders _ _ Hr).
    rewrite (asn_lookup_reported _ _ msg) by (left; exact Hget).
    rewrite (console_print_renders _ _ Herr). reflexivity.
  - intros cidr Hd Hnet Hget. rewrite (bgp_prefix _ _ _ Hd Hnet).
    rewrite (prefix_lookup_reported _ _ msg) by (left; exact Hget).
    rewrite (console_print_renders _ _ Herr). reflexivity.
Qed.

Lemma bgp_api_unreachable_witness :
  bgp sample_world "64500"
  = ([asn_line 64500; HttpGet "https://api.bgpview.io/asn/64500/prefixes";
      error_line "Connection refused"], Ok tt)
  /\ bgp sample_world "10.0.0.0/8"
     = ([HttpGet "https://api.bgpview.io/prefix/10.0.0.0/8";
         error_line "Connection refused"], Ok tt).
Proof.
  assert (Hne : "64500" <> "") by discriminate.
  assert (Hlen : (N.of_nat (String.length "64500") <= int_max_str_digits)%N)
    by (vm_compute; discriminate).
  split.
  - exact (proj1 (bgp_api_unreachable sample_world "64500" "Connection refused" eq_refl)
             Hne eq_refl Hlen eq_refl eq_refl).
  - exact (proj2 (bgp_api_unreachable sample_world "10.0.0.0/8" "Connection refused" eq_refl)
             "10.0.0.0/8" eq_refl eq_refl eq_refl).
Defined.

(** X4: a response whose status is not 200 is dropped in silence on either
    path: its body is not read, nothing is shown for it, not even an error,
    and [bgp] returns. *)
Theorem bgp_status_not_200 (w : World) (token : string) (status : Z) (content : body) :
  status <> 200%Z ->
  (token <> "" -> all_chars is_decimal token = true ->
   (N.of_nat (String.length token) <= int_max_str_digits)%N ->
   renders w (RText (asn_line_text (decimal_value token))) ->
   http_get w (asn_url (decimal_value token)) = Response status content ->
   bgp w token
   = ([asn_line (decimal_value token); HttpGet (asn_url (decimal_value token))], Ok tt))
  /\ (forall cidr, isdigit token = false -> ip_network w token = Ok cidr ->
      http_get w (prefix_url cidr) = Response status content ->
      bgp w token = ([HttpGet (prefix_url cidr)], Ok tt)).
Proof.
  intros Hstatus. split.
  - intros Hne Hdec Hlen Hr Hget.
    rewrite (bgp_asn _ _ Hne Hdec Hlen), (console_print_renders _ _ Hr).
    rewrite (asn_lookup_not_200 _ _ _ _ Hget Hstatus). reflexivity.
  - intros cidr Hd Hnet Hget. rewrite (bgp_prefix _ _ _ Hd Hnet).
    rewrite (prefix_lookup_not_200 _ _ _ _ Hget Hstatus). reflexivity.
Qed.

Lemma bgp_status_not_200_witness :
  bgp sample_world "15169"
  = ([asn_line 15169; HttpGet "https://api.bgpview.io/asn/15169/prefixes"], Ok tt).
Proof.
  assert (Hstatus : 429%Z <> 200%Z) by discriminate.
  assert (Hne : "15169" <> "") by discriminate.
  assert (Hlen : (N.of_nat (String.length "15169") <= int_max_str_digits)%N)
    by (vm_compute; discriminate).
  exact (proj1 (bgp_status_not_200 sample_world "15169" 429
                  (NotJson "Expecting value: line 1 column 1 (char 0)") Hstatus)
           Hne eq_refl Hlen eq_refl eq_refl).
Defined.

(** X5: the ASN lookup depends on the integer value of the token alone: two
    tokens of at most 4300 decimal digits with the same value (leading
    zeros) run the same lookup, and [bgp] does the same for both unless the
    lookup ends in the [ValueError] handler, whose first line has the token
    in it. *)
Theorem bgp_same_number (w : World) (token token' : string) :
  token <> "" -> token' <> "" ->
  all_chars is_decimal token = true -> all_chars is_decimal token' = true ->
  (N.of_nat (String.length token) <= int_max_str_digits)%N ->
  (N.of_nat (String.length token') <= int_max_str_digits)%N ->
  decimal_value token = decimal_value token' ->
  let lookup := (console_print w (asn_line_text (decimal_value token)) ;;
                 asn_lookup w (decimal_value token)) in
  bgp w token = handled token lookup
  /\ bgp w token' = handled token' lookup
  /\ ((forall msg, snd lookup <> Raise (Exn ValueError msg)) -> bgp w token = bgp w token').
Proof.
  intros Hne Hne' Hdec Hdec' Hlen Hlen' Hsame lookup. unfold lookup.
  rewrite (bgp_asn _ _ Hne Hdec Hlen), (bgp_asn _ _ Hne' Hdec' Hlen'), <- Hsame.
  split; [reflexivity|]. split; [reflexivity|].
  intros Hno. rewrite !handled_passes by exact Hno. reflexivity.
Qed.

Lemma bgp_same_number_witness :
  bgp sample_world "13335" = bgp sample_world "0013335".
Proof.
  assert (Hne : "13335" <> "") by discriminate.
  assert (Hne' : "0013335" <> "") by discriminate.
  assert (Hlen : (N.of_nat (String.length "13335") <= int_max_str_digits)%N)
    by (vm_compute; discriminate).
  assert (Hlen' : (N.of_nat (String.length "0013335") <= int_max_str_digits)%N)
    by (vm_compute; discriminate).
  apply (proj2 (proj2 (bgp_same_number sample_world "13335" "0013335" Hne Hne' eq_refl eq_refl
                         Hlen Hlen' eq_refl))).
  intros msg. vm_compute. discriminate.
Defined.

(** X6: the prefix lookup depends on the network the literal denotes alone:
    two literals that [ipaddress] reads as the same network (a bare address
    and its /32) run the same lookup, and [bgp] does the same for both
    unless the lookup ends in the [ValueError] handler. *)
Theorem bgp_same_network (w : World) (token token' cidr : string) :
  isdigit token = false -> isdigit token' = false ->
  ip_network w token = Ok cidr -> ip_network w token' = Ok cidr ->
  bgp w token = handled token (prefix_lookup w cidr)
  /\ bgp w token' = handled token' (prefix_lookup w cidr)
  /\ ((forall msg, snd (prefix_lookup w cidr) <> Raise (Exn ValueError msg)) ->
      bgp w token = bgp w token').
Proof.
  intros Hd Hd' Hnet Hnet'.
  rewrite (bgp_prefix _ _ _ Hd Hnet), (bgp_prefix _ _ _ Hd' Hnet').
  split; [reflexivity|]. split; [reflexivity|].
  intros Hno. rewrite !handled_passes by exact Hno. reflexivity.
Qed.

Lemma bgp_same_network_witness :
  bgp sample_world "8.8.8.8" = bgp sample_world "8.8.8.8/32".
Proof.
  apply (proj2 (proj2 (bgp_same_network sample_world "8.8.8.8" "8.8.8.8/32" "8.8.8.8/32"
                         eq_refl eq_refl eq_refl eq_refl))).
  intros msg. vm_compute. discriminate.
Defined.

(** X7: the decimal text of a number is read back as that number, so for
    every ASN [n] whose text has at most 4300 digits the token [str(n)] is
    looked up under [/asn/<that text>/prefixes]. *)
Theorem bgp_decimal_round_trip (w : World) (asn : N) :
  (N.of_nat (String.length (str_N asn)) <= int_max_str_digits)%N ->
  py_int (str_N asn) = Ok asn
  /\ bgp w (str_N asn)
     = handled (str_N asn) (console_print w (asn_line_text asn) ;; asn_lookup w asn)
  /\ (renders w (RText (asn_line_text asn)) ->
      http_requests (fst (bgp w (str_N asn)))
      = [BGPVIEW ++ "/asn/" ++ str_N asn ++ "/prefixes"]).
Proof.
  intros Hlen. destruct (str_N_decimal asn) as [Hne [Hdec Hvalue]].
  split; [|split].
  - rewrite (py_int_decimal _ Hne Hdec Hlen), Hvalue. reflexivity.
  - rewrite (bgp_asn _ _ Hne Hdec Hlen), Hvalue. reflexivity.
  - intros Hr. rewrite (bgp_asn _ _ Hne Hdec Hlen), Hvalue.
    rewrite (console_print_renders _ _ Hr), bind_emit.
    destruct (handled_trace (str_N asn)
                ((ConsolePrint (asn_line_text asn) :: fst (asn_lookup w asn))%list,
                 snd (asn_lookup w asn))) as [-> _].
    apply (lookup_outcome_trace _ _ (asn_lookup_outcome w asn)).
Qed.

Lemma bgp_decimal_round_trip_witness :
  py_int (str_N 13335) = Ok 13335%N
  /\ http_requests (fst (bgp sample_world (str_N 13335)))
     = ["https://api.bgpview.io/asn/13335/prefixes"].
Proof.
  assert (Hlen : (N.of_nat (String.length (str_N 13335)) <= int_max_str_digits)%N)
    by (vm_compute; discriminate).
  destruct (bgp_decimal_round_trip sample_world 13335 Hlen) as [Hint [_ Hreq]].
  split; [exact Hint|]. apply Hreq. reflexivity.
Defined.

(** ** Responses of an unexpected shape, further *)

Lemma asn_rows_app (first rest : list json) (table : Table) :
  asn_rows table (first ++ rest)
  = (table' <~ asn_rows table first; asn_rows table' rest).
Proof.
  revert table. induction first as [|p more IH]; intros table; [reflexivity|].
  cbn [app asn_rows].
  destruct (subscript p "name"); cbn [bind_result]; [|reflexivity].
  destruct (subscript p "prefix"); cbn [bind_result]; [|reflexivity].
  destruct (subscript p "cidr"); cbn [bind_result]; [|reflexivity].
  destruct (add_row table _); cbn [bind_result]; [apply IH|reflexivity].
Qed.

(** X8: one entry of [ipv4_prefixes] without a name spoils the whole ASN
    lookup: the [KeyError] leaves it, and the rows built from the entries
    before are never shown. *)
Theorem asn_lookup_entry_without_name (w : World) (asn : N) (data : json)
    (good rest : list json) (fields : list (string * json)) :
  http_get w (asn_url asn) = Response 200 (Json data) ->
  ipv4_prefixes_of data = Some (good ++ JObj fields :: rest)%list ->
  forallb is_prefix_entry good = true ->
  lookup "name" fields = None ->
  asn_lookup w asn = ([HttpGet (asn_url asn)], Raise (Exn KeyError "'name'")).
Proof.
  intros Hget Hentries Hgood Hname.
  rewrite (asn_lookup_json _ _ _ Hget).
  rewrite (asn_table_entries _ _ _ Hentries), asn_rows_app, (asn_rows_entries _ _ Hgood).
  cbn [bind_result asn_rows subscript]. rewrite Hname. reflexivity.
Qed.

Lemma asn_lookup_entry_without_name_witness :
  asn_lookup sample_world 64496
  = ([HttpGet "https://api.bgpview.io/asn/64496/prefixes"], Raise (Exn KeyError "'name'")).
Proof.
  exact (asn_lookup_entry_without_name sample_world 64496
           (JObj [("data", JObj [("ipv4_prefixes",
                                  JArr [JObj [("prefix", JStr "192.0.2.0/24");
                                              ("cidr", JNum 24)]])])])
           [] [] [("prefix", JStr "192.0.2.0/24"); ("cidr", JNum 24)]
           eq_refl eq_refl eq_refl eq_refl).
Defined.

(** X9: the default of [data.get('data', {})] stands in for an absent key
    only: when [data] is there and is no object ([null], a list, a string, a
    number), the next [.get] is an [AttributeError] that leaves either
    lookup. *)
Theorem lookup_data_not_object (w : World) (top : list (string * json)) (v : json) :
  lookup "data" top = Some v ->
  is_object v = false ->
  let e := Exn AttributeError ("'" ++ type_name v ++ "' object has no attribute 'get'") in
  (forall asn, http_get w (asn_url asn) = Response 200 (Json (JObj top)) ->
     asn_lookup w asn = ([HttpGet (asn_url asn)], Raise e))
  /\ (forall cidr, http_get w (prefix_url cidr) = Response 200 (Json (JObj top)) ->
        prefix_lookup w cidr = ([HttpGet (prefix_url cidr)], Raise e)).
Proof.
  intros Hdata Hobj e. split.
  - intros asn Hget. rewrite (asn_lookup_json _ _ _ Hget).
    unfold asn_table. cbn [dict_get]. rewrite Hdata.
    destruct v; try discriminate Hobj; reflexivity.
  - intros cidr Hget. rewrite (prefix_lookup_json _ _ _ Hget).
    unfold prefix_tables. cbn [dict_get]. rewrite Hdata.
    destruct v; try discriminate Hobj; reflexivity.
Qed.

Lemma lookup_data_not_object_witness :
  asn_lookup null_data_world 13335
  = ([HttpGet "https://api.bgpview.io/asn/13335/prefixes"],
     Raise (Exn AttributeError "'NoneType' object has no attribute 'get'"))
  /\ prefix_lookup null_data_world "8.8.8.0/24"
     = ([HttpGet "https://api.bgpview.io/prefix/8.8.8.0/24"],
        Raise (Exn AttributeError "'NoneType' object has no attribute 'get'")).
Proof.
  split.
  - exact (proj1 (lookup_data_not_object null_data_world [("data", JNull)] JNull
                    eq_refl eq_refl) 13335%N eq_refl).
  - exact (proj2 (lookup_data_not_object null_data_world [("data", JNull)] JNull
                    eq_refl eq_refl) "8.8.8.0/24" eq_refl).
Defined.

(** ** The DNS lookup, further *)



(** With an override, [fqdn] uses the resolver, the setter of its
    nameservers and the renderer, and nothing else of the world. *)
Lemma fqdn_override_world (w w' : World) (name : string) (nameserver : option string) :
  given nameserver = true ->
  resolve w' = resolve w ->
  nameserver_error w' = nameserver_error w ->
  rich_error w' = rich_error w ->
  fqdn w' name nameserver = fqdn w name nameserver.
Proof.
  intros Hgiven Hres Hns Hrich.
  assert (Hmark : forall r, markup_error w' r = markup_error w r)
    by (intros r; unfold markup_error; rewrite Hrich; reflexivity).
  assert (Hrep : forall pre msg, reported w' pre msg = reported w pre msg)
    by (intros pre msg; unfold reported, console_print; rewrite Hmark; reflexivity).
  assert (Hservers : dns_servers w' nameserver = dns_servers w nameserver)
    by (unfold dns_servers; rewrite Hgiven; reflexivity).
  assert (Hrows : forall servers, rows_collected w' servers name = rows_collected w servers name)
    by (intros servers; unfold rows_collected; rewrite Hres; reflexivity).
  assert (Htrace : forall shown,
            dns_trace w' name nameserver shown = dns_trace w name nameserver shown)
    by (intros shown; unfold dns_trace; rewrite Hservers; reflexivity).
  destruct (markup_error w (RText (header_text name (text_of nameserver))))
    as [msg|] eqn:Hhead.
  - rewrite (fqdn_header_refused w name nameserver msg),
      (fqdn_header_refused w' name nameserver msg);
      [apply Hrep|right; exact Hgiven|rewrite Hgiven, Hmark; exact Hhead
      |right; exact Hgiven|rewrite Hgiven; exact Hhead].
  - assert (Hhead' : renders w' (RText (header_text name (text_of nameserver))))
      by (unfold renders; rewrite Hmark; exact Hhead).
    destruct (nameserver_error w (text_of nameserver)) as [msg|] eqn:Hn.
    + rewrite (fqdn_override_refused w name nameserver msg Hgiven Hhead Hn).
      rewrite (fqdn_override_refused w' name nameserver msg Hgiven Hhead')
        by (rewrite Hns; exact Hn).
      apply Hrep.
    + assert (Hready : resolver_ready w nameserver = Some (text_of nameserver))
        by (unfold resolver_ready; rewrite Hgiven, Hn; reflexivity).
      assert (Hready' : resolver_ready w' nameserver = Some (text_of nameserver))
        by (unfold resolver_ready; rewrite Hgiven, Hns, Hn; reflexivity).
      destruct (markup_error w (RTable (dns_table name (text_of nameserver)
                  (rows_collected w (dns_servers w nameserver) name)))) as [msg|] eqn:Ht.
      * rewrite (fqdn_table_refused w name nameserver _ msg Hready Hhead Ht).
        rewrite (fqdn_table_refused w' name nameserver _ msg Hready' Hhead')
          by (rewrite Hmark, Hservers, Hrows; exact Ht).
        rewrite Hrep, Htrace. reflexivity.
      * rewrite (fqdn_with_resolver w name nameserver _ Hready Hhead Ht).
        rewrite (fqdn_with_resolver w' name nameserver _ Hready' Hhead')
          by (unfold renders; rewrite Hmark, Hservers, Hrows; exact Ht).
        rewrite Htrace, Hservers, Hrows. reflexivity.
Qed.

(** X11: a nameserver override the resolver takes replaces the system's
    resolvers: every query goes to that one server; one it does not take is
    reported after the header, and nothing is queried.  Either way the
    outcome does not depend on the configured resolvers (nor on [ipaddress]
    or the API).  An override that is the empty string is no override. *)
Theorem fqdn_override (w : World) (name ns : string) :
  ns <> "" ->
  renders w (RText (header_text name ns)) ->
  (nameserver_error w ns = None ->
   renders w (RTable (dns_table name ns (rows_collected w [ns] name))) ->
   fqdn w name (Some ns)
   = (dns_header name ns :: map (DnsQuery [ns] name) rdtypes
        ++ [ConsoleTable (dns_table name ns (rows_collected w [ns] name))], Ok tt)%list)
  /\ (forall msg, nameserver_error w ns = Some msg ->
        fqdn w name (Some ns) = reported w [dns_header name ns] msg)
  /\ (forall parse api configured unreadable,
        fqdn (mkWorld parse api configured (resolve w) unreadable
                      (nameserver_error w) (rich_error w)) name (Some ns)
        = fqdn w name (Some ns))
  /\ fqdn w name (Some "") = fqdn w name None.
Proof.
  intros Hne Hhead.
  assert (Hgiven : given (Some ns) = true) by (destruct ns; [congruence|reflexivity]).
  split; [|split; [|split]].
  - intros Hns Htable.
    assert (Hready : resolver_ready w (Some ns) = Some ns)
      by (unfold resolver_ready; rewrite Hgiven; cbn [text_of]; rewrite Hns; reflexivity).
    assert (Hservers : dns_servers w (Some ns) = [ns])
      by (unfold dns_servers; rewrite Hgiven; reflexivity).
    rewrite (fqdn_with_resolver w name (Some ns) ns Hready Hhead);
      try unfold dns_trace; rewrite Hservers; [reflexivity|exact Htable].
  - intros msg Hns. apply (fqdn_override_refused w name (Some ns) msg Hgiven Hhead Hns).
  - intros parse api configured unreadable.
    apply fqdn_override_world; [exact Hgiven|reflexivity ..].
  - unfold fqdn. reflexivity.
Qed.

Lemma fqdn_override_witness :
  fqdn bare_world "example.com" (Some "9.9.9.9")
  = fqdn sample_world "example.com" (Some "9.9.9.9")
  /\ fqdn sample_world "example.com" (Some "ns1.example.com")
     = reported sample_world [dns_header "example.com" "ns1.example.com"]
         "nameserver ns1.example.com is not a dns.nameserver.Nameserver instance or text form, IP address, nor a valid https URL".
Proof.
  split.
  - assert (Hne : "9.9.9.9" <> "") by discriminate.
    exact (proj1 (proj2 (proj2 (fqdn_override sample_world "example.com" "9.9.9.9" Hne eq_refl)))
             ipv4_network sample_api [] None).
  - assert (Hne : "ns1.example.com" <> "") by discriminate.
    exact (proj1 (proj2 (fqdn_override sample_world "example.com" "ns1.example.com"
                            Hne eq_refl)) _ eq_refl).
Defined.

(** X12: a record type that failed adds no row exactly when the text of
    the exception has NXDOMAIN or NODATA somewhere in it, wherever that is:
    in the name that was queried, for instance.  In every other case the one
    error row is added. *)
Theorem collect_rdtype_marker (w : World) (servers : list string) (name rdtype msg : string)
    (table : Table) :
  resolve w servers name rdtype = ResolveFailed msg ->
  (collect_rdtype w servers name rdtype table = table
   <-> (exists pre post, msg = pre ++ "NXDOMAIN" ++ post)
       \/ (exists pre post, msg = pre ++ "NODATA" ++ post))
  /\ (collect_rdtype w servers name rdtype table = table
      \/ collect_rdtype w servers name rdtype table
         = add_row_text table [rdtype; ""; "Error: " ++ msg]).
Proof.
  intros Hfail. unfold collect_rdtype. rewrite Hfail.
  rewrite <- !contains_somewhere.
  destruct (contains "NXDOMAIN" msg), (contains "NODATA" msg); cbn [negb andb];
    (split; [split|]); auto.
  - intros H. exfalso. exact (add_row_text_changes _ _ H).
  - intros [H|H]; discriminate.
Qed.

Lemma collect_rdtype_marker_witness :
  collect_rdtype timeout_world ["192.0.2.53"] "NXDOMAIN.example.com" "A" (new_table "DNS")
  = new_table "DNS".
Proof.
  apply (proj1 (collect_rdtype_marker timeout_world ["192.0.2.53"] "NXDOMAIN.example.com" "A"
                  "The resolution lifetime expired: NXDOMAIN.example.com IN A"
                  (new_table "DNS") eq_refl)).
  left. exists "The resolution lifetime expired: ", ".example.com IN A". reflexivity.
Defined.

(** ** The dispatcher, further *)



(** X14: with no FQDN and a routing token that is the empty string, [main]
    does nothing at all: no lookup, and no notice either, whatever the other
    options are. *)
Theorem main_empty_routing_token (w : World) (args : Namespace) :
  arg_fqdn args = None ->
  arg_bgp args = Some "" ->
  main w args = ([], Ok tt).
Proof.
  intros Hf Hb. unfold main. rewrite Hf, Hb. cbn [is_None nonempty].
  rewrite !andb_false_r. reflexivity.
Qed.

Lemma main_empty_routing_token_witness :
  main sample_world (mkNamespace None None None None (Some "")) = ([], Ok tt).
Proof.
  exact (main_empty_routing_token sample_world (mkNamespace None None None None (Some ""))
           eq_refl eq_refl).
Defined.

(** X15: every table the program shows has, in each of its rows, one cell
    for each of its columns. *)
Theorem main_tables_well_shaped (w : World) (args : Namespace) (t : Table) :
  In t (tables_shown (fst (main w args))) ->
  Forall (fun row => List.length row = List.length (columns t)) (rows t).
Proof.
  intros Hin.
  assert (H : Forall well_shaped (tables_shown (fst (main w args)))).
  { destruct (main_branches w args)
      as [[name [_ ->]]|[[token [_ [_ [_ ->]]]]|[_ [-> | ->]]]].
    - apply (fqdn_trace w name (arg_nameserver args)).
    - apply (bgp_trace w token).
    - constructor.
    - constructor. }
  rewrite Forall_forall in H. exact (H t Hin).
Qed.

Lemma main_tables_well_shaped_witness :
  Forall (fun row => List.length row = 6%nat)
         [["GOGL"; "8.8.8.0/24"; "8.8.8.0"; "UNKNOWN"; "2"; check_mark]].
Proof.
  apply (main_tables_well_shaped sample_world
           (mkNamespace None None None None (Some "8.8.8.0/24"))
           (mkTable "Prefix 8.8.8.0/24 Information"
              ["Name"; "Prefix"; "IP"; "Description"; "ASN Count"; "Status"]
              [["GOGL"; "8.8.8.0/24"; "8.8.8.0"; "UNKNOWN"; "2"; check_mark]])).
  left. reflexivity.
Defined.

(** X16: one run uses one service: either no HTTP request is made, and
    the DNS queries are none or the 16 record types in order; or no DNS
    query is made, and there is exactly one HTTP request. *)
Theorem main_one_service (w : World) (args : Namespace) :
  (http_requests (fst (main w args)) = []
   /\ (dns_queries (fst (main w args)) = [] \/ dns_queries (fst (main w args)) = rdtypes))
  \/ (dns_queries (fst (main w args)) = []
      /\ exists url, http_requests (fst (main w args)) = [url]).
Proof.
  destruct (main_branches w args)
    as [[name [_ ->]]|[[token [_ [_ [_ ->]]]]|[_ [-> | ->]]]].
  - left. destruct (fqdn_trace w name (arg_nameserver args)) as [Hreq [Hq _]].
    split; assumption.
  - assert (Hdns : dns_queries (fst (bgp w token)) = [])
      by (apply no_dns_queries; apply (bgp_within w token)).
    destruct (bgp_trace w token) as [[Hreq | Hreq] _].
    + left. split; [exact Hreq|left; exact Hdns].
    + right. split; assumption.
  - left. split; [reflexivity|left; reflexivity].
  - left. split; [reflexivity|left; reflexivity].
Qed.

(** ** The two messages of [bgp] *)

Lemma prefix_pipeline_not_invalid (w : World) (token cidr : string) :
  handled token (prefix_lookup w cidr) <> invalid_value token.
Proof.
  intros H. destruct (handled_trace token (prefix_lookup w cidr)) as [Hreq _].
  rewrite H in Hreq.
  destruct (lookup_outcome_trace _ _ (prefix_lookup_outcome w cidr)) as [Hurl _].
  rewrite Hurl in Hreq. discriminate Hreq.
Qed.

(** X17: the two lines of the [ValueError] handler, and nothing else, are
    what [bgp] does exactly for the tokens that [str.isdigit] accepts and
    [int] refuses: a superscript digit among the characters, or more than
    4300 decimal digits. *)
Theorem bgp_invalid_value_iff (w : World) (token : string) :
  bgp w token = invalid_value token
  <-> isdigit token = true
      /\ (all_chars is_decimal token = false
          \/ (int_max_str_digits < N.of_nat (String.length token))%N).
Proof.
  split.
  - intros H. destruct (isdigit token) eqn:Hd.
    + split; [reflexivity|].
      destruct (all_chars is_decimal token) eqn:Hdec; [|left; reflexivity].
      right. apply N.lt_nge. intros Hlen.
      assert (Hne : token <> "") by (intros ->; discriminate Hd).
      rewrite (bgp_asn _ _ Hne Hdec Hlen) in H.
      exact (asn_pipeline_not_invalid _ _ _ H).
    + exfalso. destruct (ip_network w token) as [cidr|e] eqn:Hnet.
      * rewrite (bgp_prefix _ _ _ Hd Hnet) in H.
        exact (prefix_pipeline_not_invalid _ _ _ H).
      * rewrite (bgp_unrecognised _ _ _ Hd Hnet) in H. discriminate H.
  - intros [Hd [Hdec|Hlen]].
    + destruct (py_int_refuses token Hdec) as [msg Hint].
      apply (bgp_not_an_integer _ _ _ Hd Hint).
    + destruct (py_int token) as [n|e] eqn:Hint.
      * destruct (py_int_ok _ _ Hint) as [_ [_ [Hle _]]]. lia.
      * apply (bgp_not_an_integer _ _ _ Hd Hint).
Qed.

Lemma bgp_invalid_value_iff_witness :
  bgp sample_world superscript_two = invalid_value superscript_two.
Proof.
  apply (proj2 (bgp_invalid_value_iff sample_world superscript_two)).
  split; [reflexivity|left; reflexivity].
Defined.

(** X18: the table of an ASN is made from [data.ipv4_prefixes] alone: two
    responses with the same list there give the same table, whatever else
    they hold (the IPv6 prefixes are not read). *)
Theorem asn_table_ipv4_only (asn : N) (data data' : json) (entries : list json) :
  ipv4_prefixes_of data = Some entries ->
  ipv4_prefixes_of data' = Some entries ->
  asn_table asn data = asn_table asn data'.
Proof.
  intros H H'. rewrite (asn_table_entries _ _ _ H), (asn_table_entries _ _ _ H').
  reflexivity.
Qed.

Lemma asn_table_ipv4_only_witness :
  asn_table 13335 cloudflare_prefixes = asn_table 13335 cloudflare_both.
Proof.
  exact (asn_table_ipv4_only 13335 cloudflare_prefixes cloudflare_both
           [JObj [("prefix", JStr "1.1.1.0/24"); ("ip", JStr "1.1.1.0");
                  ("cidr", JNum 24); ("name", JStr "CF-1")]]
           eq_refl eq_refl).
Defined.

(** ** The limits of the interpreter and of the renderer *)

(** X19: a response with status 200 whose body holds an integer of more
    digits than the interpreter converts ends in the [ValueError] handler of
    [bgp]: after the request, the two lines about an invalid value are
    printed for a token that was valid, and [bgp] returns. *)
Theorem bgp_response_integer_too_long (w : World) (token cidr msg : string) :
  isdigit token = false -> ip_network w token = Ok cidr ->
  http_get w (prefix_url cidr) = Response 200 (IntegerTooLong msg) ->
  bgp w token
  = ([HttpGet (prefix_url cidr);
      Print ("The value passed to --bgp is invalid: " ++ token ++ ".");
      Print "Make sure the value passed is a valid ASN number of a valid IP Address/Subnet"],
     Ok tt).
Proof.
  intros Hd Hnet Hget.
  rewrite (bgp_prefix _ _ _ Hd Hnet), (prefix_lookup_long_integer _ _ _ Hget).
  apply handled_caught.
Qed.

Lemma bgp_response_integer_too_long_witness :
  bgp long_integer_world "8.8.8.0/24"
  = ([HttpGet "https://api.bgpview.io/prefix/8.8.8.0/24";
      Print "The value passed to --bgp is invalid: 8.8.8.0/24.";
      Print "Make sure the value passed is a valid ASN number of a valid IP Address/Subnet"],
     Ok tt).
Proof.
  exact (bgp_response_integer_too_long long_integer_world "8.8.8.0/24" "8.8.8.0/24" _
           eq_refl eq_refl eq_refl).
Defined.

(** X20: when the configuration of the resolver cannot be read and no
    nameserver is given, [fqdn] shows the text of the exception and nothing
    else: no header, no query, no table. *)
Theorem fqdn_resolver_unconfigured (w : World) (name : string) (nameserver : option string)
    (msg : string) :
  given nameserver = false ->
  configure_error w = Some msg ->
  renders w (RText (error_text msg)) ->
  fqdn w name nameserver = ([error_line msg], Ok tt).
Proof.
  intros Hgiven Hconf Hr.
  rewrite (fqdn_unconfigured _ _ _ _ Hgiven Hconf), (reported_renders _ _ _ Hr).
  reflexivity.
Qed.

Lemma fqdn_resolver_unconfigured_witness :
  fqdn unconfigured_world "example.com" None
  = ([error_line "Resolver configuration could not be read or specified no nameservers."],
     Ok tt).
Proof.
  exact (fqdn_resolver_unconfigured unconfigured_world "example.com" None _
           eq_refl eq_refl eq_refl).
Defined.
